(** * Forward Factor scanner: term structure, forward factor, quality filter

    A shallow embedding of the computational core of the Forward Factor
    scanner ([ff_scanner.py], [ff_nightly_scanner.py], [ff_earnings_yahoo.py],
    [ff_scheduler.py]) and the properties its specification states about it.

    Conventions of the embedding:
    - a Python [float] is read in two ways. [Scanner] and [Nightly] read it
      as an exact real ([R]), with [x ** 0.5] on a non-negative float as
      [sqrt x] and no limit of range: this serves the algebra of the
      formulas and the comparisons of stored values. [Binary64], [Scanner64]
      and [Nightly64] read it as an IEEE 754 binary64 number, with rounding,
      NaN, the infinities and [OverflowError]: this serves what a function
      returns and raises on an arbitrary input;
    - a Python [int] is an integer ([Z]); [int / float] converts with [IZR]
      in the exact reading and with [Binary64.float_of_int] in binary64;
    - a raised exception is a value of [result]; [try ... except] is [try_except];
    - a JSON object key is a [field]: missing, null, or holding a value;
    - a [dict] is an association list in insertion order;
    - calendar dates are day numbers, datetimes are microseconds. *)

From Stdlib Require Import Reals Lra Lia ZArith Ascii String List Bool.
From Stdlib Require Import Permutation Sorted SpecFloat.
Import ListNotations.

Open Scope R_scope.

(** ** Python values, exceptions and comparisons *)

Inductive exn : Type :=
| ZeroDivisionError (msg : string)
| KeyError (key : string)
| TypeError
| AttributeError
| ValueError
| IndexError
| OverflowError (msg : string)
| ProviderError (msg : string).

Inductive result (A : Type) : Type :=
| Ok (a : A)
| Raise (e : exn).

Arguments Ok {A} a.
Arguments Raise {A} e.

Definition bind {A B : Type} (c : result A) (k : A -> result B) : result B :=
  match c with
  | Ok a => k a
  | Raise e => Raise e
  end.

Notation "x <- c ;; k" := (bind c (fun x => k))
  (at level 61, c at next level, right associativity).

(** [try: c  except <classes> as e: h e]; an exception outside [classes]
    propagates. *)
Definition try_except {A : Type}
    (c : result A) (classes : exn -> bool) (h : exn -> result A) : result A :=
  match c with
  | Ok a => Ok a
  | Raise e => if classes e then h e else Raise e
  end.

(** [except Exception] and a bare [except] handle every exception here. *)
Definition Exception : exn -> bool := fun _ => true.

(** [except (KeyError, TypeError)] *)
Definition KeyError_or_TypeError (e : exn) : bool :=
  match e with
  | KeyError _ | TypeError => true
  | _ => false
  end.

(** [str(e)] *)
Definition str (e : exn) : string :=
  match e with
  | ZeroDivisionError msg => msg
  | KeyError key => key
  | TypeError => "unsupported operand type"
  | AttributeError => "object has no attribute"
  | ValueError => "time data does not match format"
  | IndexError => "list index out of range"
  | OverflowError msg => msg
  | ProviderError msg => msg
  end.

(** [x / y] on floats. *)
Definition truediv (x y : R) : result R :=
  if Req_dec_T y 0 then Raise (ZeroDivisionError "float division by zero")
  else Ok (x / y).

Definition Rltb (x y : R) : bool := if Rlt_dec x y then true else false.
Definition Rleb (x y : R) : bool := if Rle_dec x y then true else false.
Definition Rgtb (x y : R) : bool := Rltb y x.
Definition Rgeb (x y : R) : bool := Rleb y x.
Definition Reqb (x y : R) : bool := if Req_dec_T x y then true else false.

(** Truth value of an optional string ([None] and the empty string are
    false). *)
Definition truthy_str (s : option string) : bool :=
  match s with
  | None => false
  | Some EmptyString => false
  | Some (String _ _) => true
  end.

(** A key of a JSON object: absent, [null], or holding a value. *)
Inductive field (A : Type) : Type :=
| Missing
| Null
| Val (a : A).

Arguments Missing {A}.
Arguments Null {A}.
Arguments Val {A} a.

(** [obj[key]] *)
Definition getitem {A : Type} (key : string) (f : field A) : result (option A) :=
  match f with
  | Missing => Raise (KeyError key)
  | Null => Ok None
  | Val a => Ok (Some a)
  end.

(** Using a value as a dict or as a number: [None] raises [TypeError]. *)
Definition not_none {A : Type} (v : option A) : result A :=
  match v with
  | None => Raise TypeError
  | Some a => Ok a
  end.

(** [obj.get(key)] *)
Definition get {A : Type} (f : field A) : option A :=
  match f with
  | Missing | Null => None
  | Val a => Some a
  end.

(** ** Dictionaries in insertion order, keyed by day number *)

Section Dict.
Context {V : Type}.

Fixpoint dict_get (k : Z) (d : list (Z * V)) : option V :=
  match d with
  | [] => None
  | (k', v) :: d' => if Z.eqb k k' then Some v else dict_get k d'
  end.

(** [d[k] = v]: an existing key keeps its position, a new key goes last. *)
Fixpoint dict_set (k : Z) (v : V) (d : list (Z * V)) : list (Z * V) :=
  match d with
  | [] => [(k, v)]
  | (k', v') :: d' =>
      if Z.eqb k k' then (k', v) :: d' else (k', v') :: dict_set k v d'
  end.
End Dict.

(** [d[k].append(v)] on a [defaultdict(list)]. *)
Definition dict_append {V : Type} (k : Z) (v : V) (d : list (Z * list V))
    : list (Z * list V) :=
  let l := match dict_get k d with Some l => l | None => [] end in
  dict_set k (l ++ [v]) d.

(** [sum(l)] on floats. *)
Definition sum (l : list R) : R := fold_left Rplus l 0.

Definition us_per_day : Z := 86400000000.

(** ** Term structure, forward factor and pair selection ([ff_scanner.py]) *)

Module Scanner.

Record GreeksData : Type := { delta : field R }.

Record DetailsData : Type := {
  strike_price : field R;
  expiration_date : field string
}.

(** One contract of the options-chain snapshot. *)
Record OptionData : Type := {
  greeks : field GreeksData;
  details : field DetailsData;
  implied_volatility : field R
}.

(** The value stored per expiration: [{'iv': .., 'dte': .., 'count': ..}]. *)
Record TermPoint : Type := {
  iv : R;
  dte : Z;
  count : nat
}.

(** One entry of [pairs]. *)
Record Pair : Type := {
  front_date : Z;
  front_iv : R;
  front_dte : Z;
  back_date : Z;
  back_iv : R;
  back_dte : Z;
  forward_vol : option R;
  forward_factor : option R
}.

Inductive loop_ctl (A : Type) : Type :=
| Continue
| Break (a : A).

Arguments Continue {A}.
Arguments Break {A} a.

(** [ForwardFactorScanner.calculate_forward_factor] in exact arithmetic; the
    value returned is the triple [(forward_vol, forward_factor, error)].
    [Scanner64.calculate_forward_factor] is the function in binary64. *)
Definition calculate_forward_factor
    (front_iv : R) (front_dte : Z) (back_iv : R) (back_dte : Z)
    : result (option R * option R * option string) :=
  try_except
    (T1 <- truediv (IZR front_dte) 365 ;;
     T2 <- truediv (IZR back_dte) 365 ;;
     sigma1 <- truediv front_iv 100 ;;
     sigma2 <- truediv back_iv 100 ;;
     forward_var <-
       truediv ((sigma2 ^ 2) * T2 - (sigma1 ^ 2) * T1) (T2 - T1) ;;
     if Rltb forward_var 0 then
       Ok (None, None, Some "Negative forward variance"%string)
     else
       let forward_vol := sqrt forward_var * 100 in
       q <- truediv (sigma1 - sqrt forward_var) (sqrt forward_var) ;;
       let forward_factor := q * 100 in
       Ok (Some forward_vol, Some forward_factor, None))
    Exception
    (fun e => Ok (None, None, Some (str e))).

Section WithClock.

(** [datetime.strptime(s, '%Y-%m-%d').date()] as a day number; [None] stands
    for the [ValueError] it raises on a string that does not match. *)
Variable strptime_ymd : string -> option Z.

(** [datetime.now().date()] as a day number. *)
Variable today : Z.

Definition strptime (s : string) : result Z :=
  match strptime_ymd s with
  | Some d => Ok d
  | None => Raise ValueError
  end.

(** [parse_expiration_date]: a [null] string raises [TypeError] inside
    [strptime]; the bare [except] turns every exception into [None]. *)
Definition parse_expiration_date (exp_date_str : option string) : result (option Z) :=
  try_except
    (s <- not_none exp_date_str ;;
     d <- strptime s ;;
     Ok (Some d))
    Exception
    (fun _ => Ok None).

(** [calculate_dte]; a date object is always true, so the [None] branch is
    not taken. *)
Definition calculate_dte (expiration_date : Z) : Z := expiration_date - today.

(** Body of the first loop of [group_by_expiration] for one contract. *)
Definition atm_probe (opt : OptionData) : result (loop_ctl (option R)) :=
  match greeks opt with
  | Missing => Ok Continue
  | Null => Raise AttributeError
  | Val g =>
      match get (delta g) with
      | None => Ok Continue
      | Some d =>
          if Reqb d 0 then Ok Continue
          else
            let delta := Rabs d in
            if Rleb 0.45 delta && Rleb delta 0.55 then
              dt <- getitem "details" (details opt) ;;
              dt <- not_none dt ;;
              strike <- getitem "strike_price" (strike_price dt) ;;
              Ok (Break strike)
            else Ok Continue
      end
  end.

(** The first loop: the strike of the first near-the-money contract. *)
Fixpoint estimate_stock_price (options_data : list OptionData) : result (option R) :=
  match options_data with
  | [] => Ok None
  | opt :: rest =>
      ctl <- try_except (atm_probe opt) Exception (fun _ => Ok Continue) ;;
      match ctl with
      | Continue => estimate_stock_price rest
      | Break strike => Ok strike
      end
  end.

(** Body of the second loop for one contract: the expiration and implied
    volatility to record, or [None] on [continue]. The numbers are exact
    reals, so no operation overflows. *)
Definition atm_iv (stock_price : R) (opt : OptionData) : result (option (Z * R)) :=
  dt <- getitem "details" (details opt) ;;
  dt <- not_none dt ;;
  exp_date_str <- getitem "expiration_date" (expiration_date dt) ;;
  exp_date <- parse_expiration_date exp_date_str ;;
  match exp_date with
  | None => Ok None
  | Some exp_date =>
      strike <- getitem "strike_price" (strike_price dt) ;;
      strike <- not_none strike ;;
      q <- truediv (Rabs (strike - stock_price)) stock_price ;;
      if Rgtb q 0.10 then Ok None
      else
        match get (implied_volatility opt) with
        | None => Ok None
        | Some iv =>
            if Rleb iv 0 || Rgtb iv 500 then Ok None
            else Ok (Some (exp_date, iv))
        end
  end.

(** The second loop. *)
Fixpoint collect_ivs (stock_price : R) (options_data : list OptionData)
    (expirations : list (Z * list R)) : result (list (Z * list R)) :=
  match options_data with
  | [] => Ok expirations
  | opt :: rest =>
      r <- try_except (atm_iv stock_price opt) KeyError_or_TypeError
             (fun _ => Ok None) ;;
      match r with
      | None => collect_ivs stock_price rest expirations
      | Some (exp_date, iv) =>
          collect_ivs stock_price rest (dict_append exp_date iv expirations)
      end
  end.

(** Body of the last loop; [len(iv_list) >= 3] makes the division defined. *)
Definition add_term_point (res : list (Z * TermPoint))
    (item : Z * list R) : list (Z * TermPoint) :=
  let '(exp_date, iv_list) := item in
  if (3 <=? length iv_list)%nat then
    let avg_iv := sum iv_list / INR (length iv_list) in
    let dte := calculate_dte exp_date in
    if negb (dte =? 0)%Z && (dte >? 0)%Z then
      dict_set exp_date {| iv := avg_iv; dte := dte; count := length iv_list |}
        res
    else res
  else res.

(** [ForwardFactorScanner.group_by_expiration] *)
Definition group_by_expiration (options_data : list OptionData)
    : result (list (Z * TermPoint)) :=
  stock_price <- estimate_stock_price options_data ;;
  match stock_price with
  | None => Ok []
  | Some stock_price =>
      if Reqb stock_price 0 then Ok []
      else
        expirations <- collect_ivs stock_price options_data [] ;;
        Ok (fold_left add_term_point expirations [])
  end.

End WithClock.

(** [sorted(items, key=lambda x: x[1]['dte'])]: a stable sort. *)
Fixpoint insert_by_dte (x : Z * TermPoint) (l : list (Z * TermPoint))
    : list (Z * TermPoint) :=
  match l with
  | [] => [x]
  | y :: l' =>
      if (dte (snd x) <=? dte (snd y))%Z then x :: y :: l'
      else y :: insert_by_dte x l'
  end.

Definition sorted_by_dte (l : list (Z * TermPoint)) : list (Z * TermPoint) :=
  fold_right insert_by_dte [] l.

(** Body of the loop of [find_best_pairs] at index [i]. *)
Definition pair_step (sorted_exp : list (Z * TermPoint))
    (pairs : list Pair) (i : nat) : result (list Pair) :=
  match nth_error sorted_exp i, nth_error sorted_exp (i + 1) with
  | Some (front_date, front_data), Some (back_date, back_data) =>
      r <- calculate_forward_factor (iv front_data) (dte front_data)
             (iv back_data) (dte back_data) ;;
      let '(fwd_vol, ff, error) := r in
      if truthy_str error then Ok pairs
      else
        Ok (pairs ++
            [{| front_date := front_date;
                front_iv := iv front_data;
                front_dte := dte front_data;
                back_date := back_date;
                back_iv := iv back_data;
                back_dte := dte back_data;
                forward_vol := fwd_vol;
                forward_factor := ff |}])
  | _, _ => Raise IndexError
  end.

Fixpoint for_each {A B : Type} (body : B -> A -> result B)
    (items : list A) (acc : B) : result B :=
  match items with
  | [] => Ok acc
  | x :: rest => acc' <- body acc x ;; for_each body rest acc'
  end.

(** [ForwardFactorScanner.find_best_pairs] *)
Definition find_best_pairs (expirations : list (Z * TermPoint))
    : result (list Pair) :=
  let sorted_exp := sorted_by_dte expirations in
  for_each (pair_step sorted_exp) (seq 0 (length sorted_exp - 1)) [].

(** The dict [scan_ticker] returns. *)
Record ScanResult : Type := {
  ticker : string;
  pairs : list Pair;
  expirations : list (Z * TermPoint)
}.

(** [min_ff <= pair['forward_factor'] <= max_ff]; comparing [None] with a
    float raises [TypeError]. *)
Definition in_ff_range (min_ff max_ff : R) (p : Pair) : result bool :=
  ff <- not_none (forward_factor p) ;;
  Ok (Rleb min_ff ff && Rleb ff max_ff).

(** [[pair for pair in pairs if min_ff <= pair['forward_factor'] <= max_ff]] *)
Fixpoint filter_pairs (min_ff max_ff : R) (pairs : list Pair)
    : result (list Pair) :=
  match pairs with
  | [] => Ok []
  | p :: rest =>
      keep <- in_ff_range min_ff max_ff p ;;
      rest' <- filter_pairs min_ff max_ff rest ;;
      Ok (if keep then p :: rest' else rest')
  end.

(** Insertion into a list sorted by key; [before a b] tells that an element
    of key [a] stays ahead of a later element of key [b]. *)
Fixpoint insert_by_key {A : Type} (before : R -> R -> bool)
    (x : R * A) (l : list (R * A)) : list (R * A) :=
  match l with
  | [] => [x]
  | y :: l' =>
      if before (fst x) (fst y) then x :: y :: l'
      else y :: insert_by_key before x l'
  end.

(** [list.sort] on computed keys: a stable sort, ascending, or descending
    with [reverse=True] (equal keys keep their order in both). *)
Definition sort_keyed {A : Type} (reverse : bool) (l : list (R * A))
    : list (R * A) :=
  fold_right
    (insert_by_key (fun a b => if reverse then Rleb b a else Rleb a b)) [] l.

(** The keys of a sort are computed for every element before any
    comparison. *)
Fixpoint keyed {A : Type} (key : A -> result R) (l : list A)
    : result (list (R * A)) :=
  match l with
  | [] => Ok []
  | x :: rest =>
      k <- key x ;;
      rest' <- keyed key rest ;;
      Ok ((k, x) :: rest')
  end.

(** [l.sort(key=key, reverse=reverse)] *)
Definition sort_by_key {A : Type} (key : A -> result R) (reverse : bool)
    (l : list A) : result (list A) :=
  decorated <- keyed key l ;;
  Ok (map snd (sort_keyed reverse decorated)).

(** [lambda x: abs(x['forward_factor'])] *)
Definition abs_forward_factor (p : Pair) : result R :=
  ff <- not_none (forward_factor p) ;;
  Ok (Rabs ff).

(** [lambda x: x['forward_factor']] as a sort key: ordering [None] against a
    float raises [TypeError]. *)
Definition forward_factor_key (p : Pair) : result R :=
  not_none (forward_factor p).

Definition with_pairs (r : ScanResult) (new_pairs : list Pair) : ScanResult :=
  {| ticker := ticker r; pairs := new_pairs; expirations := expirations r |}.

Section WithProvider.

Variable strptime_ymd : string -> option Z.
Variable today : Z.

(** What [fetch_options_chain] returns for a ticker: the contracts of the
    snapshot, or the empty list on any failure. *)
Variable fetch_options_chain : string -> list OptionData.

(** [ForwardFactorScanner.scan_ticker] *)
Definition scan_ticker (ticker : string) : result (option ScanResult) :=
  let options := fetch_options_chain ticker in
  match options with
  | [] => Ok None
  | _ :: _ =>
      expirations <- group_by_expiration strptime_ymd today options ;;
      if (List.length expirations <? 2)%nat then Ok None
      else
        pairs <- find_best_pairs expirations ;;
        match pairs with
        | [] => Ok None
        | _ :: _ =>
            Ok (Some {| ticker := ticker;
                        pairs := pairs;
                        expirations := expirations |})
        end
  end.

(** The scanning loop of [scan_multiple]. *)
Fixpoint scan_each (min_ff max_ff : R) (tickers : list string)
    (results : list ScanResult) : result (list ScanResult) :=
  match tickers with
  | [] => Ok results
  | ticker :: rest =>
      r <- scan_ticker ticker ;;
      match r with
      | None => scan_each min_ff max_ff rest results
      | Some r =>
          filtered_pairs <- filter_pairs min_ff max_ff (pairs r) ;;
          match filtered_pairs with
          | [] => scan_each min_ff max_ff rest results
          | _ :: _ =>
              scan_each min_ff max_ff rest
                (results ++ [with_pairs r filtered_pairs])
          end
      end
  end.

(** The sorting loop of [scan_multiple]. *)
Fixpoint sort_each (key : Pair -> result R) (reverse : bool)
    (results : list ScanResult) : result (list ScanResult) :=
  match results with
  | [] => Ok []
  | r :: rest =>
      sorted <- sort_by_key key reverse (pairs r) ;;
      rest' <- sort_each key reverse rest ;;
      Ok (with_pairs r sorted :: rest')
  end.

(** [ForwardFactorScanner.scan_multiple] *)
Definition scan_multiple (tickers : list string) (min_ff max_ff : R)
    (sort_by : string) : result (list ScanResult) :=
  results <- scan_each min_ff max_ff tickers [] ;;
  if String.eqb sort_by "abs" then sort_each abs_forward_factor true results
  else if String.eqb sort_by "ff" then sort_each forward_factor_key false results
  else Ok results.

End WithProvider.

End Scanner.

(** ** Quality filter, scoring and earnings lookup ([ff_nightly_scanner.py]) *)

Module Nightly.

Definition MIN_FORWARD_FACTOR : R := 30.
Definition MIN_DTE : Z := 7.
Definition MAX_DTE : Z := 180.
Definition MIN_IV : R := 15.
Definition MAX_IV : R := 150.

Record Opportunity : Type := {
  ticker : string;
  forward_factor : R;
  signal : string;
  front_date : string;
  front_dte : Z;
  front_iv : R;
  back_date : string;
  back_dte : Z;
  back_iv : R;
  forward_vol : R;
  scan_id : Z;
  opportunity_id : Z;
  has_earnings_soon : bool
}.

Definition is_inverted (self : Opportunity) : bool :=
  Rgtb (front_iv self) (back_iv self).

Definition get_dte_diff (self : Opportunity) : Z :=
  (back_dte self - front_dte self)%Z.

Module Earnings.

Record EarningsInfo : Type := {
  ticker : string;
  earnings_date : option string;
  has_earnings_soon : bool;
  front_is_pre_earnings : bool;
  back_is_post_earnings : bool;
  both_post_earnings : bool
}.

End Earnings.

Definition EarningsInfo : Type := Earnings.EarningsInfo.

(** [FFScannerService.verify_forward_factor] in exact arithmetic;
    [Nightly64.verify_forward_factor] is the function in binary64. *)
Definition verify_forward_factor (opp : Opportunity) : result (R * bool) :=
  try_except
    (if Reqb (forward_vol opp) 0 then Ok (0, false)
     else
       q <- truediv (front_iv opp) (forward_vol opp) ;;
       let calculated_ff := (q - 1) * 100 in
       let matches := Rltb (Rabs (calculated_ff - forward_factor opp)) 2 in
       Ok (calculated_ff, matches))
    Exception
    (fun _ => Ok (0, false)).

(** [FFScannerService.calculate_probability] *)
Definition calculate_probability (opp : Opportunity) : R :=
  let abs_ff := Rabs (forward_factor opp) in
  let base_prob :=
    if Rgeb abs_ff 80 then 85
    else if Rgeb abs_ff 60 then 80
    else if Rgeb abs_ff 40 then 75
    else if Rgeb abs_ff 30 then 70
    else if Rgeb abs_ff 20 then 65
    else 60 in
  if has_earnings_soon opp then base_prob * 0.85 else base_prob.

(** [FFScannerService.calculate_risk_reward] *)
Definition calculate_risk_reward (opp : Opportunity) : R :=
  let abs_ff := Rabs (forward_factor opp) in
  if Rgeb abs_ff 80 then 5
  else if Rgeb abs_ff 60 then 4
  else if Rgeb abs_ff 40 then 3.5
  else if Rgeb abs_ff 30 then 3
  else if Rgeb abs_ff 20 then 2.5
  else 2.

(** A rejection reason: the message of the source with the values it
    interpolates. *)
Inductive Reason : Type :=
| ForwardFactorTooLow (forward_factor : R)
| FrontDTETooShort (front_dte : Z)
| FrontDTETooLong (front_dte : Z)
| FrontIVTooLow (front_iv : R)
| FrontIVTooHigh (front_iv : R)
| FalseSignal (front_iv back_iv forward_factor : R)
| CalculationMismatch (reported calculated : R)
| DTEDifferenceTooSmall (dte_diff : Z).

(** [if cond: rejection_reasons.append(reason)] *)
Definition append_if (cond : bool) (reason : Reason)
    (rejection_reasons : list Reason) : list Reason :=
  if cond then rejection_reasons ++ [reason] else rejection_reasons.

(** [FFScannerService.apply_quality_filters] *)
Definition apply_quality_filters (opp : Opportunity)
    (earnings_info : option EarningsInfo) : result (bool * list Reason) :=
  let rejection_reasons := [] in
  let rejection_reasons :=
    append_if (Rltb (Rabs (forward_factor opp)) MIN_FORWARD_FACTOR)
      (ForwardFactorTooLow (forward_factor opp)) rejection_reasons in
  let rejection_reasons :=
    append_if (front_dte opp <? MIN_DTE)%Z
      (FrontDTETooShort (front_dte opp)) rejection_reasons in
  let rejection_reasons :=
    append_if (front_dte opp >? MAX_DTE)%Z
      (FrontDTETooLong (front_dte opp)) rejection_reasons in
  let rejection_reasons :=
    append_if (Rltb (front_iv opp) MIN_IV)
      (FrontIVTooLow (front_iv opp)) rejection_reasons in
  let rejection_reasons :=
    append_if (Rgtb (front_iv opp) MAX_IV)
      (FrontIVTooHigh (front_iv opp)) rejection_reasons in
  let rejection_reasons :=
    if has_earnings_soon opp && is_inverted opp then
      append_if (Rltb (Rabs (forward_factor opp)) 40)
        (FalseSignal (front_iv opp) (back_iv opp) (forward_factor opp))
        rejection_reasons
    else rejection_reasons in
  r <- verify_forward_factor opp ;;
  let '(calculated_ff, matches) := r in
  let rejection_reasons :=
    append_if (negb matches)
      (CalculationMismatch (forward_factor opp) calculated_ff)
      rejection_reasons in
  let dte_diff := get_dte_diff opp in
  let rejection_reasons :=
    append_if (dte_diff <? 3)%Z
      (DTEDifferenceTooSmall dte_diff) rejection_reasons in
  let is_quality := (List.length rejection_reasons =? 0)%nat in
  Ok (is_quality, rejection_reasons).

(** [FFScannerService.calculate_rating] *)
Definition calculate_rating (opp : Opportunity)
    (earnings_info : option EarningsInfo)
    (probability : R) (risk_reward : R) : Z :=
  let rating := 5%Z in
  let abs_ff := Rabs (forward_factor opp) in
  let rating :=
    if Rgeb abs_ff 80 then (rating + 3)%Z
    else if Rgeb abs_ff 60 then (rating + 2)%Z
    else if Rgeb abs_ff 40 then (rating + 1)%Z
    else rating in
  let rating :=
    match earnings_info with
    | Some info =>
        if Earnings.has_earnings_soon info then
          if Earnings.front_is_pre_earnings info
             && Earnings.back_is_post_earnings info
          then (rating + 1)%Z else rating
        else rating
    | None => rating
    end in
  let rating :=
    if (20 <=? front_dte opp)%Z && (front_dte opp <=? 60)%Z
    then (rating + 1)%Z else rating in
  let rating := if is_inverted opp then (rating - 1)%Z else rating in
  let rating := if Rgeb probability 80 then (rating + 1)%Z else rating in
  let rating := if Rgeb risk_reward 4 then (rating + 1)%Z else rating in
  Z.max 0 (Z.min 10 rating).

(** The rating [analyze_opportunity] gives: probability and risk/reward are
    computed from the same opportunity. *)
Definition analysis_rating (opp : Opportunity)
    (earnings_info : option EarningsInfo) : Z :=
  let probability := calculate_probability opp in
  let risk_reward := calculate_risk_reward opp in
  calculate_rating opp earnings_info probability risk_reward.

Record ResultsData : Type := { next_earnings_date : field string }.

(** What [polygon_client.get_ticker_details] returns. *)
Record TickerDetails : Type := { results : field ResultsData }.

Section WithClock.

(** [datetime.strptime(s, '%Y-%m-%d')], as the day number of the midnight it
    yields; [None] stands for the [ValueError] on a string that does not
    match. *)
Variable strptime_ymd : string -> option Z.

(** [datetime.now()] in microseconds. *)
Variable now : Z.

Definition strptime (s : string) : result Z :=
  match strptime_ymd s with
  | Some d => Ok (d * us_per_day)%Z
  | None => Raise ValueError
  end.

(** [FFScannerService.get_earnings_info]; [polygon_client] is [None] when no
    API key is configured, otherwise the provider's lookup. *)
Definition get_earnings_info
    (polygon_client : option (string -> result TickerDetails))
    (ticker front_date back_date : string) : result (option EarningsInfo) :=
  match polygon_client with
  | None => Ok None
  | Some get_ticker_details =>
      try_except
        (ticker_details <- get_ticker_details ticker ;;
         let earnings_date :=
           match get (results ticker_details) with
           | Some results => get (next_earnings_date results)
           | None => None
           end in
         match earnings_date with
         | Some (String c s) =>
             let earnings_date := String c s in
             earnings_dt <- strptime earnings_date ;;
             front_dt <- strptime front_date ;;
             back_dt <- strptime back_date ;;
             let front_is_pre := (front_dt <? earnings_dt)%Z in
             let back_is_post := (back_dt >? earnings_dt)%Z in
             let both_post :=
               (front_dt >? earnings_dt)%Z && (back_dt >? earnings_dt)%Z in
             let has_earnings_soon :=
               (Z.abs ((earnings_dt - now) / us_per_day) <? 60)%Z in
             Ok (Some
               {| Earnings.ticker := ticker;
                  Earnings.earnings_date := Some earnings_date;
                  Earnings.has_earnings_soon := has_earnings_soon;
                  Earnings.front_is_pre_earnings := front_is_pre;
                  Earnings.back_is_post_earnings := back_is_post;
                  Earnings.both_post_earnings := both_post |})
         | _ =>
             Ok (Some
               {| Earnings.ticker := ticker;
                  Earnings.earnings_date := None;
                  Earnings.has_earnings_soon := false;
                  Earnings.front_is_pre_earnings := false;
                  Earnings.back_is_post_earnings := false;
                  Earnings.both_post_earnings := false |})
         end)
        Exception
        (fun _ => Ok None)
  end.

End WithClock.

Definition MIN_PROBABILITY : R := 70.
Definition MIN_RISK_REWARD : R := 3.

(** A JSON scalar. *)
Inductive json : Type :=
| JNull
| JBool (b : bool)
| JInt (z : Z)
| JFloat (r : R)
| JStr (s : string).

Module Raw.

(** One entry of [scan_data['opportunities']]: [None] stands for a missing
    key. The keys read without conversion hold a string (an integer for
    [id]) when present. *)
Record Entry : Type := {
  ticker : option string;
  forward_factor : option json;
  signal : option string;
  front_date : option string;
  front_dte : option json;
  front_iv : option json;
  back_date : option string;
  back_dte : option json;
  back_iv : option json;
  forward_vol : option json;
  id : option Z;
  has_earnings_soon : option json
}.

End Raw.

Record ScanInfo : Type := { id : option Z }.

(** The scan details [get_latest_scan] returns. *)
Record ScanData : Type := {
  opportunities : field (list Raw.Entry);
  scan : field ScanInfo
}.

(** [d[key]] on a key that may be missing. *)
Definition subscript {A : Type} (key : string) (v : option A) : result A :=
  match v with
  | Some a => Ok a
  | None => Raise (KeyError key)
  end.

(** Toward zero, as [int] converts a float. *)
Definition trunc (r : R) : Z :=
  if Rle_dec 0 r then Int_part r else (- Int_part (- r))%Z.

(** The direction line of a thesis. *)
Inductive Direction : Type :=
| SellFrontBuyBack
| BuyFrontSellBack.

(** The explanation of a thesis, with the values it interpolates. *)
Inductive Explanation : Type :=
| Elevated (front_iv forward_vol premium back_iv : R)
| Depressed (front_iv forward_vol discount back_iv : R).

Inductive PositioningNote : Type :=
| FrontBeforeBackAfter
| BothAfter
| NoNote.

(** The catalyst paragraph of a thesis. *)
Inductive CatalystInfo : Type :=
| EarningsOn (earnings_date : string) (note : PositioningNote)
| EarningsPerScanner
| NoImminentCatalyst.

(** The text [generate_thesis] returns, by its parts. *)
Record Thesis : Type := {
  direction : Direction;
  explanation : Explanation;
  catalyst_info : CatalystInfo
}.

(** The text [generate_trade_structure] returns, with the values it
    interpolates. *)
Inductive TradeStructure : Type :=
| CalendarSpreadCredit (ticker front_date back_date : string)
| ReverseCalendarSpreadDebit (ticker front_date back_date : string).

Record TradeAnalysis : Type := {
  opportunity : Opportunity;
  earnings_info : option EarningsInfo;
  is_quality_setup : bool;
  rejection_reasons : list Reason;
  probability : R;
  risk_reward : R;
  rating : Z;
  thesis : Thesis;
  trade_structure : TradeStructure
}.

(** [FFScannerService.generate_thesis] *)
Definition generate_thesis (opp : Opportunity)
    (earnings_info : option EarningsInfo) : Thesis :=
  let '(direction, explanation) :=
    if Rgtb (forward_factor opp) 0 then
      (SellFrontBuyBack,
       Elevated (front_iv opp) (forward_vol opp) (forward_factor opp)
         (back_iv opp))
    else
      (BuyFrontSellBack,
       Depressed (front_iv opp) (forward_vol opp) (Rabs (forward_factor opp))
         (back_iv opp)) in
  let scanner_flag :=
    if has_earnings_soon opp then EarningsPerScanner else NoImminentCatalyst in
  let catalyst_info :=
    match earnings_info with
    | Some info =>
        match Earnings.earnings_date info with
        | Some (String c s) =>
            EarningsOn (String c s)
              (if Earnings.front_is_pre_earnings info
                  && Earnings.back_is_post_earnings info
               then FrontBeforeBackAfter
               else if Earnings.both_post_earnings info then BothAfter
               else NoNote)
        | _ => scanner_flag
        end
    | None => scanner_flag
    end in
  {| direction := direction;
     explanation := explanation;
     catalyst_info := catalyst_info |}.

(** [FFScannerService.generate_trade_structure] *)
Definition generate_trade_structure (opp : Opportunity) : TradeStructure :=
  if Rgtb (forward_factor opp) 0 then
    CalendarSpreadCredit (ticker opp) (front_date opp) (back_date opp)
  else
    ReverseCalendarSpreadDebit (ticker opp) (front_date opp) (back_date opp).

(** Insertion by rating, highest first; an element stays ahead of later
    elements of the same rating. *)
Fixpoint insert_by_rating (x : TradeAnalysis) (l : list TradeAnalysis)
    : list TradeAnalysis :=
  match l with
  | [] => [x]
  | y :: l' =>
      if (rating y <=? rating x)%Z then x :: y :: l'
      else y :: insert_by_rating x l'
  end.

(** [quality_setups.sort(key=lambda x: x.rating, reverse=True)]: a stable
    sort. *)
Definition sort_by_rating (l : list TradeAnalysis) : list TradeAnalysis :=
  fold_right insert_by_rating [] l.

Section WithProviders.

Variable strptime_ymd : string -> option Z.
Variable now : Z.

(** [self.polygon_client]: [None] without an API key. *)
Variable polygon_client : option (string -> result TickerDetails).

(** [float(s)] and [int(s)] on a string; [None] stands for the
    [ValueError] on a string that is not a number. *)
Variable parse_float : string -> option R.
Variable parse_int : string -> option Z.

(** [float(v)] on a number within the range of a double;
    [Nightly64.py_float] has the [OverflowError] beyond it. *)
Definition py_float (v : json) : result R :=
  match v with
  | JNull => Raise TypeError
  | JBool b => Ok (if b then 1 else 0)
  | JInt z => Ok (IZR z)
  | JFloat r => Ok r
  | JStr s =>
      match parse_float s with
      | Some r => Ok r
      | None => Raise ValueError
      end
  end.

(** [int(v)] on a finite number; [Nightly64.py_int] has the infinities and
    NaN. *)
Definition py_int (v : json) : result Z :=
  match v with
  | JNull => Raise TypeError
  | JBool b => Ok (if b then 1 else 0)%Z
  | JInt z => Ok z
  | JFloat r => Ok (trunc r)
  | JStr s =>
      match parse_int s with
      | Some z => Ok z
      | None => Raise ValueError
      end
  end.

(** [opp.get('has_earnings_soon', 'false') == 'true'] *)
Definition earnings_flag (v : option json) : bool :=
  match v with
  | Some (JStr s) => String.eqb s "true"
  | Some _ => false
  | None => String.eqb "false" "true"
  end.

(** The construction of one [Opportunity] in [parse_opportunities], its
    arguments evaluated in order. *)
Definition build_opportunity (scan_data : ScanData) (opp : Raw.Entry)
    : result Opportunity :=
  ticker <- subscript "ticker" (Raw.ticker opp) ;;
  ff <- subscript "forward_factor" (Raw.forward_factor opp) ;;
  forward_factor <- py_float ff ;;
  signal <- subscript "signal" (Raw.signal opp) ;;
  front_date <- subscript "front_date" (Raw.front_date opp) ;;
  fd <- subscript "front_dte" (Raw.front_dte opp) ;;
  front_dte <- py_int fd ;;
  fi <- subscript "front_iv" (Raw.front_iv opp) ;;
  front_iv <- py_float fi ;;
  back_date <- subscript "back_date" (Raw.back_date opp) ;;
  bd <- subscript "back_dte" (Raw.back_dte opp) ;;
  back_dte <- py_int bd ;;
  bi <- subscript "back_iv" (Raw.back_iv opp) ;;
  back_iv <- py_float bi ;;
  fv <- subscript "forward_vol" (Raw.forward_vol opp) ;;
  forward_vol <- py_float fv ;;
  scan_info <- getitem "scan" (scan scan_data) ;;
  scan_info <- not_none scan_info ;;
  scan_id <- subscript "id" (id scan_info) ;;
  opportunity_id <- subscript "id" (Raw.id opp) ;;
  Ok {| ticker := ticker;
        forward_factor := forward_factor;
        signal := signal;
        front_date := front_date;
        front_dte := front_dte;
        front_iv := front_iv;
        back_date := back_date;
        back_dte := back_dte;
        back_iv := back_iv;
        forward_vol := forward_vol;
        scan_id := scan_id;
        opportunity_id := opportunity_id;
        has_earnings_soon := earnings_flag (Raw.has_earnings_soon opp) |}.

(** [except (KeyError, ValueError)] *)
Definition KeyError_or_ValueError (e : exn) : bool :=
  match e with
  | KeyError _ | ValueError => true
  | _ => false
  end.

(** The loop of [parse_opportunities]. *)
Fixpoint parse_each (scan_data : ScanData) (entries : list Raw.Entry)
    (opportunities : list Opportunity) : result (list Opportunity) :=
  match entries with
  | [] => Ok opportunities
  | opp :: rest =>
      r <- try_except
             (opportunity <- build_opportunity scan_data opp ;;
              Ok (Some opportunity))
             KeyError_or_ValueError (fun _ => Ok None) ;;
      match r with
      | Some opportunity =>
          parse_each scan_data rest (opportunities ++ [opportunity])
      | None => parse_each scan_data rest opportunities
      end
  end.

(** [FFScannerService.parse_opportunities]; iterating over [null] raises
    [TypeError]. *)
Definition parse_opportunities (scan_data : ScanData)
    : result (list Opportunity) :=
  match opportunities scan_data with
  | Missing => Ok []
  | Null => Raise TypeError
  | Val entries => parse_each scan_data entries []
  end.

(** [FFScannerService.analyze_opportunity] *)
Definition analyze_opportunity (opp : Opportunity) : result TradeAnalysis :=
  earnings_info <-
    get_earnings_info strptime_ymd now polygon_client
      (ticker opp) (front_date opp) (back_date opp) ;;
  r <- apply_quality_filters opp earnings_info ;;
  let '(is_quality, rejection_reasons) := r in
  let probability := calculate_probability opp in
  let risk_reward := calculate_risk_reward opp in
  let thesis := generate_thesis opp earnings_info in
  let trade_structure := generate_trade_structure opp in
  let rating := calculate_rating opp earnings_info probability risk_reward in
  Ok {| opportunity := opp;
        earnings_info := earnings_info;
        is_quality_setup := is_quality;
        rejection_reasons := rejection_reasons;
        probability := probability;
        risk_reward := risk_reward;
        rating := rating;
        thesis := thesis;
        trade_structure := trade_structure |}.

(** [l[0]] *)
Definition first_item {A : Type} (l : list A) : result A :=
  match l with
  | x :: _ => Ok x
  | [] => Raise IndexError
  end.

(** The analysis loop of [run_analysis]; the line printed for a rejected
    setup reads [rejection_reasons[0]]. *)
Fixpoint analyze_each (opportunities : list Opportunity)
    (quality_setups rejected_setups : list TradeAnalysis)
    : result (list TradeAnalysis * list TradeAnalysis) :=
  match opportunities with
  | [] => Ok (quality_setups, rejected_setups)
  | opp :: rest =>
      analysis <- analyze_opportunity opp ;;
      if is_quality_setup analysis then
        analyze_each rest (quality_setups ++ [analysis]) rejected_setups
      else
        first_reason <- first_item (rejection_reasons analysis) ;;
        analyze_each rest quality_setups (rejected_setups ++ [analysis])
  end.

(** [FFScannerService.run_analysis]; [latest_scan] is what
    [get_latest_scan] returned. An empty dict has no opportunities, so the
    early return on a false [scan_data] gives what the rest gives. *)
Definition run_analysis (latest_scan : option ScanData)
    : result (list TradeAnalysis * list TradeAnalysis) :=
  match latest_scan with
  | None => Ok ([], [])
  | Some scan_data =>
      opportunities <- parse_opportunities scan_data ;;
      r <- analyze_each opportunities [] [] ;;
      let '(quality_setups, rejected_setups) := r in
      Ok (sort_by_rating quality_setups, rejected_setups)
  end.

End WithProviders.

End Nightly.

(** ** Earnings positioning from the Yahoo calendar ([ff_earnings_yahoo.py]) *)

Module Yahoo.

(** The dict [get_earnings_info] returns. *)
Record EarningsDict : Type := {
  earnings_date : option string;
  front_is_pre_earnings : bool;
  back_is_post_earnings : bool;
  both_post_earnings : bool
}.

Fixpoint cache_get (ticker : string) (cache : list (string * string))
    : option string :=
  match cache with
  | [] => None
  | (k, v) :: cache' =>
      if String.eqb ticker k then Some v else cache_get ticker cache'
  end.

(** [self.cache[ticker] = earnings_date] *)
Fixpoint cache_set (ticker earnings_date : string)
    (cache : list (string * string)) : list (string * string) :=
  match cache with
  | [] => [(ticker, earnings_date)]
  | (k, v) :: cache' =>
      if String.eqb ticker k then (k, earnings_date) :: cache'
      else (k, v) :: cache_set ticker earnings_date cache'
  end.

Section WithScraper.

Variable strptime_ymd : string -> option Z.

(** The page fetch and pattern search of [get_earnings_date]: the date found,
    [None], or the exception raised on the way. *)
Variable scrape : string -> result (option string).

Definition strptime (s : string) : result Z :=
  match strptime_ymd s with
  | Some d => Ok (d * us_per_day)%Z
  | None => Raise ValueError
  end.

(** [YahooEarningsCalendar.get_earnings_date], reading the cache. *)
Definition get_earnings_date (cache : list (string * string))
    (ticker : string) : result (option string) :=
  match cache_get ticker cache with
  | Some d => Ok (Some d)
  | None =>
      try_except (scrape ticker) Exception (fun _ => Ok None)
  end.

(** [YahooEarningsCalendar.get_earnings_info] *)
Definition get_earnings_info (cache : list (string * string))
    (ticker front_date back_date : string) : result EarningsDict :=
  earnings_date <- get_earnings_date cache ticker ;;
  match earnings_date with
  | Some (String c s) =>
      let earnings_date := String c s in
      parsed <-
        try_except
          (earnings_dt <- strptime earnings_date ;;
           front_dt <- strptime front_date ;;
           back_dt <- strptime back_date ;;
           Ok (Some (earnings_dt, front_dt, back_dt)))
          Exception
          (fun _ => Ok None) ;;
      match parsed with
      | None =>
          Ok {| earnings_date := Some earnings_date;
                front_is_pre_earnings := false;
                back_is_post_earnings := false;
                both_post_earnings := false |}
      | Some (earnings_dt, front_dt, back_dt) =>
          let front_is_pre := (front_dt <? earnings_dt)%Z in
          let back_is_post := (back_dt >? earnings_dt)%Z in
          let both_post :=
            (front_dt >? earnings_dt)%Z && (back_dt >? earnings_dt)%Z in
          Ok {| earnings_date := Some earnings_date;
                front_is_pre_earnings := front_is_pre;
                back_is_post_earnings := back_is_post;
                both_post_earnings := both_post |}
      end
  | _ =>
      Ok {| earnings_date := None;
            front_is_pre_earnings := false;
            back_is_post_earnings := false;
            both_post_earnings := false |}
  end.

(** [get_earnings_date] together with the cache it leaves: each path of the
    page search that finds a date stores it before returning it. *)
Definition get_earnings_date_cached (cache : list (string * string))
    (ticker : string) : result (option string) * list (string * string) :=
  match cache_get ticker cache with
  | Some d => (Ok (Some d), cache)
  | None =>
      match scrape ticker with
      | Ok (Some earnings_date) =>
          (Ok (Some earnings_date), cache_set ticker earnings_date cache)
      | Ok None => (Ok None, cache)
      | Raise _ => (Ok None, cache)
      end
  end.

End WithScraper.

End Yahoo.

(** ** Trading calendar ([ff_scheduler.py]) *)

Module Scheduler.

(** [dt.date()], as a day number. *)
Definition date_of (dt : Z) : Z := (dt / us_per_day)%Z.

(** [datetime.combine(d, time())] *)
Definition at_midnight (d : Z) : Z := (d * us_per_day)%Z.

(** [dt.weekday()]: Monday is 0; day number 1 is a Monday. *)
Definition weekday (dt : Z) : Z := ((date_of dt + 6) mod 7)%Z.

Section WithCalendar.

(** Whether the NYSE schedule holds a session on the day. *)
Variable nyse_open : Z -> bool.

(** [datetime.now()] in microseconds. *)
Variable now : Z.

(** [TradingCalendar.is_trading_day] *)
Definition is_trading_day (date : option Z) : bool :=
  let date := match date with Some d => d | None => now end in
  let check_date := date_of date in
  nyse_open check_date.

(** The loop of [get_next_trading_day] with [n] rounds left; [None] when it
    ends without returning. *)
Fixpoint first_trading_day (check_date : Z) (n : nat) : option Z :=
  match n with
  | O => None
  | S n' =>
      if is_trading_day (Some (at_midnight check_date))
      then Some (at_midnight check_date)
      else first_trading_day (check_date + 1) n'
  end.

(** [TradingCalendar.get_next_trading_day] *)
Definition get_next_trading_day (date : option Z) : Z :=
  let date := match date with Some d => d | None => now end in
  let check_date := date_of (date + us_per_day) in
  match first_trading_day check_date 10 with
  | Some d => d
  | None => (date + us_per_day)%Z
  end.

(** [TradingCalendar.should_run_tonight] *)
Definition should_run_tonight : bool :=
  if (weekday now >=? 5)%Z then false
  else
    let tomorrow := (now + us_per_day)%Z in
    if negb (is_trading_day (Some tomorrow)) then false
    else true.

End WithCalendar.

End Scheduler.

(** ** The formula as the specification writes it (section 4.2) *)

Module Spec.

Definition T (dte : Z) : R := IZR dte / 365.
Definition sigma (iv : R) : R := iv / 100.

Definition forward_variance
    (front_iv : R) (front_dte : Z) (back_iv : R) (back_dte : Z) : R :=
  ((sigma back_iv)² * T back_dte - (sigma front_iv)² * T front_dte)
  / (T back_dte - T front_dte).

Definition forward_vol
    (front_iv : R) (front_dte : Z) (back_iv : R) (back_dte : Z) : R :=
  sqrt (forward_variance front_iv front_dte back_iv back_dte) * 100.

Definition forward_factor
    (front_iv : R) (front_dte : Z) (back_iv : R) (back_dte : Z) : R :=
  ((sigma front_iv - sqrt (forward_variance front_iv front_dte back_iv back_dte))
   / sqrt (forward_variance front_iv front_dte back_iv back_dte)) * 100.

(** The calculation-consistency gate as section 4.4 words it: the forward
    factor re-derived from the four inputs is 2 points or more away from the
    stored one. *)
Definition consistency_gate_rejects (opp : Nightly.Opportunity) : Prop :=
  2 <= Rabs (forward_factor (Nightly.front_iv opp) (Nightly.front_dte opp)
               (Nightly.back_iv opp) (Nightly.back_dte opp)
             - Nightly.forward_factor opp).

End Spec.

(** ** The gates of the quality filter *)

Inductive Gate : Type :=
| Magnitude
| FrontDTEFloor
| FrontDTECeiling
| IVFloor
| IVCeiling
| EarningsConflict
| CalculationConsistency
| SpreadWidth.

Definition all_gates : list Gate :=
  [Magnitude; FrontDTEFloor; FrontDTECeiling; IVFloor; IVCeiling;
   EarningsConflict; CalculationConsistency; SpreadWidth].

(** The gate a rejection reason reports. *)
Definition gate_of (r : Nightly.Reason) : Gate :=
  match r with
  | Nightly.ForwardFactorTooLow _ => Magnitude
  | Nightly.FrontDTETooShort _ => FrontDTEFloor
  | Nightly.FrontDTETooLong _ => FrontDTECeiling
  | Nightly.FrontIVTooLow _ => IVFloor
  | Nightly.FrontIVTooHigh _ => IVCeiling
  | Nightly.FalseSignal _ _ _ => EarningsConflict
  | Nightly.CalculationMismatch _ _ => CalculationConsistency
  | Nightly.DTEDifferenceTooSmall _ => SpreadWidth
  end.

(** The condition to reject of each gate, as the table of section 4.4 gives
    it; the consistency gate rejects when the verifier reports no match. *)
Definition gate_rejects (opp : Nightly.Opportunity) (g : Gate) : bool :=
  match g with
  | Magnitude => Rltb (Rabs (Nightly.forward_factor opp)) 30
  | FrontDTEFloor => (Nightly.front_dte opp <? 7)%Z
  | FrontDTECeiling => (180 <? Nightly.front_dte opp)%Z
  | IVFloor => Rltb (Nightly.front_iv opp) 15
  | IVCeiling => Rltb 150 (Nightly.front_iv opp)
  | EarningsConflict =>
      Nightly.has_earnings_soon opp
      && Rltb (Nightly.back_iv opp) (Nightly.front_iv opp)
      && Rltb (Rabs (Nightly.forward_factor opp)) 40
  | CalculationConsistency =>
      match Nightly.verify_forward_factor opp with
      | Ok (_, matches) => negb matches
      | Raise _ => true
      end
  | SpreadWidth => (Nightly.back_dte opp - Nightly.front_dte opp <? 3)%Z
  end.

Definition gate_eqb (g1 g2 : Gate) : bool :=
  match g1, g2 with
  | Magnitude, Magnitude
  | FrontDTEFloor, FrontDTEFloor
  | FrontDTECeiling, FrontDTECeiling
  | IVFloor, IVFloor
  | IVCeiling, IVCeiling
  | EarningsConflict, EarningsConflict
  | CalculationConsistency, CalculationConsistency
  | SpreadWidth, SpreadWidth => true
  | _, _ => false
  end.

(** Whether the filter reports a reason of gate [g] for [opp]. *)
Definition gate_fires (g : Gate) (opp : Nightly.Opportunity)
    (earnings_info : option Nightly.EarningsInfo) : bool :=
  match Nightly.apply_quality_filters opp earnings_info with
  | Ok (_, rejection_reasons) =>
      existsb (fun r => gate_eqb (gate_of r) g) rejection_reasons
  | Raise _ => false
  end.

(** [opp] with another stored forward factor, every other field kept. *)
Definition with_forward_factor (opp : Nightly.Opportunity) (ff : R)
    : Nightly.Opportunity :=
  {| Nightly.ticker := Nightly.ticker opp;
     Nightly.forward_factor := ff;
     Nightly.signal := Nightly.signal opp;
     Nightly.front_date := Nightly.front_date opp;
     Nightly.front_dte := Nightly.front_dte opp;
     Nightly.front_iv := Nightly.front_iv opp;
     Nightly.back_date := Nightly.back_date opp;
     Nightly.back_dte := Nightly.back_dte opp;
     Nightly.back_iv := Nightly.back_iv opp;
     Nightly.forward_vol := Nightly.forward_vol opp;
     Nightly.scan_id := Nightly.scan_id opp;
     Nightly.opportunity_id := Nightly.opportunity_id opp;
     Nightly.has_earnings_soon := Nightly.has_earnings_soon opp |}.

(** ** The adjacent pairs of a sorted ladder *)

(** What one adjacent pair contributes to [pairs]: nothing when the
    calculator reports an error, one entry otherwise. *)
Definition pair_of (front back : Z * Scanner.TermPoint) : list Scanner.Pair :=
  match Scanner.calculate_forward_factor
          (Scanner.iv (snd front)) (Scanner.dte (snd front))
          (Scanner.iv (snd back)) (Scanner.dte (snd back)) with
  | Ok (fwd_vol, ff, error) =>
      if truthy_str error then []
      else
        [{| Scanner.front_date := fst front;
            Scanner.front_iv := Scanner.iv (snd front);
            Scanner.front_dte := Scanner.dte (snd front);
            Scanner.back_date := fst back;
            Scanner.back_iv := Scanner.iv (snd back);
            Scanner.back_dte := Scanner.dte (snd back);
            Scanner.forward_vol := fwd_vol;
            Scanner.forward_factor := ff |}]
  | Raise _ => []
  end.

(** The entries of the pairs (i, i+1) of a ladder, in order. *)
Fixpoint adjacent_pairs (ladder : list (Z * Scanner.TermPoint))
    : list Scanner.Pair :=
  match ladder with
  | [] => []
  | front :: rest =>
      match rest with
      | [] => []
      | back :: _ => pair_of front back ++ adjacent_pairs rest
      end
  end.

(** The forward factor the verifier computes, from the stored front IV and
    the stored forward volatility. *)
Definition rederived_forward_factor (opp : Nightly.Opportunity) : R :=
  (Nightly.front_iv opp / Nightly.forward_vol opp - 1) * 100.

(** [[reason]] when [cond] holds, nothing otherwise. *)
Definition reason_if (cond : bool) (reason : Nightly.Reason)
    : list Nightly.Reason :=
  if cond then [reason] else [].

(** ** Sample data *)

Definition sample_opportunity (forward_factor : R)
    (front_dte : Z) (front_iv : R) (back_dte : Z) (back_iv : R)
    (forward_vol : R) (has_earnings_soon : bool) : Nightly.Opportunity :=
  {| Nightly.ticker := "PLTR";
     Nightly.forward_factor := forward_factor;
     Nightly.signal := "SELL";
     Nightly.front_date := "2025-11-21";
     Nightly.front_dte := front_dte;
     Nightly.front_iv := front_iv;
     Nightly.back_date := "2025-12-26";
     Nightly.back_dte := back_dte;
     Nightly.back_iv := back_iv;
     Nightly.forward_vol := forward_vol;
     Nightly.scan_id := 1;
     Nightly.opportunity_id := 1;
     Nightly.has_earnings_soon := has_earnings_soon |}.

(** The example of the specification: front 35.2% at 28 days, back 28.4% at
    63 days, the stored values taken from the formula. *)
Definition opp_from_formula : Nightly.Opportunity :=
  sample_opportunity (Spec.forward_factor 35.2 28 28.4 63) 28 35.2 63 28.4
    (Spec.forward_vol 35.2 28 28.4 63) false.

(** A flat term structure (40% at 30 and at 60 days, so the forward
    volatility is 40% and the forward factor 0) stored with a forward
    volatility of 20% and a forward factor of 100%. *)
Definition opp_inconsistent : Nightly.Opportunity :=
  sample_opportunity 100 30 40 60 40 20 false.

(** An inverted term structure with earnings soon. *)
Definition opp_earnings : Nightly.Opportunity :=
  sample_opportunity 35 30 40 60 30 30 true.

(** A stored forward volatility of 0. *)
Definition opp_zero_vol : Nightly.Opportunity :=
  sample_opportunity 50 30 40 60 30 0 false.

Definition term_point (iv : R) (dte : Z) : Scanner.TermPoint :=
  {| Scanner.iv := iv; Scanner.dte := dte; Scanner.count := 3 |}.

(** ** Qualifying contracts *)

(** What the second loop of [group_by_expiration] records for one contract:
    its expiration and implied volatility, or nothing. *)
Definition recorded (strptime_ymd : string -> option Z) (stock_price : R)
    (opt : Scanner.OptionData) : option (Z * R) :=
  match try_except (Scanner.atm_iv strptime_ymd stock_price opt)
          KeyError_or_TypeError (fun _ => Ok None) with
  | Ok r => r
  | Raise _ => None
  end.

(** The implied volatilities recorded for expiration [exp_date], in order. *)
Definition surviving_ivs (strptime_ymd : string -> option Z) (stock_price : R)
    (options_data : list Scanner.OptionData) (exp_date : Z) : list R :=
  flat_map
    (fun opt =>
       match recorded strptime_ymd stock_price opt with
       | Some (d, v) => if (d =? exp_date)%Z then [v] else []
       | None => []
       end)
    options_data.

(** A contract qualifies at expiration [exp_date] with implied volatility
    [v]: its expiration string is a date, its strike is within 10% of the
    price estimate, and its implied volatility is present, positive and at
    most 500. *)
Definition qualifies (strptime_ymd : string -> option Z) (stock_price : R)
    (opt : Scanner.OptionData) (exp_date : Z) (v : R) : Prop :=
  exists dt s k,
    Scanner.details opt = Val dt
    /\ Scanner.expiration_date dt = Val s
    /\ strptime_ymd s = Some exp_date
    /\ Scanner.strike_price dt = Val k
    /\ Rabs (k - stock_price) / stock_price <= 0.10
    /\ Scanner.implied_volatility opt = Val v
    /\ 0 < v <= 500.

(** [d[k]] on a [defaultdict(list)]. *)
Definition get_list {V : Type} (k : Z) (d : list (Z * list V)) : list V :=
  match dict_get k d with
  | Some l => l
  | None => []
  end.

(** The term point built from the volatilities of one expiration. *)
Definition mean_point (today : Z) (exp_date : Z) (ivs : list R)
    : Scanner.TermPoint :=
  {| Scanner.iv := sum ivs / INR (List.length ivs);
     Scanner.dte := exp_date - today;
     Scanner.count := List.length ivs |}.

(** Case analysis on the threshold tests of a magnitude, then on the tests
    of the constants the steps produce. *)
Ltac split_thresholds :=
  repeat match goal with
         | |- context [Rle_dec ?x (Rabs ?y)] =>
             destruct (Rle_dec x (Rabs y)); try (exfalso; lra)
         end;
  cbv beta iota;
  repeat match goal with
         | |- context [Rle_dec ?x ?y] =>
             destruct (Rle_dec x y); try (exfalso; lra)
         end.

(** ** Earnings positioning: the states the resolvers return *)

(** The date the provider's ticker details carry, if any. *)
Definition provider_date (ticker_details : Nightly.TickerDetails)
    : option string :=
  match get (Nightly.results ticker_details) with
  | Some results => get (Nightly.next_earnings_date results)
  | None => None
  end.

(** "No known catalyst": every boolean false and the date absent. *)
Definition no_known_catalyst (ticker : string) : Nightly.EarningsInfo :=
  {| Nightly.Earnings.ticker := ticker;
     Nightly.Earnings.earnings_date := None;
     Nightly.Earnings.has_earnings_soon := false;
     Nightly.Earnings.front_is_pre_earnings := false;
     Nightly.Earnings.back_is_post_earnings := false;
     Nightly.Earnings.both_post_earnings := false |}.

(** The Yahoo dict with every boolean false and the given date. *)
Definition yahoo_unpositioned (earnings_date : option string)
    : Yahoo.EarningsDict :=
  {| Yahoo.earnings_date := earnings_date;
     Yahoo.front_is_pre_earnings := false;
     Yahoo.back_is_post_earnings := false;
     Yahoo.both_post_earnings := false |}.

(** One of the three date strings does not parse. *)
Definition malformed (strptime_ymd : string -> option Z)
    (earnings_date front_date back_date : string) : Prop :=
  strptime_ymd earnings_date = None
  \/ strptime_ymd front_date = None
  \/ strptime_ymd back_date = None.

(** ** A date parser for the sample data *)

Definition digit (c : ascii) : option Z :=
  let n := Z.of_N (N_of_ascii c) in
  if (48 <=? n)%Z && (n <=? 57)%Z then Some (n - 48)%Z else None.

Definition is_leap (y : Z) : bool :=
  ((y mod 4 =? 0)%Z && negb (y mod 100 =? 0)%Z) || (y mod 400 =? 0)%Z.

Definition days_in_month (y m : Z) : Z :=
  match m with
  | 1 | 3 | 5 | 7 | 8 | 10 | 12 => 31
  | 4 | 6 | 9 | 11 => 30
  | 2 => if is_leap y then 29 else 28
  | _ => 0
  end%Z.

Definition days_before_year (y : Z) : Z :=
  ((y - 1) * 365 + (y - 1) / 4 - (y - 1) / 100 + (y - 1) / 400)%Z.

Definition days_before_month (y m : Z) : Z :=
  fold_left (fun acc i => (acc + days_in_month y (Z.of_nat i))%Z)
    (seq 1 (Z.to_nat m - 1)) 0%Z.

(** The proleptic Gregorian ordinal of a date, as [date.toordinal]. *)
Definition ordinal (y m d : Z) : Z :=
  (days_before_year y + days_before_month y m + d)%Z.

(** Parses a zero-padded [YYYY-MM-DD] string of a valid date; on such
    strings, and on strings that are not dates at all, it agrees with
    [strptime] for [%Y-%m-%d]. *)
Definition strptime_iso (s : string) : option Z :=
  match list_ascii_of_string s with
  | [y1; y2; y3; y4; s1; m1; m2; s2; d1; d2] =>
      match digit y1, digit y2, digit y3, digit y4,
            digit m1, digit m2, digit d1, digit d2 with
      | Some a, Some b, Some c, Some d, Some e, Some f, Some g, Some h =>
          let y := (a * 1000 + b * 100 + c * 10 + d)%Z in
          let m := (e * 10 + f)%Z in
          let dd := (g * 10 + h)%Z in
          if Ascii.eqb s1 "-" && Ascii.eqb s2 "-"
             && (1 <=? y)%Z && (1 <=? m)%Z && (m <=? 12)%Z
             && (1 <=? dd)%Z && (dd <=? days_in_month y m)%Z
          then Some (ordinal y m dd)
          else None
      | _, _, _, _, _, _, _, _ => None
      end
  | _ => None
  end.

(** ** A sample options chain and sample providers *)

Definition contract (delta : field R) (strike : R) (expiry : string) (iv : R)
    : Scanner.OptionData :=
  {| Scanner.greeks := Val {| Scanner.delta := delta |};
     Scanner.details :=
       Val {| Scanner.strike_price := Val strike;
              Scanner.expiration_date := Val expiry |};
     Scanner.implied_volatility := Val iv |}.

(** Three near-the-money contracts expiring 2025-12-19; at 2026-01-16 two
    near-the-money contracts and one 50% away from the price estimate. *)
Definition sample_chain : list Scanner.OptionData :=
  [contract (Val 0.5) 100 "2025-12-19" 30;
   contract (Val 0.3) 105 "2025-12-19" 32;
   contract Missing 95 "2025-12-19" 34;
   contract Missing 100 "2026-01-16" 28;
   contract Missing 150 "2026-01-16" 45;
   contract Missing 102 "2026-01-16" 29].

(** 2025-11-03 *)
Definition sample_today : Z := 739558.

(** A provider that reports earnings on 2025-11-15. *)
Definition sample_client (ticker : string) : result Nightly.TickerDetails :=
  Ok {| Nightly.results :=
          Val {| Nightly.next_earnings_date := Val "2025-11-15"%string |} |}.

Definition sample_scrape (ticker : string) : result (option string) :=
  Ok (Some "2025-11-15"%string).

(** ** Further sample data *)

(** A chain whose deltas all lie outside the near-the-money band. *)
Definition chain_without_atm : list Scanner.OptionData :=
  [contract (Val 0.3) 100 "2025-12-19" 30;
   contract (Val (-0.7)) 105 "2025-12-19" 32;
   contract Missing 95 "2025-12-19" 34].

(** A near-the-money contract whose strike is [null]. *)
Definition null_strike_contract : Scanner.OptionData :=
  {| Scanner.greeks := Val {| Scanner.delta := Val 0.5 |};
     Scanner.details :=
       Val {| Scanner.strike_price := Null;
              Scanner.expiration_date := Val "2025-12-19"%string |};
     Scanner.implied_volatility := Val 30 |}.

(** The entry a front and a back term point give when the forward variance
    is positive. *)
Definition pair_from (front back : Z * Scanner.TermPoint) : Scanner.Pair :=
  {| Scanner.front_date := fst front;
     Scanner.front_iv := Scanner.iv (snd front);
     Scanner.front_dte := Scanner.dte (snd front);
     Scanner.back_date := fst back;
     Scanner.back_iv := Scanner.iv (snd back);
     Scanner.back_dte := Scanner.dte (snd back);
     Scanner.forward_vol :=
       Some (Spec.forward_vol
               (Scanner.iv (snd front)) (Scanner.dte (snd front))
               (Scanner.iv (snd back)) (Scanner.dte (snd back)));
     Scanner.forward_factor :=
       Some (Spec.forward_factor
               (Scanner.iv (snd front)) (Scanner.dte (snd front))
               (Scanner.iv (snd back)) (Scanner.dte (snd back))) |}.

(** [sample_chain] with a third near-the-money contract at 2026-01-16. *)
Definition two_expiry_chain : list Scanner.OptionData :=
  sample_chain ++ [contract Missing 98 "2026-01-16" 30].

Definition sample_fetch (ticker : string) : list Scanner.OptionData :=
  two_expiry_chain.

(** The term points of [two_expiry_chain] on [sample_today]. *)
Definition december_point : Z * Scanner.TermPoint :=
  (739604%Z, mean_point sample_today 739604 [30; 32; 34]).

Definition january_point : Z * Scanner.TermPoint :=
  (739632%Z, mean_point sample_today 739632 [28; 29; 30]).

(** ** What [scan_multiple] keeps *)

(** The forward factor of the pair is defined and within the range. *)
Definition ff_within (min_ff max_ff : R) (p : Scanner.Pair) : Prop :=
  exists f, Scanner.forward_factor p = Some f /\ min_ff <= f <= max_ff.

(** [a] may stand before [b] when sorted by [|forward_factor|], largest
    first. *)
Definition abs_descending (a b : Scanner.Pair) : Prop :=
  exists fa fb,
    Scanner.forward_factor a = Some fa /\ Scanner.forward_factor b = Some fb
    /\ Rabs fb <= Rabs fa.

(** [a] may stand before [b] when sorted by [forward_factor], smallest
    first. *)
Definition ff_ascending (a b : Scanner.Pair) : Prop :=
  exists fa fb,
    Scanner.forward_factor a = Some fa /\ Scanner.forward_factor b = Some fb
    /\ fa <= fb.

(** A result of [scan_multiple]: the scan of one of the tickers, with
    exactly its pairs within the range, of which there is at least one. *)
Definition filtered_result (strptime_ymd : string -> option Z) (today : Z)
    (fetch_options_chain : string -> list Scanner.OptionData)
    (tickers : list string) (min_ff max_ff : R) (r : Scanner.ScanResult)
    : Prop :=
  In (Scanner.ticker r) tickers
  /\ Scanner.pairs r <> []
  /\ exists res,
       Scanner.scan_ticker strptime_ymd today fetch_options_chain
         (Scanner.ticker r) = Ok (Some res)
       /\ Scanner.expirations r = Scanner.expirations res
       /\ forall p,
            In p (Scanner.pairs r) <->
            In p (Scanner.pairs res) /\ ff_within min_ff max_ff p.

(** The scan of [two_expiry_chain] on [sample_today]. *)
Definition sample_result : Scanner.ScanResult :=
  {| Scanner.ticker := "PLTR";
     Scanner.pairs := [pair_from december_point january_point];
     Scanner.expirations := [december_point; january_point] |}.

(** A normal term structure (20% at 30 days, 30% at 60 days). *)
Definition opp_normal : Nightly.Opportunity :=
  sample_opportunity (-50) 30 20 60 30 40 false.

(** The bonus a forward factor brings to the rating of an analysis:
    magnitude, probability and risk/reward together. *)
Definition magnitude_bonus (opp : Nightly.Opportunity) : Z :=
  if Rleb 80 (Rabs (Nightly.forward_factor opp)) then
    if Nightly.has_earnings_soon opp then 4 else 5
  else if Rleb 60 (Rabs (Nightly.forward_factor opp)) then
    if Nightly.has_earnings_soon opp then 3 else 4
  else if Rleb 40 (Rabs (Nightly.forward_factor opp)) then 1
  else 0.

(** A strong signal on a normal term structure. *)
Definition opp_strong : Nightly.Opportunity :=
  sample_opportunity 100 30 20 60 30 10 false.

(** ** Parsing and analysing a scan *)

(** Every exception the computation can raise satisfies [P]. *)
Definition raises_only {A : Type} (P : exn -> Prop) (c : result A) : Prop :=
  forall e, c = Raise e -> P e.

(** Whether the quality filter accepts the opportunity. *)
Definition accepted (opp : Nightly.Opportunity) : bool :=
  match Nightly.apply_quality_filters opp None with
  | Ok (is_quality, _) => is_quality
  | Raise _ => false
  end.

(** Inversion of a chain of binds that returned normally. *)
Ltac bind_inv H :=
  repeat match type of H with
         | bind ?c _ = Ok _ =>
             let E := fresh "E" in
             destruct c eqn:E; cbn [bind] in H; [| discriminate H]
         end.

(** A scan entry with numeric values given as JSON numbers. *)
Definition sample_entry (forward_factor : Nightly.json) (flag : option Nightly.json)
    : Nightly.Raw.Entry :=
  {| Nightly.Raw.ticker := Some "PLTR"%string;
     Nightly.Raw.forward_factor := Some forward_factor;
     Nightly.Raw.signal := Some "SELL"%string;
     Nightly.Raw.front_date := Some "2025-11-21"%string;
     Nightly.Raw.front_dte := Some (Nightly.JInt 30);
     Nightly.Raw.front_iv := Some (Nightly.JFloat 40);
     Nightly.Raw.back_date := Some "2025-12-26"%string;
     Nightly.Raw.back_dte := Some (Nightly.JInt 60);
     Nightly.Raw.back_iv := Some (Nightly.JFloat 40);
     Nightly.Raw.forward_vol := Some (Nightly.JFloat 20);
     Nightly.Raw.id := Some 1%Z;
     Nightly.Raw.has_earnings_soon := flag |}.

Definition sample_scan_data (entries : list Nightly.Raw.Entry)
    : Nightly.ScanData :=
  {| Nightly.opportunities := Val entries;
     Nightly.scan := Val {| Nightly.id := Some 1%Z |} |}.

(** String-to-number conversions that accept no string. *)
Definition no_float (s : string) : option R := None.
Definition no_int (s : string) : option Z := None.

(** A calendar with sessions on Monday to Friday only. *)
Definition weekdays_only (d : Z) : bool := ((d + 6) mod 7 <? 5)%Z.

(** A calendar with no session at all. *)
Definition always_closed (d : Z) : bool := false.

(** * The same functions in binary64 arithmetic

    The definitions above read a Python [float] as an exact real, which
    serves the properties about the algebra of the formulas and about
    comparisons of stored values. What a function returns and raises on an
    arbitrary input depends on rounding, on NaN and the infinities and on
    the range of a double. The definitions below read a [float] as an
    IEEE 754 binary64 number, with the exceptions Python raises on it. *)

Module Binary64.

(** A double: [S754_finite s m e] is [(-1)^s * m * 2^e]. *)
Definition float : Type := spec_float.

Definition prec : Z := 53.
Definition emax : Z := 1024.

(** The arithmetic of C doubles: rounded to nearest, ties to even. *)
Definition add : float -> float -> float := SFadd prec emax.
Definition sub : float -> float -> float := SFsub prec emax.
Definition mul : float -> float -> float := SFmul prec emax.
Definition div : float -> float -> float := SFdiv prec emax.
Definition sqrt : float -> float := SFsqrt prec emax.
Definition abs : float -> float := SFabs.

(** [x < y], [x <= y] and [x == y]: false when either side is NaN. *)
Definition ltb : float -> float -> bool := SFltb.
Definition leb : float -> float -> bool := SFleb.
Definition eqb : float -> float -> bool := SFeqb.

Definition is_nan (x : float) : bool :=
  match x with S754_nan => true | _ => false end.

Definition is_infinity (x : float) : bool :=
  match x with S754_infinity _ => true | _ => false end.

(** [x == 0.0]: both zeros. *)
Definition is_zero (x : float) : bool :=
  match x with S754_zero _ => true | _ => false end.

Definition nan : float := S754_nan.
Definition zero : float := S754_zero false.

(** The double nearest to an integer, infinite beyond the range. *)
Definition of_Z (n : Z) : float := binary_normalize prec emax n 0 false.

(** The double a decimal literal denotes, the literal given as a fraction of
    two integers below [2^53]: the division of two exact doubles is rounded
    as the literal is. *)
Definition decimal (num den : Z) : float := div (of_Z num) (of_Z den).

(** The integer a finite double holds when its fraction is cut. *)
Definition truncate (s : bool) (m : positive) (e : Z) : Z :=
  cond_Zopp s
    (match e with
     | Zneg p => Z.pos m / 2 ^ Z.pos p
     | _ => Z.pos m * 2 ^ e
     end)%Z.

(** [float(n)] on an [int], also where an [int] meets a [float] in an
    operation. *)
Definition float_of_int (n : Z) : result float :=
  let x := of_Z n in
  if is_infinity x
  then Raise (OverflowError "int too large to convert to float")
  else Ok x.

(** [int(x)] on a [float] *)
Definition int_of_float (x : float) : result Z :=
  match x with
  | S754_nan => Raise ValueError
  | S754_infinity _ =>
      Raise (OverflowError "cannot convert float infinity to integer")
  | S754_zero _ => Ok 0%Z
  | S754_finite s m e => Ok (truncate s m e)
  end.

(** [x / y] on floats: only a zero divisor raises. *)
Definition truediv (x y : float) : result float :=
  if is_zero y then Raise (ZeroDivisionError "float division by zero")
  else Ok (div x y).

Section Pow.

(** [pow] of the C library, with whether it set [errno] to [ERANGE]; called
    on a finite positive base other than 1 and a finite exponent other
    than 0. *)
Variable libm_pow : float -> float -> float * bool.

(** The call of [pow] in [float_pow] with the check that follows it: a
    range error on a result of 0 is dropped, an infinite result is a range
    error, and a range error raises. *)
Definition system_pow (iv iw : float) : result float :=
  let '(ix, erange) := libm_pow iv iw in
  let erange := if erange then negb (is_zero ix) else is_infinity ix in
  if erange then Raise (OverflowError "(34, 'Numerical result out of range')")
  else Ok ix.

(** [x ** 2]: NaN stays, an infinity gives [inf], a zero gives [0.0], the
    sign is dropped, 1 gives 1, and the rest is left to [pow]. *)
Definition float_pow_2 (x : float) : result float :=
  match x with
  | S754_nan => Ok S754_nan
  | S754_infinity _ => Ok (S754_infinity false)
  | S754_zero _ => Ok (S754_zero false)
  | S754_finite _ _ _ =>
      let iv := abs x in
      if eqb iv (of_Z 1) then Ok (of_Z 1) else system_pow iv (of_Z 2)
  end.

(** [x ** 0.5] for [x] not below 0: NaN stays, [inf] gives [inf], a zero
    gives [0.0], 1 gives 1, and the rest is left to [pow]. A negative base
    gives a complex number in Python, which is no [float]: no caller here
    reaches that case. *)
Definition float_pow_half (x : float) : result float :=
  match x with
  | S754_nan => Ok S754_nan
  | S754_infinity _ => Ok (S754_infinity false)
  | S754_zero _ => Ok (S754_zero false)
  | S754_finite false _ _ =>
      if eqb x (of_Z 1) then Ok (of_Z 1) else system_pow x (decimal 1 2)
  | S754_finite true _ _ => Ok S754_nan
  end.

End Pow.

End Binary64.

(** ** Forward factor and pair selection in binary64 ([ff_scanner.py]) *)

Module Scanner64.

Import Binary64.

(** The value stored per expiration; [avg_iv] is always a [float]. *)
Record TermPoint : Type := {
  iv : float;
  dte : Z;
  count : nat
}.

Record Pair : Type := {
  front_date : Z;
  front_iv : float;
  front_dte : Z;
  back_date : Z;
  back_iv : float;
  back_dte : Z;
  forward_vol : option float;
  forward_factor : option float
}.

Section WithLibm.

Variable libm_pow : float -> float -> float * bool.

(** [ForwardFactorScanner.calculate_forward_factor], the IVs floats and the
    DTEs ints as [find_best_pairs] passes them. [forward_var ** 0.5] is
    evaluated three times in the source and once here. *)
Definition calculate_forward_factor
    (front_iv : float) (front_dte : Z) (back_iv : float) (back_dte : Z)
    : result (option float * option float * option string) :=
  try_except
    (d1 <- float_of_int front_dte ;;
     T1 <- truediv d1 (of_Z 365) ;;
     d2 <- float_of_int back_dte ;;
     T2 <- truediv d2 (of_Z 365) ;;
     sigma1 <- truediv front_iv (of_Z 100) ;;
     sigma2 <- truediv back_iv (of_Z 100) ;;
     square2 <- float_pow_2 libm_pow sigma2 ;;
     square1 <- float_pow_2 libm_pow sigma1 ;;
     forward_var <-
       truediv (sub (mul square2 T2) (mul square1 T1)) (sub T2 T1) ;;
     if ltb forward_var zero then
       Ok (None, None, Some "Negative forward variance"%string)
     else
       root <- float_pow_half libm_pow forward_var ;;
       let forward_vol := mul root (of_Z 100) in
       q <- truediv (sub sigma1 root) root ;;
       let forward_factor := mul q (of_Z 100) in
       Ok (Some forward_vol, Some forward_factor, None))
    Exception
    (fun e => Ok (None, None, Some (str e))).

(** [sorted(items, key=lambda x: x[1]['dte'])]: a stable sort. *)
Fixpoint insert_by_dte (x : Z * TermPoint) (l : list (Z * TermPoint))
    : list (Z * TermPoint) :=
  match l with
  | [] => [x]
  | y :: l' =>
      if (dte (snd x) <=? dte (snd y))%Z then x :: y :: l'
      else y :: insert_by_dte x l'
  end.

Definition sorted_by_dte (l : list (Z * TermPoint)) : list (Z * TermPoint) :=
  fold_right insert_by_dte [] l.

(** Body of the loop of [find_best_pairs] at index [i]. *)
Definition pair_step (sorted_exp : list (Z * TermPoint))
    (pairs : list Pair) (i : nat) : result (list Pair) :=
  match nth_error sorted_exp i, nth_error sorted_exp (i + 1) with
  | Some (front_date, front_data), Some (back_date, back_data) =>
      r <- calculate_forward_factor (iv front_data) (dte front_data)
             (iv back_data) (dte back_data) ;;
      let '(fwd_vol, ff, error) := r in
      if truthy_str error then Ok pairs
      else
        Ok (pairs ++
            [{| front_date := front_date;
                front_iv := iv front_data;
                front_dte := dte front_data;
                back_date := back_date;
                back_iv := iv back_data;
                back_dte := dte back_data;
                forward_vol := fwd_vol;
                forward_factor := ff |}])
  | _, _ => Raise IndexError
  end.

(** [ForwardFactorScanner.find_best_pairs] *)
Definition find_best_pairs (expirations : list (Z * TermPoint))
    : result (list Pair) :=
  let sorted_exp := sorted_by_dte expirations in
  Scanner.for_each (pair_step sorted_exp)
    (seq 0 (List.length sorted_exp - 1)) [].

End WithLibm.

End Scanner64.

(** ** The formula of section 4.2, evaluated in binary64 *)

Module Spec64.

Import Binary64.

Section WithLibm.

Variable libm_pow : float -> float -> float * bool.

(** [T = dte / 365] and [sigma = iv / 100] *)
Definition T (dte : Z) : result float :=
  d <- float_of_int dte ;; truediv d (of_Z 365).

Definition sigma (iv : float) : result float := truediv iv (of_Z 100).

(** [forward_variance = (sigma2^2 * T2 - sigma1^2 * T1) / (T2 - T1)] *)
Definition forward_variance
    (front_iv : float) (front_dte : Z) (back_iv : float) (back_dte : Z)
    : result float :=
  T1 <- T front_dte ;;
  T2 <- T back_dte ;;
  sigma1 <- sigma front_iv ;;
  sigma2 <- sigma back_iv ;;
  square2 <- float_pow_2 libm_pow sigma2 ;;
  square1 <- float_pow_2 libm_pow sigma1 ;;
  truediv (sub (mul square2 T2) (mul square1 T1)) (sub T2 T1).

(** [forward_vol = sqrt(forward_variance) * 100] *)
Definition forward_vol
    (front_iv : float) (front_dte : Z) (back_iv : float) (back_dte : Z)
    : result float :=
  forward_var <- forward_variance front_iv front_dte back_iv back_dte ;;
  root <- float_pow_half libm_pow forward_var ;;
  Ok (mul root (of_Z 100)).

(** [forward_factor = ((sigma1 - sqrt(forward_variance))
    / sqrt(forward_variance)) * 100] *)
Definition forward_factor
    (front_iv : float) (front_dte : Z) (back_iv : float) (back_dte : Z)
    : result float :=
  forward_var <- forward_variance front_iv front_dte back_iv back_dte ;;
  sigma1 <- sigma front_iv ;;
  root <- float_pow_half libm_pow forward_var ;;
  q <- truediv (sub sigma1 root) root ;;
  Ok (mul q (of_Z 100)).

End WithLibm.

End Spec64.

(** What one adjacent pair contributes to [pairs] in binary64. *)
Definition pair_of64 (libm_pow : Binary64.float -> Binary64.float
                                 -> Binary64.float * bool)
    (front back : Z * Scanner64.TermPoint) : list Scanner64.Pair :=
  match Scanner64.calculate_forward_factor libm_pow
          (Scanner64.iv (snd front)) (Scanner64.dte (snd front))
          (Scanner64.iv (snd back)) (Scanner64.dte (snd back)) with
  | Ok (fwd_vol, ff, error) =>
      if truthy_str error then []
      else
        [{| Scanner64.front_date := fst front;
            Scanner64.front_iv := Scanner64.iv (snd front);
            Scanner64.front_dte := Scanner64.dte (snd front);
            Scanner64.back_date := fst back;
            Scanner64.back_iv := Scanner64.iv (snd back);
            Scanner64.back_dte := Scanner64.dte (snd back);
            Scanner64.forward_vol := fwd_vol;
            Scanner64.forward_factor := ff |}]
  | Raise _ => []
  end.

(** The entries of the pairs (i, i+1) of a ladder in binary64, in order. *)
Fixpoint adjacent_pairs64 (libm_pow : Binary64.float -> Binary64.float
                                      -> Binary64.float * bool)
    (ladder : list (Z * Scanner64.TermPoint)) : list Scanner64.Pair :=
  match ladder with
  | [] => []
  | front :: rest =>
      match rest with
      | [] => []
      | back :: _ =>
          pair_of64 libm_pow front back ++ adjacent_pairs64 libm_pow rest
      end
  end.

(** A C library for the examples: its [pow] is rounded correctly at the
    exponents 2 and 0.5 and sets no [errno] there. *)
Definition sample_libm_pow (x y : Binary64.float) : Binary64.float * bool :=
  if Binary64.eqb y (Binary64.of_Z 2) then (Binary64.mul x x, false)
  else if Binary64.eqb y (Binary64.decimal 1 2) then (Binary64.sqrt x, false)
  else (Binary64.nan, true).

(** An entry of a ladder in binary64, the IV given as a decimal fraction. *)
Definition term_point64 (num den : Z) (dte : Z) : Scanner64.TermPoint :=
  {| Scanner64.iv := Binary64.decimal num den;
     Scanner64.dte := dte;
     Scanner64.count := 3 |}.

(** A ladder whose first pair has a negative forward variance. *)
Definition sample_ladder64 : list (Z * Scanner64.TermPoint) :=
  [(130%Z, term_point64 20 1 60); (100%Z, term_point64 40 1 30);
   (160%Z, term_point64 20 1 90)].

(** ** Quality filter and scan parsing in binary64
    ([ff_nightly_scanner.py]) *)

Module Nightly64.

Import Binary64.

Definition MIN_FORWARD_FACTOR : float := of_Z 30.
Definition MIN_DTE : Z := 7.
Definition MAX_DTE : Z := 180.
Definition MIN_IV : float := of_Z 15.
Definition MAX_IV : float := of_Z 150.

(** The dataclass checks no field: each holds what [float] and [int]
    returned, NaN and the infinities included. *)
Record Opportunity : Type := {
  ticker : string;
  forward_factor : float;
  signal : string;
  front_date : string;
  front_dte : Z;
  front_iv : float;
  back_date : string;
  back_dte : Z;
  back_iv : float;
  forward_vol : float;
  scan_id : Z;
  opportunity_id : Z;
  has_earnings_soon : bool
}.

Definition is_inverted (self : Opportunity) : bool :=
  ltb (back_iv self) (front_iv self).

Definition get_dte_diff (self : Opportunity) : Z :=
  (back_dte self - front_dte self)%Z.

(** [FFScannerService.verify_forward_factor] *)
Definition verify_forward_factor (opp : Opportunity) : result (float * bool) :=
  try_except
    (if is_zero (forward_vol opp) then Ok (zero, false)
     else
       q <- truediv (front_iv opp) (forward_vol opp) ;;
       let calculated_ff := mul (sub q (of_Z 1)) (of_Z 100) in
       let matches :=
         ltb (abs (sub calculated_ff (forward_factor opp))) (of_Z 2) in
       Ok (calculated_ff, matches))
    Exception
    (fun _ => Ok (zero, false)).

(** A rejection reason: the message of the source with the values it
    interpolates. *)
Inductive Reason : Type :=
| ForwardFactorTooLow (forward_factor : float)
| FrontDTETooShort (front_dte : Z)
| FrontDTETooLong (front_dte : Z)
| FrontIVTooLow (front_iv : float)
| FrontIVTooHigh (front_iv : float)
| FalseSignal (front_iv back_iv forward_factor : float)
| CalculationMismatch (reported calculated : float)
| DTEDifferenceTooSmall (dte_diff : Z).

(** [if cond: rejection_reasons.append(reason)] *)
Definition append_if (cond : bool) (reason : Reason)
    (rejection_reasons : list Reason) : list Reason :=
  if cond then rejection_reasons ++ [reason] else rejection_reasons.

(** [FFScannerService.apply_quality_filters] *)
Definition apply_quality_filters (opp : Opportunity)
    (earnings_info : option Nightly.EarningsInfo)
    : result (bool * list Reason) :=
  let rejection_reasons := [] in
  let rejection_reasons :=
    append_if (ltb (abs (forward_factor opp)) MIN_FORWARD_FACTOR)
      (ForwardFactorTooLow (forward_factor opp)) rejection_reasons in
  let rejection_reasons :=
    append_if (front_dte opp <? MIN_DTE)%Z
      (FrontDTETooShort (front_dte opp)) rejection_reasons in
  let rejection_reasons :=
    append_if (front_dte opp >? MAX_DTE)%Z
      (FrontDTETooLong (front_dte opp)) rejection_reasons in
  let rejection_reasons :=
    append_if (ltb (front_iv opp) MIN_IV)
      (FrontIVTooLow (front_iv opp)) rejection_reasons in
  let rejection_reasons :=
    append_if (ltb MAX_IV (front_iv opp))
      (FrontIVTooHigh (front_iv opp)) rejection_reasons in
  let rejection_reasons :=
    if has_earnings_soon opp && is_inverted opp then
      append_if (ltb (abs (forward_factor opp)) (of_Z 40))
        (FalseSignal (front_iv opp) (back_iv opp) (forward_factor opp))
        rejection_reasons
    else rejection_reasons in
  r <- verify_forward_factor opp ;;
  let '(calculated_ff, matches) := r in
  let rejection_reasons :=
    append_if (negb matches)
      (CalculationMismatch (forward_factor opp) calculated_ff)
      rejection_reasons in
  let dte_diff := get_dte_diff opp in
  let rejection_reasons :=
    append_if (dte_diff <? 3)%Z
      (DTEDifferenceTooSmall dte_diff) rejection_reasons in
  let is_quality := (List.length rejection_reasons =? 0)%nat in
  Ok (is_quality, rejection_reasons).

(** A JSON value as [json] loads it: an integer of any size, a double
    ([1e999] and [Infinity] load as infinities, [NaN] as NaN), or an array
    or object, whose content no conversion reads. *)
Inductive json : Type :=
| JNull
| JBool (b : bool)
| JInt (z : Z)
| JFloat (x : float)
| JStr (s : string)
| JArray
| JObject.

Module Raw.

(** One entry of [scan_data['opportunities']]: [None] stands for a missing
    key. The keys read without conversion hold a string (an integer for
    [id]) when present. *)
Record Entry : Type := {
  ticker : option string;
  forward_factor : option json;
  signal : option string;
  front_date : option string;
  front_dte : option json;
  front_iv : option json;
  back_date : option string;
  back_dte : option json;
  back_iv : option json;
  forward_vol : option json;
  id : option Z;
  has_earnings_soon : option json
}.

End Raw.

(** The scan details [get_latest_scan] returns. *)
Record ScanData : Type := {
  opportunities : field (list Raw.Entry);
  scan : field Nightly.ScanInfo
}.

Section WithParsers.

(** [float(s)] and [int(s)] on a string; [None] stands for the
    [ValueError] on a string that is not a number. *)
Variable parse_float : string -> option float.
Variable parse_int : string -> option Z.

(** [float(v)] *)
Definition py_float (v : json) : result float :=
  match v with
  | JNull | JArray | JObject => Raise TypeError
  | JBool b => Ok (if b then of_Z 1 else zero)
  | JInt z => float_of_int z
  | JFloat x => Ok x
  | JStr s =>
      match parse_float s with
      | Some x => Ok x
      | None => Raise ValueError
      end
  end.

(** [int(v)] *)
Definition py_int (v : json) : result Z :=
  match v with
  | JNull | JArray | JObject => Raise TypeError
  | JBool b => Ok (if b then 1 else 0)%Z
  | JInt z => Ok z
  | JFloat x => int_of_float x
  | JStr s =>
      match parse_int s with
      | Some z => Ok z
      | None => Raise ValueError
      end
  end.

(** [opp.get('has_earnings_soon', 'false') == 'true'] *)
Definition earnings_flag (v : option json) : bool :=
  match v with
  | Some (JStr s) => String.eqb s "true"
  | Some _ => false
  | None => String.eqb "false" "true"
  end.

(** The construction of one [Opportunity] in [parse_opportunities], its
    arguments evaluated in order. *)
Definition build_opportunity (scan_data : ScanData) (opp : Raw.Entry)
    : result Opportunity :=
  ticker <- Nightly.subscript "ticker" (Raw.ticker opp) ;;
  ff <- Nightly.subscript "forward_factor" (Raw.forward_factor opp) ;;
  forward_factor <- py_float ff ;;
  signal <- Nightly.subscript "signal" (Raw.signal opp) ;;
  front_date <- Nightly.subscript "front_date" (Raw.front_date opp) ;;
  fd <- Nightly.subscript "front_dte" (Raw.front_dte opp) ;;
  front_dte <- py_int fd ;;
  fi <- Nightly.subscript "front_iv" (Raw.front_iv opp) ;;
  front_iv <- py_float fi ;;
  back_date <- Nightly.subscript "back_date" (Raw.back_date opp) ;;
  bd <- Nightly.subscript "back_dte" (Raw.back_dte opp) ;;
  back_dte <- py_int bd ;;
  bi <- Nightly.subscript "back_iv" (Raw.back_iv opp) ;;
  back_iv <- py_float bi ;;
  fv <- Nightly.subscript "forward_vol" (Raw.forward_vol opp) ;;
  forward_vol <- py_float fv ;;
  scan_info <- getitem "scan" (scan scan_data) ;;
  scan_info <- not_none scan_info ;;
  scan_id <- Nightly.subscript "id" (Nightly.id scan_info) ;;
  opportunity_id <- Nightly.subscript "id" (Raw.id opp) ;;
  Ok {| ticker := ticker;
        forward_factor := forward_factor;
        signal := signal;
        front_date := front_date;
        front_dte := front_dte;
        front_iv := front_iv;
        back_date := back_date;
        back_dte := back_dte;
        back_iv := back_iv;
        forward_vol := forward_vol;
        scan_id := scan_id;
        opportunity_id := opportunity_id;
        has_earnings_soon := earnings_flag (Raw.has_earnings_soon opp) |}.

(** [except (KeyError, ValueError)] *)
Definition KeyError_or_ValueError (e : exn) : bool :=
  match e with
  | KeyError _ | ValueError => true
  | _ => false
  end.

(** The loop of [parse_opportunities]. *)
Fixpoint parse_each (scan_data : ScanData) (entries : list Raw.Entry)
    (opportunities : list Opportunity) : result (list Opportunity) :=
  match entries with
  | [] => Ok opportunities
  | opp :: rest =>
      r <- try_except
             (opportunity <- build_opportunity scan_data opp ;;
              Ok (Some opportunity))
             KeyError_or_ValueError (fun _ => Ok None) ;;
      match r with
      | Some opportunity =>
          parse_each scan_data rest (opportunities ++ [opportunity])
      | None => parse_each scan_data rest opportunities
      end
  end.

(** [FFScannerService.parse_opportunities]; iterating over [null] raises
    [TypeError]. *)
Definition parse_opportunities (scan_data : ScanData)
    : result (list Opportunity) :=
  match opportunities scan_data with
  | Missing => Ok []
  | Null => Raise TypeError
  | Val entries => parse_each scan_data entries []
  end.

End WithParsers.

End Nightly64.

(** The forward factor the verifier computes in binary64, from the stored
    front IV and the stored forward volatility. *)
Definition rederived_forward_factor64 (opp : Nightly64.Opportunity)
    : Binary64.float :=
  Binary64.mul
    (Binary64.sub
       (Binary64.div (Nightly64.front_iv opp) (Nightly64.forward_vol opp))
       (Binary64.of_Z 1))
    (Binary64.of_Z 100).

(** Whether the re-derived value is less than 2 points away from the stored
    forward factor, as the verifier tests it. *)
Definition within_tolerance (opp : Nightly64.Opportunity) : bool :=
  Binary64.ltb
    (Binary64.abs
       (Binary64.sub (rederived_forward_factor64 opp)
          (Nightly64.forward_factor opp)))
    (Binary64.of_Z 2).

(** Whether a calculation mismatch is among the reasons. *)
Definition reports_mismatch (reasons : list Nightly64.Reason) : bool :=
  existsb
    (fun r =>
       match r with
       | Nightly64.CalculationMismatch _ _ => true
       | _ => false
       end)
    reasons.

Definition sample_opportunity64 (forward_factor : Binary64.float)
    (front_dte : Z) (front_iv : Binary64.float) (back_dte : Z)
    (back_iv forward_vol : Binary64.float) (has_earnings_soon : bool)
    : Nightly64.Opportunity :=
  {| Nightly64.ticker := "PLTR";
     Nightly64.forward_factor := forward_factor;
     Nightly64.signal := "SELL";
     Nightly64.front_date := "2025-11-21";
     Nightly64.front_dte := front_dte;
     Nightly64.front_iv := front_iv;
     Nightly64.back_date := "2025-12-26";
     Nightly64.back_dte := back_dte;
     Nightly64.back_iv := back_iv;
     Nightly64.forward_vol := forward_vol;
     Nightly64.scan_id := 1;
     Nightly64.opportunity_id := 1;
     Nightly64.has_earnings_soon := has_earnings_soon |}.

(** Stored forward factor 38 with front IV 28 and forward volatility 20:
    the exact re-derivation is 40, exactly 2 points away. *)
Definition opp_boundary : Nightly64.Opportunity :=
  sample_opportunity64 (Binary64.of_Z 38) 30 (Binary64.of_Z 28) 60
    (Binary64.of_Z 25) (Binary64.of_Z 20) false.

(** Flat IVs of 40 at 30 and 60 days with a stored forward volatility of 20
    and a stored forward factor of 100. *)
Definition opp_flat : Nightly64.Opportunity :=
  sample_opportunity64 (Binary64.of_Z 100) 30 (Binary64.of_Z 40) 60
    (Binary64.of_Z 40) (Binary64.of_Z 20) false.

(** A stored forward factor that is NaN. *)
Definition opp_nan : Nightly64.Opportunity :=
  sample_opportunity64 Binary64.nan 30 (Binary64.of_Z 28) 60
    (Binary64.of_Z 25) (Binary64.of_Z 20) false.

Definition sample_entry64 (forward_factor : Nightly64.json)
    (front_dte : Nightly64.json) : Nightly64.Raw.Entry :=
  {| Nightly64.Raw.ticker := Some "PLTR"%string;
     Nightly64.Raw.forward_factor := Some forward_factor;
     Nightly64.Raw.signal := Some "SELL"%string;
     Nightly64.Raw.front_date := Some "2025-11-21"%string;
     Nightly64.Raw.front_dte := Some front_dte;
     Nightly64.Raw.front_iv := Some (Nightly64.JInt 40);
     Nightly64.Raw.back_date := Some "2025-12-26"%string;
     Nightly64.Raw.back_dte := Some (Nightly64.JInt 60);
     Nightly64.Raw.back_iv := Some (Nightly64.JInt 40);
     Nightly64.Raw.forward_vol := Some (Nightly64.JInt 20);
     Nightly64.Raw.id := Some 1%Z;
     Nightly64.Raw.has_earnings_soon := Some (Nightly64.JBool true) |}.

Definition sample_scan_data64 (entries : list Nightly64.Raw.Entry)
    : Nightly64.ScanData :=
  {| Nightly64.opportunities := Val entries;
     Nightly64.scan := Val {| Nightly.id := Some 1%Z |} |}.

(** String-to-number conversions that accept no string. *)
Definition no_float64 (s : string) : option Binary64.float := None.

(** The exceptions [parse_opportunities] lets through. *)
Definition escapes_parse (e : exn) : Prop :=
  e = TypeError \/ exists msg, e = OverflowError msg.

(** Every exception of the arithmetic carries a message. *)
Definition has_message (e : exn) : Prop := truthy_str (Some (str e)) = true.

(** Whether the verifier reports a match. *)
Definition verifier_matches (opp : Nightly64.Opportunity) : bool :=
  negb (Binary64.is_zero (Nightly64.forward_vol opp)) && within_tolerance opp.

(** An exception [parse_opportunities] handles or lets through. *)
Definition handled_or_escapes (e : exn) : Prop :=
  escapes_parse e \/ Nightly64.KeyError_or_ValueError e = true.

(** * Properties *)

(** ** Basic facts *)

Lemma truediv_ok (x y : R) : y <> 0 -> truediv x y = Ok (x / y).
Proof.
  intros Hy. unfold truediv. destruct (Req_dec_T y 0); [contradiction | reflexivity].
Qed.

Lemma truediv_zero (x : R) :
  truediv x 0 = Raise (ZeroDivisionError "float division by zero").
Proof.
  unfold truediv. destruct (Req_dec_T 0 0) as [_ | H]; [reflexivity | now elim H].
Qed.

Lemma Rltb_true (x y : R) : Rltb x y = true <-> x < y.
Proof. unfold Rltb. destruct (Rlt_dec x y); split; intros; try easy. Qed.

Lemma Rltb_false (x y : R) : Rltb x y = false <-> y <= x.
Proof.
  unfold Rltb. destruct (Rlt_dec x y); split; intros; try easy; lra.
Qed.

Lemma Rleb_true (x y : R) : Rleb x y = true <-> x <= y.
Proof. unfold Rleb. destruct (Rle_dec x y); split; intros; try easy. Qed.

Lemma Rleb_false (x y : R) : Rleb x y = false <-> y < x.
Proof.
  unfold Rleb. destruct (Rle_dec x y); split; intros; try easy; lra.
Qed.

Lemma Reqb_true (x y : R) : Reqb x y = true <-> x = y.
Proof. unfold Reqb. destruct (Req_dec_T x y); split; intros; try easy. Qed.

Lemma Reqb_false (x y : R) : Reqb x y = false <-> x <> y.
Proof. unfold Reqb. destruct (Req_dec_T x y); split; intros; try easy. Qed.

Lemma T_gap (front_dte back_dte : Z) :
  (front_dte < back_dte)%Z -> Spec.T back_dte - Spec.T front_dte <> 0.
Proof.
  intros H. apply IZR_lt in H. unfold Spec.T. lra.
Qed.

(** The scanner's computation in closed form, by the sign of the forward
    variance. *)
Lemma calculate_forward_factor_cases
    (front_iv : R) (front_dte : Z) (back_iv : R) (back_dte : Z) :
  (front_dte < back_dte)%Z ->
  Scanner.calculate_forward_factor front_iv front_dte back_iv back_dte =
  let fv := Spec.forward_variance front_iv front_dte back_iv back_dte in
  if Rltb fv 0 then Ok (None, None, Some "Negative forward variance"%string)
  else if Reqb (sqrt fv) 0 then
    Ok (None, None, Some "float division by zero"%string)
  else Ok (Some (sqrt fv * 100),
           Some ((Spec.sigma front_iv - sqrt fv) / sqrt fv * 100),
           None).
Proof.
  intros Hlt. pose proof (T_gap _ _ Hlt) as Hgap.
  unfold Scanner.calculate_forward_factor.
  rewrite !truediv_ok by lra. cbn [bind].
  rewrite truediv_ok by exact Hgap. cbn [bind].
  replace ((back_iv / 100) ^ 2 * (IZR back_dte / 365)
           - (front_iv / 100) ^ 2 * (IZR front_dte / 365))
    with ((Spec.sigma back_iv)² * Spec.T back_dte
          - (Spec.sigma front_iv)² * Spec.T front_dte)
    by (unfold Spec.sigma, Spec.T, Rsqr; ring).
  fold (Spec.T back_dte) (Spec.T front_dte).
  fold (Spec.forward_variance front_iv front_dte back_iv back_dte).
  cbv zeta.
  destruct (Rltb (Spec.forward_variance front_iv front_dte back_iv back_dte) 0);
    [reflexivity |].
  unfold truediv, Reqb.
  destruct (Req_dec_T
    (sqrt (Spec.forward_variance front_iv front_dte back_iv back_dte)) 0);
    reflexivity.
Qed.

Lemma try_except_Exception_ok {A : Type} (c : result A) (h : exn -> A) :
  exists a, try_except c Exception (fun e => Ok (h e)) = Ok a.
Proof.
  destruct c as [a | e]; cbn; eauto.
Qed.

Lemma calculate_forward_factor_total
    (front_iv : R) (front_dte : Z) (back_iv : R) (back_dte : Z) :
  exists r,
    Scanner.calculate_forward_factor front_iv front_dte back_iv back_dte = Ok r.
Proof.
  unfold Scanner.calculate_forward_factor. apply try_except_Exception_ok.
Qed.

(** *** The loop of [find_best_pairs] *)

Lemma pair_step_cons (x : Z * Scanner.TermPoint)
    (l : list (Z * Scanner.TermPoint)) (pairs : list Scanner.Pair) (i : nat) :
  Scanner.pair_step (x :: l) pairs (S i) = Scanner.pair_step l pairs i.
Proof. reflexivity. Qed.

Lemma for_each_pair_step_shift (x : Z * Scanner.TermPoint)
    (l : list (Z * Scanner.TermPoint)) (n k : nat) (acc : list Scanner.Pair) :
  Scanner.for_each (Scanner.pair_step (x :: l)) (seq (S k) n) acc =
  Scanner.for_each (Scanner.pair_step l) (seq k n) acc.
Proof.
  revert k acc. induction n as [| n IH]; intros k acc; [reflexivity |].
  cbn [seq Scanner.for_each]. rewrite pair_step_cons.
  destruct (Scanner.pair_step l acc k) as [acc' | e]; cbn [bind];
    [apply IH | reflexivity].
Qed.

Lemma pair_step_head (front back : Z * Scanner.TermPoint)
    (l : list (Z * Scanner.TermPoint)) (pairs : list Scanner.Pair) :
  Scanner.pair_step (front :: back :: l) pairs 0 =
  Ok (pairs ++ pair_of front back).
Proof.
  unfold Scanner.pair_step, pair_of. cbn [nth_error Nat.add].
  destruct front as [front_date front_data], back as [back_date back_data].
  cbn [fst snd].
  destruct (calculate_forward_factor_total
              (Scanner.iv front_data) (Scanner.dte front_data)
              (Scanner.iv back_data) (Scanner.dte back_data))
    as [[[fwd_vol ff] error] ->].
  cbn [bind]. destruct (truthy_str error); [now rewrite app_nil_r | reflexivity].
Qed.

Lemma for_each_adjacent_pairs (l : list (Z * Scanner.TermPoint))
    (acc : list Scanner.Pair) :
  Scanner.for_each (Scanner.pair_step l) (seq 0 (List.length l - 1)) acc =
  Ok (acc ++ adjacent_pairs l).
Proof.
  revert acc. induction l as [| front rest IH]; intros acc.
  - cbn. now rewrite app_nil_r.
  - destruct rest as [| back rest'].
    + cbn. now rewrite app_nil_r.
    + replace (List.length (front :: back :: rest') - 1)%nat
        with (S (List.length (back :: rest') - 1)) by (cbn; lia).
      cbn [seq Scanner.for_each]. rewrite pair_step_head. cbn [bind].
      rewrite for_each_pair_step_shift, IH.
      cbn [adjacent_pairs]. now rewrite app_assoc.
Qed.

Lemma find_best_pairs_adjacent (expirations : list (Z * Scanner.TermPoint)) :
  Scanner.find_best_pairs expirations =
  Ok (adjacent_pairs (Scanner.sorted_by_dte expirations)).
Proof.
  unfold Scanner.find_best_pairs. cbv zeta.
  now rewrite for_each_adjacent_pairs.
Qed.

(** *** The sort of [find_best_pairs] *)

Lemma insert_by_dte_perm (x : Z * Scanner.TermPoint)
    (l : list (Z * Scanner.TermPoint)) :
  Permutation (x :: l) (Scanner.insert_by_dte x l).
Proof.
  induction l as [| y l IH]; cbn; [reflexivity |].
  destruct (Scanner.dte (snd x) <=? Scanner.dte (snd y))%Z; [reflexivity |].
  rewrite perm_swap. now apply perm_skip.
Qed.

Lemma sorted_by_dte_perm (l : list (Z * Scanner.TermPoint)) :
  Permutation l (Scanner.sorted_by_dte l).
Proof.
  induction l as [| x l IH]; cbn; [reflexivity |].
  rewrite <- insert_by_dte_perm. now apply perm_skip.
Qed.

Lemma insert_by_dte_sorted (x : Z * Scanner.TermPoint)
    (l : list (Z * Scanner.TermPoint)) :
  Sorted (fun a b => (Scanner.dte (snd a) <= Scanner.dte (snd b))%Z) l ->
  Sorted (fun a b => (Scanner.dte (snd a) <= Scanner.dte (snd b))%Z)
    (Scanner.insert_by_dte x l).
Proof.
  induction l as [| y l IH]; cbn; intros Hs.
  - repeat constructor.
  - destruct (Scanner.dte (snd x) <=? Scanner.dte (snd y))%Z eqn:E.
    + apply Z.leb_le in E. constructor; [exact Hs | constructor; exact E].
    + apply Z.leb_gt in E. inversion Hs as [| ? ? Hs' Hhd]; subst.
      constructor; [now apply IH |].
      destruct l as [| z l]; cbn.
      * constructor. lia.
      * destruct (Scanner.dte (snd x) <=? Scanner.dte (snd z))%Z;
          constructor; [lia | now inversion Hhd].
Qed.

(** The ladder [find_best_pairs] walks holds the same entries as its input,
    by ascending DTE. *)
Lemma sorted_by_dte_sorted (l : list (Z * Scanner.TermPoint)) :
  Sorted (fun a b => (Scanner.dte (snd a) <= Scanner.dte (snd b))%Z)
    (Scanner.sorted_by_dte l).
Proof.
  induction l as [| x l IH]; cbn; [constructor |].
  now apply insert_by_dte_sorted.
Qed.

(** ** Forward Factor Calculator *)

Lemma calculate_forward_factor_positive
    (front_iv : R) (front_dte : Z) (back_iv : R) (back_dte : Z) :
  (front_dte < back_dte)%Z ->
  0 < Spec.forward_variance front_iv front_dte back_iv back_dte ->
  Scanner.calculate_forward_factor front_iv front_dte back_iv back_dte =
  Ok (Some (sqrt (Spec.forward_variance front_iv front_dte back_iv back_dte)
            * 100),
      Some ((Spec.sigma front_iv
             - sqrt (Spec.forward_variance front_iv front_dte back_iv back_dte))
            / sqrt (Spec.forward_variance front_iv front_dte back_iv back_dte)
            * 100),
      None).
Proof.
  intros Hlt Hpos.
  rewrite calculate_forward_factor_cases by exact Hlt. cbv zeta.
  pose proof (sqrt_lt_R0 _ Hpos) as Hs.
  replace (Rltb _ 0) with false by (symmetry; apply Rltb_false; lra).
  replace (Reqb _ 0) with false by (symmetry; apply Reqb_false; lra).
  reflexivity.
Qed.

(** ** Quality filter *)

Lemma verify_forward_factor_cases (opp : Nightly.Opportunity) :
  Nightly.verify_forward_factor opp =
  Ok (if Reqb (Nightly.forward_vol opp) 0 then (0, false)
      else (rederived_forward_factor opp,
            Rltb (Rabs (rederived_forward_factor opp
                        - Nightly.forward_factor opp)) 2)).
Proof.
  unfold Nightly.verify_forward_factor, rederived_forward_factor.
  destruct (Reqb (Nightly.forward_vol opp) 0) eqn:Hz; [reflexivity |].
  apply Reqb_false in Hz. now rewrite truediv_ok.
Qed.

Lemma append_if_app (cond : bool) (reason : Nightly.Reason)
    (l : list Nightly.Reason) :
  Nightly.append_if cond reason l = l ++ reason_if cond reason.
Proof.
  destruct cond; cbn; [reflexivity | now rewrite app_nil_r].
Qed.

(** The filter in closed form: one optional reason per gate, in gate order. *)
Lemma apply_quality_filters_cases (opp : Nightly.Opportunity)
    (earnings_info : option Nightly.EarningsInfo) :
  exists calculated_ff matches,
    Nightly.verify_forward_factor opp = Ok (calculated_ff, matches)
    /\ let reasons :=
         reason_if (Rltb (Rabs (Nightly.forward_factor opp)) 30)
           (Nightly.ForwardFactorTooLow (Nightly.forward_factor opp))
         ++ reason_if (Nightly.front_dte opp <? 7)%Z
              (Nightly.FrontDTETooShort (Nightly.front_dte opp))
         ++ reason_if (180 <? Nightly.front_dte opp)%Z
              (Nightly.FrontDTETooLong (Nightly.front_dte opp))
         ++ reason_if (Rltb (Nightly.front_iv opp) 15)
              (Nightly.FrontIVTooLow (Nightly.front_iv opp))
         ++ reason_if (Rltb 150 (Nightly.front_iv opp))
              (Nightly.FrontIVTooHigh (Nightly.front_iv opp))
         ++ reason_if (Nightly.has_earnings_soon opp
                       && Rltb (Nightly.back_iv opp) (Nightly.front_iv opp)
                       && Rltb (Rabs (Nightly.forward_factor opp)) 40)
              (Nightly.FalseSignal (Nightly.front_iv opp)
                 (Nightly.back_iv opp) (Nightly.forward_factor opp))
         ++ reason_if (negb matches)
              (Nightly.CalculationMismatch (Nightly.forward_factor opp)
                 calculated_ff)
         ++ reason_if (Nightly.back_dte opp - Nightly.front_dte opp <? 3)%Z
              (Nightly.DTEDifferenceTooSmall
                 (Nightly.back_dte opp - Nightly.front_dte opp)%Z) in
       Nightly.apply_quality_filters opp earnings_info =
       Ok ((List.length reasons =? 0)%nat, reasons).
Proof.
  pose proof (verify_forward_factor_cases opp) as Hv.
  destruct (if Reqb (Nightly.forward_vol opp) 0 then _ else _)
    as [calculated_ff matches] in Hv.
  exists calculated_ff, matches. split; [exact Hv |].
  unfold Nightly.apply_quality_filters. rewrite Hv. cbn [bind]. cbv zeta.
  unfold Nightly.MIN_FORWARD_FACTOR, Nightly.MIN_DTE, Nightly.MAX_DTE,
    Nightly.MIN_IV, Nightly.MAX_IV, Nightly.get_dte_diff, Nightly.is_inverted,
    Rgtb.
  rewrite Z.gtb_ltb.
  match goal with
  | |- context [if ?c then Nightly.append_if ?b ?r ?l else ?l] =>
      replace (if c then Nightly.append_if b r l else l)
        with (Nightly.append_if (c && b) r l)
        by (destruct c; reflexivity)
  end.
  rewrite !append_if_app, <- !app_assoc. reflexivity.
Qed.

Lemma map_gate_of_reason_if (cond : bool) (reason : Nightly.Reason) :
  map gate_of (reason_if cond reason) = if cond then [gate_of reason] else [].
Proof. now destruct cond. Qed.

(** The gates reported are the rejecting gates, each once and in order. *)
Lemma apply_quality_filters_gates (opp : Nightly.Opportunity)
    (earnings_info : option Nightly.EarningsInfo) :
  exists reasons,
    Nightly.apply_quality_filters opp earnings_info =
    Ok ((List.length reasons =? 0)%nat, reasons)
    /\ map gate_of reasons = filter (gate_rejects opp) all_gates.
Proof.
  destruct (apply_quality_filters_cases opp earnings_info)
    as (calculated_ff & matches & Hv & Hrun).
  cbv zeta in Hrun. eexists. split; [exact Hrun |].
  rewrite !map_app, !map_gate_of_reason_if.
  unfold all_gates, filter, gate_rejects. rewrite Hv. cbn [gate_of].
  destruct (Rltb (Rabs (Nightly.forward_factor opp)) 30),
    (Nightly.front_dte opp <? 7)%Z, (180 <? Nightly.front_dte opp)%Z,
    (Rltb (Nightly.front_iv opp) 15), (Rltb 150 (Nightly.front_iv opp)),
    (Nightly.has_earnings_soon opp
     && Rltb (Nightly.back_iv opp) (Nightly.front_iv opp)
     && Rltb (Rabs (Nightly.forward_factor opp)) 40),
    (negb matches), (Nightly.back_dte opp - Nightly.front_dte opp <? 3)%Z;
    reflexivity.
Qed.

Lemma existsb_filter_gate (f : Gate -> bool) (g : Gate) :
  existsb (fun g' => gate_eqb g' g) (filter f all_gates) = f g.
Proof.
  unfold all_gates, filter.
  destruct g;
    destruct (f Magnitude), (f FrontDTEFloor), (f FrontDTECeiling),
      (f IVFloor), (f IVCeiling), (f EarningsConflict),
      (f CalculationConsistency), (f SpreadWidth); reflexivity.
Qed.

Lemma existsb_map {A B : Type} (f : A -> B) (p : B -> bool) (l : list A) :
  existsb p (map f l) = existsb (fun a => p (f a)) l.
Proof.
  induction l as [| a l IH]; cbn; [reflexivity | now rewrite IH].
Qed.

(** A gate is reported exactly when its condition to reject holds. *)
Lemma gate_fires_rejects (g : Gate) (opp : Nightly.Opportunity)
    (earnings_info : option Nightly.EarningsInfo) :
  gate_fires g opp earnings_info = gate_rejects opp g.
Proof.
  unfold gate_fires.
  destruct (apply_quality_filters_gates opp earnings_info)
    as (reasons & -> & Hgates).
  rewrite <- (existsb_map gate_of (fun g' => gate_eqb g' g)), Hgates.
  apply existsb_filter_gate.
Qed.

Lemma length_eqb_0 {A : Type} (l : list A) :
  (List.length l =? 0)%nat = true <-> l = [].
Proof.
  destruct l; cbn; split; intros H; try reflexivity; discriminate.
Qed.

Lemma filter_nil_iff {A : Type} (f : A -> bool) (l : list A) :
  filter f l = [] <-> forall a, In a l -> f a = false.
Proof.
  induction l as [| x l IH]; cbn.
  - split; [intros _ a [] | reflexivity].
  - destruct (f x) eqn:Hx.
    + split; [discriminate |]. intros H.
      specialize (H x (or_introl eq_refl)). congruence.
    + rewrite IH. split.
      * intros H a [<- | Ha]; [exact Hx | now apply H].
      * intros H a Ha. apply H. now right.
Qed.

Lemma in_all_gates (g : Gate) : In g all_gates.
Proof. destruct g; cbn; tauto. Qed.

(** C3: [apply_quality_filters] returns normally; the gates of its reasons
    are exactly the gates whose condition to reject holds, one reason each
    and in gate order (no gate is skipped after an earlier one fails); and
    [is_quality] is true exactly when the reason list is empty, which is
    exactly when no gate rejects. *)
Theorem apply_quality_filters_exhaustive (opp : Nightly.Opportunity)
    (earnings_info : option Nightly.EarningsInfo) :
  exists is_quality reasons,
    Nightly.apply_quality_filters opp earnings_info = Ok (is_quality, reasons)
    /\ map gate_of reasons = filter (gate_rejects opp) all_gates
    /\ (forall g, gate_rejects opp g = true <->
                  exists r, In r reasons /\ gate_of r = g)
    /\ (is_quality = true <-> reasons = [])
    /\ (is_quality = true <-> forall g, gate_rejects opp g = false).
Proof.
  destruct (apply_quality_filters_gates opp earnings_info)
    as (reasons & Hrun & Hgates).
  exists (List.length reasons =? 0)%nat, reasons.
  split; [exact Hrun |]. split; [exact Hgates |].
  split; [| split].
  - intros g. split.
    + intros Hg.
      assert (Hin : In g (map gate_of reasons)).
      { rewrite Hgates. apply filter_In. split; [apply in_all_gates | exact Hg]. }
      apply in_map_iff in Hin. destruct Hin as (r & Hr & Hin). eauto.
    + intros (r & Hin & <-).
      assert (Hm : In (gate_of r) (map gate_of reasons)) by now apply in_map.
      rewrite Hgates in Hm. now apply filter_In in Hm.
  - apply length_eqb_0.
  - rewrite length_eqb_0. split.
    + intros -> g. cbn [map] in Hgates. symmetry in Hgates.
      apply (proj1 (filter_nil_iff _ _) Hgates), in_all_gates.
    + intros Hall.
      assert (Hnil : filter (gate_rejects opp) all_gates = []).
      { apply filter_nil_iff. intros g _. apply Hall. }
      rewrite Hnil in Hgates. now apply map_eq_nil in Hgates.
Qed.

(** C6: with [has_earnings_soon] true and [front_iv > back_iv] the
    earnings-conflict gate reports a reason exactly when
    [|forward_factor| < 40]: it does at 35 and does not at 45; without
    earnings soon, or without inversion, it never reports one. *)
Theorem earnings_conflict_gate (opp : Nightly.Opportunity)
    (earnings_info : option Nightly.EarningsInfo) :
  (Nightly.has_earnings_soon opp = true ->
   Nightly.front_iv opp > Nightly.back_iv opp ->
   (gate_fires EarningsConflict opp earnings_info = true <->
    Rabs (Nightly.forward_factor opp) < 40)
   /\ gate_fires EarningsConflict (with_forward_factor opp 35) earnings_info
      = true
   /\ gate_fires EarningsConflict (with_forward_factor opp 45) earnings_info
      = false)
  /\ (Nightly.has_earnings_soon opp = false
      \/ ~ Nightly.front_iv opp > Nightly.back_iv opp ->
      gate_fires EarningsConflict opp earnings_info = false).
Proof.
  split.
  - intros Hsoon Hinv.
    assert (Hinvb : Rltb (Nightly.back_iv opp) (Nightly.front_iv opp) = true)
      by (apply Rltb_true; lra).
    rewrite !gate_fires_rejects. cbn [gate_rejects with_forward_factor
      Nightly.has_earnings_soon Nightly.back_iv Nightly.front_iv
      Nightly.forward_factor].
    rewrite Hsoon, Hinvb. cbn [andb]. split; [apply Rltb_true |]. split.
    + apply Rltb_true. rewrite Rabs_right; lra.
    + apply Rltb_false. rewrite Rabs_right; lra.
  - intros Hno. rewrite gate_fires_rejects. cbn [gate_rejects].
    destruct Hno as [-> | Hninv]; [reflexivity |].
    replace (Rltb (Nightly.back_iv opp) (Nightly.front_iv opp)) with false
      by (symmetry; apply Rltb_false; lra).
    now rewrite andb_false_r.
Qed.

(** C10: when the stored [forward_vol] is 0, [verify_forward_factor] returns
    [(0.0, False)] without raising, and [apply_quality_filters] reports a
    calculation mismatch and marks the opportunity not quality, whatever its
    other fields. *)
Theorem zero_forward_vol_rejected (opp : Nightly.Opportunity)
    (earnings_info : option Nightly.EarningsInfo) :
  Nightly.forward_vol opp = 0 ->
  Nightly.verify_forward_factor opp = Ok (0, false)
  /\ exists reasons,
       Nightly.apply_quality_filters opp earnings_info = Ok (false, reasons)
       /\ In (Nightly.CalculationMismatch (Nightly.forward_factor opp) 0)
            reasons.
Proof.
  intros Hzero.
  assert (Hv : Nightly.verify_forward_factor opp = Ok (0, false)).
  { rewrite verify_forward_factor_cases.
    replace (Reqb (Nightly.forward_vol opp) 0) with true
      by (symmetry; now apply Reqb_true).
    reflexivity. }
  split; [exact Hv |].
  destruct (apply_quality_filters_cases opp earnings_info)
    as (calculated_ff & matches & Hv' & Hrun).
  rewrite Hv in Hv'. injection Hv' as <- <-. cbv zeta in Hrun.
  match type of Hrun with
  | _ = Ok (_, ?l) =>
      assert (Hin : In (Nightly.CalculationMismatch
                          (Nightly.forward_factor opp) 0) l)
  end.
  { do 6 (apply in_or_app; right). apply in_or_app. left. now left. }
  eexists. split; [| exact Hin].
  rewrite Hrun. f_equal. f_equal.
  match goal with
  | |- (List.length ?l =? 0)%nat = false => destruct l; [now elim Hin | reflexivity]
  end.
Qed.

Lemma rederived_matches_formula (opp : Nightly.Opportunity) :
  0 < Spec.forward_variance (Nightly.front_iv opp) (Nightly.front_dte opp)
        (Nightly.back_iv opp) (Nightly.back_dte opp) ->
  Nightly.forward_vol opp =
    Spec.forward_vol (Nightly.front_iv opp) (Nightly.front_dte opp)
      (Nightly.back_iv opp) (Nightly.back_dte opp) ->
  Nightly.forward_vol opp <> 0
  /\ rederived_forward_factor opp =
     Spec.forward_factor (Nightly.front_iv opp) (Nightly.front_dte opp)
       (Nightly.back_iv opp) (Nightly.back_dte opp).
Proof.
  intros Hpos Hvol. pose proof (sqrt_lt_R0 _ Hpos) as Hs.
  unfold rederived_forward_factor. rewrite Hvol.
  unfold Spec.forward_vol, Spec.forward_factor, Spec.sigma.
  split; [lra |]. field. lra.
Qed.

(** C5: when the stored [forward_vol] and [forward_factor] are the ones
    [calculate_forward_factor] returns on the opportunity's own inputs (with
    [back_dte > front_dte > 0] and a positive forward variance), the verifier
    re-derives exactly the stored forward factor (difference 0), reports a
    match, and the calculation-consistency gate reports no reason; and two
    runs of the calculator on the same inputs give the same result. *)
Theorem stored_result_verifies (opp : Nightly.Opportunity)
    (earnings_info : option Nightly.EarningsInfo) :
  (0 < Nightly.front_dte opp)%Z ->
  (Nightly.front_dte opp < Nightly.back_dte opp)%Z ->
  0 < Spec.forward_variance (Nightly.front_iv opp) (Nightly.front_dte opp)
        (Nightly.back_iv opp) (Nightly.back_dte opp) ->
  Scanner.calculate_forward_factor (Nightly.front_iv opp)
    (Nightly.front_dte opp) (Nightly.back_iv opp) (Nightly.back_dte opp)
  = Ok (Some (Nightly.forward_vol opp), Some (Nightly.forward_factor opp), None) ->
  Nightly.verify_forward_factor opp = Ok (Nightly.forward_factor opp, true)
  /\ rederived_forward_factor opp - Nightly.forward_factor opp = 0
  /\ gate_fires CalculationConsistency opp earnings_info = false
  /\ (forall r1 r2,
        Scanner.calculate_forward_factor (Nightly.front_iv opp)
          (Nightly.front_dte opp) (Nightly.back_iv opp) (Nightly.back_dte opp)
        = r1 ->
        Scanner.calculate_forward_factor (Nightly.front_iv opp)
          (Nightly.front_dte opp) (Nightly.back_iv opp) (Nightly.back_dte opp)
        = r2 ->
        r1 = r2).
Proof.
  intros _ Hlt Hpos Hstored.
  rewrite (calculate_forward_factor_positive _ _ _ _ Hlt Hpos) in Hstored.
  injection Hstored as Hvol Hff.
  destruct (rederived_matches_formula opp Hpos) as [Hnz Hre].
  { symmetry. exact Hvol. }
  assert (Hsame : rederived_forward_factor opp = Nightly.forward_factor opp).
  { rewrite Hre, <- Hff. reflexivity. }
  assert (Hv : Nightly.verify_forward_factor opp
               = Ok (Nightly.forward_factor opp, true)).
  { rewrite verify_forward_factor_cases.
    replace (Reqb (Nightly.forward_vol opp) 0) with false
      by (symmetry; now apply Reqb_false).
    rewrite Hsame. f_equal. f_equal. apply Rltb_true.
    replace (Nightly.forward_factor opp - Nightly.forward_factor opp) with 0
      by ring.
    rewrite Rabs_R0. lra. }
  split; [exact Hv |]. split; [rewrite Hsame; ring |]. split.
  - rewrite gate_fires_rejects. cbn [gate_rejects]. now rewrite Hv.
  - intros r1 r2 <- <-. reflexivity.
Qed.

(** ** Rating *)

Lemma calculate_rating_sum (opp : Nightly.Opportunity)
    (earnings_info : option Nightly.EarningsInfo) (probability risk_reward : R) :
  Nightly.calculate_rating opp earnings_info probability risk_reward =
  Z.max 0 (Z.min 10
    (5
     + (if Rgeb (Rabs (Nightly.forward_factor opp)) 80 then 3
        else if Rgeb (Rabs (Nightly.forward_factor opp)) 60 then 2
        else if Rgeb (Rabs (Nightly.forward_factor opp)) 40 then 1
        else 0)
     + Z.b2z (match earnings_info with
              | Some info =>
                  Nightly.Earnings.has_earnings_soon info
                  && Nightly.Earnings.front_is_pre_earnings info
                  && Nightly.Earnings.back_is_post_earnings info
              | None => false
              end)
     + Z.b2z ((20 <=? Nightly.front_dte opp)%Z
              && (Nightly.front_dte opp <=? 60)%Z)
     - Z.b2z (Nightly.is_inverted opp)
     + Z.b2z (Rgeb probability 80)
     + Z.b2z (Rgeb risk_reward 4)))%Z.
Proof.
  unfold Nightly.calculate_rating. cbv zeta.
  destruct (Rgeb (Rabs (Nightly.forward_factor opp)) 80),
    (Rgeb (Rabs (Nightly.forward_factor opp)) 60),
    (Rgeb (Rabs (Nightly.forward_factor opp)) 40),
    ((20 <=? Nightly.front_dte opp)%Z && (Nightly.front_dte opp <=? 60)%Z),
    (Nightly.is_inverted opp), (Rgeb probability 80), (Rgeb risk_reward 4);
    destruct earnings_info as [info |];
    try (destruct (Nightly.Earnings.has_earnings_soon info),
           (Nightly.Earnings.front_is_pre_earnings info),
           (Nightly.Earnings.back_is_post_earnings info));
    reflexivity.
Qed.

Lemma magnitude_bonus_mono (ff1 ff2 : R) :
  Rabs ff1 <= Rabs ff2 ->
  ((if Rgeb (Rabs ff1) 80 then 3 else if Rgeb (Rabs ff1) 60 then 2
    else if Rgeb (Rabs ff1) 40 then 1 else 0)
   <= (if Rgeb (Rabs ff2) 80 then 3 else if Rgeb (Rabs ff2) 60 then 2
       else if Rgeb (Rabs ff2) 40 then 1 else 0))%Z.
Proof.
  intros Hle. unfold Rgeb, Rleb. split_thresholds; lia.
Qed.

Lemma probability_bonus_mono (opp : Nightly.Opportunity) (ff1 ff2 : R) :
  Rabs ff1 <= Rabs ff2 ->
  (Z.b2z (Rgeb (Nightly.calculate_probability (with_forward_factor opp ff1)) 80)
   <= Z.b2z (Rgeb (Nightly.calculate_probability (with_forward_factor opp ff2)) 80))%Z.
Proof.
  intros Hle. unfold Nightly.calculate_probability.
  cbn [with_forward_factor Nightly.forward_factor Nightly.has_earnings_soon].
  cbv zeta. unfold Rgeb, Rleb.
  destruct (Nightly.has_earnings_soon opp); split_thresholds; cbn; lia.
Qed.

Lemma risk_reward_bonus_mono (opp : Nightly.Opportunity) (ff1 ff2 : R) :
  Rabs ff1 <= Rabs ff2 ->
  (Z.b2z (Rgeb (Nightly.calculate_risk_reward (with_forward_factor opp ff1)) 4)
   <= Z.b2z (Rgeb (Nightly.calculate_risk_reward (with_forward_factor opp ff2)) 4))%Z.
Proof.
  intros Hle. unfold Nightly.calculate_risk_reward.
  cbn [with_forward_factor Nightly.forward_factor]. cbv zeta.
  unfold Rgeb, Rleb. split_thresholds; cbn; lia.
Qed.

(** C7: [calculate_rating] is an integer between 0 and 10 for every input;
    and with probability and risk/reward computed from the opportunity, a
    larger [|forward_factor|], every other field fixed, never gives a smaller
    rating. *)
Theorem rating_bounded_and_monotone :
  (forall opp earnings_info probability risk_reward,
     (0 <= Nightly.calculate_rating opp earnings_info probability risk_reward
      <= 10)%Z)
  /\ (forall opp earnings_info ff1 ff2,
        Rabs ff1 <= Rabs ff2 ->
        (Nightly.analysis_rating (with_forward_factor opp ff1) earnings_info
         <= Nightly.analysis_rating (with_forward_factor opp ff2) earnings_info)%Z).
Proof.
  split.
  - intros opp earnings_info probability risk_reward.
    unfold Nightly.calculate_rating. cbv zeta. lia.
  - intros opp earnings_info ff1 ff2 Hle. unfold Nightly.analysis_rating.
    cbv zeta. rewrite !calculate_rating_sum.
    pose proof (magnitude_bonus_mono _ _ Hle) as Hm.
    pose proof (probability_bonus_mono opp _ _ Hle) as Hp.
    pose proof (risk_reward_bonus_mono opp _ _ Hle) as Hr.
    cbn [with_forward_factor Nightly.forward_factor Nightly.front_dte] in *.
    unfold Nightly.is_inverted.
    cbn [with_forward_factor Nightly.front_iv Nightly.back_iv].
    lia.
Qed.

(** ** The properties on the sample data *)

Lemma sample_variance_positive : 0 < Spec.forward_variance 35.2 28 28.4 63.
Proof.
  unfold Spec.forward_variance, Spec.sigma, Spec.T, Rsqr.
  apply Rdiv_lt_0_compat; lra.
Qed.

Lemma flat_variance : Spec.forward_variance 40 30 40 60 = (40 / 100)².
Proof.
  unfold Spec.forward_variance, Spec.sigma, Spec.T, Rsqr. field.
Qed.

Lemma flat_forward_factor : Spec.forward_factor 40 30 40 60 = 0.
Proof.
  unfold Spec.forward_factor. rewrite flat_variance, sqrt_Rsqr by lra.
  unfold Spec.sigma. field.
Qed.

(** C4, as the specification words it, fails: on [opp_inconsistent] the
    forward factor of section 4.2 is 0, 100 points away from the stored one,
    yet the gate reports no reason, since the verifier divides the stored
    front IV by the stored forward volatility. *)
Lemma consistency_gate_not_rederived :
  Spec.consistency_gate_rejects opp_inconsistent
  /\ gate_fires CalculationConsistency opp_inconsistent None = false
  /\ ~ (gate_fires CalculationConsistency opp_inconsistent None = true <->
        Spec.consistency_gate_rejects opp_inconsistent).
Proof.
  assert (Hspec : Spec.consistency_gate_rejects opp_inconsistent).
  { unfold Spec.consistency_gate_rejects, opp_inconsistent, sample_opportunity.
    cbn [Nightly.front_iv Nightly.front_dte Nightly.back_iv Nightly.back_dte
         Nightly.forward_factor].
    rewrite flat_forward_factor.
    replace (0 - 100) with (- (100)) by ring.
    rewrite Rabs_Ropp, Rabs_right; lra. }
  assert (Hcode : gate_fires CalculationConsistency opp_inconsistent None = false).
  { rewrite gate_fires_rejects. cbn [gate_rejects].
    rewrite verify_forward_factor_cases.
    unfold rederived_forward_factor, opp_inconsistent, sample_opportunity.
    cbn [Nightly.front_iv Nightly.forward_vol Nightly.forward_factor].
    replace (Reqb 20 0) with false by (symmetry; apply Reqb_false; lra).
    apply negb_false_iff, Rltb_true.
    replace ((40 / 20 - 1) * 100 - 100) with 0 by field.
    rewrite Rabs_R0. lra. }
  split; [exact Hspec |]. split; [exact Hcode |].
  intros [_ H]. specialize (H Hspec). congruence.
Qed.

Lemma stored_result_verifies_witness :
  (0 < 28)%Z /\ (28 < 63)%Z /\ 0 < Spec.forward_variance 35.2 28 28.4 63
  /\ Nightly.verify_forward_factor opp_from_formula =
     Ok (Nightly.forward_factor opp_from_formula, true)
  /\ gate_fires CalculationConsistency opp_from_formula None = false.
Proof.
  split; [lia |]. split; [lia |]. split; [exact sample_variance_positive |].
  assert (H := stored_result_verifies opp_from_formula None).
  cbn [opp_from_formula sample_opportunity Nightly.front_dte Nightly.back_dte
       Nightly.front_iv Nightly.back_iv] in H.
  destruct H as (Hv & _ & Hgate & _).
  - lia.
  - lia.
  - exact sample_variance_positive.
  - apply calculate_forward_factor_positive;
      [lia | exact sample_variance_positive].
  - split; [exact Hv | exact Hgate].
Defined.

Lemma earnings_conflict_gate_witness :
  Nightly.has_earnings_soon opp_earnings = true
  /\ Nightly.front_iv opp_earnings > Nightly.back_iv opp_earnings
  /\ gate_fires EarningsConflict (with_forward_factor opp_earnings 35) None
     = true
  /\ gate_fires EarningsConflict (with_forward_factor opp_earnings 45) None
     = false.
Proof.
  assert (Hinv : Nightly.front_iv opp_earnings > Nightly.back_iv opp_earnings)
    by (cbn; lra).
  split; [reflexivity |]. split; [exact Hinv |].
  exact (proj2 (proj1 (earnings_conflict_gate opp_earnings None)
                  eq_refl Hinv)).
Defined.

Lemma rating_bounded_and_monotone_witness :
  Rabs 35 <= Rabs 85
  /\ (Nightly.analysis_rating (with_forward_factor opp_earnings 35) None
      <= Nightly.analysis_rating (with_forward_factor opp_earnings 85) None)%Z.
Proof.
  assert (Hle : Rabs 35 <= Rabs 85) by (rewrite !Rabs_right; lra).
  split; [exact Hle |].
  exact (proj2 rating_bounded_and_monotone opp_earnings None 35 85 Hle).
Defined.

Lemma zero_forward_vol_rejected_witness :
  Nightly.forward_vol opp_zero_vol = 0
  /\ Nightly.verify_forward_factor opp_zero_vol = Ok (0, false).
Proof.
  split; [reflexivity |].
  exact (proj1 (zero_forward_vol_rejected opp_zero_vol None eq_refl)).
Defined.

(** ** Term Structure Builder *)

Section DictFacts.

Context {V : Type}.

Lemma dict_get_set_eq (k : Z) (v : V) (d : list (Z * V)) :
  dict_get k (dict_set k v d) = Some v.
Proof.
  induction d as [| [k' v'] d IH]; cbn.
  - now rewrite Z.eqb_refl.
  - destruct (k =? k')%Z eqn:E; cbn; rewrite E; [reflexivity | exact IH].
Qed.

Lemma dict_get_set_ne (k k' : Z) (v : V) (d : list (Z * V)) :
  k' <> k -> dict_get k' (dict_set k v d) = dict_get k' d.
Proof.
  intros Hne. induction d as [| [k0 v0] d IH]; cbn.
  - apply Z.eqb_neq in Hne. now rewrite Hne.
  - destruct (k =? k0)%Z eqn:E; cbn.
    + apply Z.eqb_eq in E. subst k0.
      apply Z.eqb_neq in Hne. now rewrite Hne.
    + now rewrite IH.
Qed.

Lemma in_keys_dict_set (k k' : Z) (v : V) (d : list (Z * V)) :
  In k' (map fst (dict_set k v d)) <-> k' = k \/ In k' (map fst d).
Proof.
  induction d as [| [k0 v0] d IH]; cbn.
  - intuition.
  - destruct (k =? k0)%Z eqn:E; cbn.
    + apply Z.eqb_eq in E. subst k0. intuition.
    + rewrite IH. intuition.
Qed.

Lemma NoDup_keys_dict_set (k : Z) (v : V) (d : list (Z * V)) :
  NoDup (map fst d) -> NoDup (map fst (dict_set k v d)).
Proof.
  induction d as [| [k0 v0] d IH]; cbn; intros Hnd.
  - constructor; [intros [] | constructor].
  - destruct (k =? k0)%Z eqn:E; cbn; [exact Hnd |].
    inversion Hnd as [| ? ? Hnotin Hnd']; subst.
    constructor; [| now apply IH].
    rewrite in_keys_dict_set. apply Z.eqb_neq in E. intuition.
Qed.

Lemma dict_get_not_in (k : Z) (d : list (Z * V)) :
  ~ In k (map fst d) -> dict_get k d = None.
Proof.
  induction d as [| [k0 v0] d IH]; cbn; intros Hnotin; [reflexivity |].
  destruct (k =? k0)%Z eqn:E.
  - apply Z.eqb_eq in E. subst. intuition.
  - apply IH. intuition.
Qed.

End DictFacts.

Lemma dict_get_append {V : Type} (k d : Z) (v : V) (e : list (Z * list V)) :
  dict_get d (dict_append k v e) =
  if (k =? d)%Z then Some (get_list d e ++ [v]) else dict_get d e.
Proof.
  unfold dict_append, get_list. destruct (k =? d)%Z eqn:E.
  - apply Z.eqb_eq in E. subst. apply dict_get_set_eq.
  - apply Z.eqb_neq in E. apply dict_get_set_ne. congruence.
Qed.

Section TermStructure.

Variable strptime_ymd : string -> option Z.
Variable today : Z.

Lemma parse_expiration_date_cases (exp_date_str : option string) :
  Scanner.parse_expiration_date strptime_ymd exp_date_str =
  Ok (match exp_date_str with
      | Some s => strptime_ymd s
      | None => None
      end).
Proof.
  unfold Scanner.parse_expiration_date, Scanner.strptime.
  destruct exp_date_str as [s |]; cbn; [| reflexivity].
  destruct (strptime_ymd s); reflexivity.
Qed.

(** With a non-zero price estimate the body of the second loop raises only
    what the loop handles. *)
Lemma atm_iv_handled (stock_price : R) (opt : Scanner.OptionData) :
  stock_price <> 0 ->
  try_except (Scanner.atm_iv strptime_ymd stock_price opt)
    KeyError_or_TypeError (fun _ => Ok None)
  = Ok (recorded strptime_ymd stock_price opt).
Proof.
  intros Hsp. unfold recorded.
  destruct (try_except (Scanner.atm_iv strptime_ymd stock_price opt)
              KeyError_or_TypeError (fun _ => Ok None)) as [r | e] eqn:E;
    [reflexivity | exfalso].
  revert E. unfold Scanner.atm_iv.
  destruct (Scanner.details opt) as [| | dt]; cbn; try discriminate.
  destruct (Scanner.expiration_date dt) as [| | s]; cbn; try discriminate;
    rewrite parse_expiration_date_cases; cbn; try discriminate.
  destruct (strptime_ymd s) as [d |]; try discriminate.
  destruct (Scanner.strike_price dt) as [| | k]; cbn; try discriminate.
  rewrite truediv_ok by exact Hsp. cbn.
  destruct (Rgtb _ _); try discriminate.
  destruct (get (Scanner.implied_volatility opt)) as [v |]; try discriminate.
  destruct (Rleb v 0 || Rgtb v 500); discriminate.
Qed.

Lemma recorded_qualifies (stock_price : R) (opt : Scanner.OptionData)
    (exp_date : Z) (v : R) :
  stock_price <> 0 ->
  recorded strptime_ymd stock_price opt = Some (exp_date, v) <->
  qualifies strptime_ymd stock_price opt exp_date v.
Proof.
  intros Hsp. unfold recorded, qualifies, Scanner.atm_iv. split.
  - destruct (Scanner.details opt) as [| | dt]; cbn; try discriminate.
    destruct (Scanner.expiration_date dt) as [| | s] eqn:Hs; cbn;
      rewrite ?parse_expiration_date_cases; cbn; try discriminate.
    destruct (strptime_ymd s) as [d |] eqn:Hd; cbn; try discriminate.
    destruct (Scanner.strike_price dt) as [| | k] eqn:Hk; cbn;
      try discriminate.
    rewrite truediv_ok by exact Hsp. cbn. unfold Rgtb.
    destruct (Rltb 0.10 (Rabs (k - stock_price) / stock_price)) eqn:Hfar;
      cbn; try discriminate.
    destruct (Scanner.implied_volatility opt) as [| | v0]; cbn;
      try discriminate.
    destruct (Rleb v0 0) eqn:Hlow; cbn; try discriminate.
    destruct (Rltb 500 v0) eqn:Hhigh; cbn; try discriminate.
    intros H. injection H as <- <-.
    apply Rltb_false in Hfar, Hhigh. apply Rleb_false in Hlow.
    exists dt, s, k. repeat split; auto.
  - intros (dt & s & k & Hdt & Hs & Hd & Hk & Hnear & Hiv & Hlow & Hhigh).
    rewrite Hdt. cbn. rewrite Hs. cbn.
    rewrite parse_expiration_date_cases, Hd. cbn. rewrite Hk. cbn.
    rewrite truediv_ok by exact Hsp. cbn. unfold Rgtb.
    replace (Rltb 0.10 (Rabs (k - stock_price) / stock_price)) with false
      by (symmetry; now apply Rltb_false).
    rewrite Hiv. cbn.
    replace (Rleb v 0) with false by (symmetry; now apply Rleb_false).
    replace (Rltb 500 v) with false by (symmetry; now apply Rltb_false).
    reflexivity.
Qed.

Lemma estimate_stock_price_total (options_data : list Scanner.OptionData) :
  exists stock_price, Scanner.estimate_stock_price options_data = Ok stock_price.
Proof.
  induction options_data as [| opt rest IH]; cbn; [eauto |].
  destruct (try_except_Exception_ok (Scanner.atm_probe opt)
              (fun _ => Scanner.Continue)) as [ctl ->].
  cbn. destruct ctl; eauto.
Qed.

(** The second loop: it returns normally, and the list it holds for an
    expiration is the list it held before followed by the volatilities
    recorded for that expiration. *)
Lemma collect_ivs_spec (stock_price : R) (options_data : list Scanner.OptionData) :
  stock_price <> 0 ->
  forall expirations0,
  exists expirations,
    Scanner.collect_ivs strptime_ymd stock_price options_data expirations0
    = Ok expirations
    /\ (forall d,
          dict_get d expirations =
          match surviving_ivs strptime_ymd stock_price options_data d with
          | [] => dict_get d expirations0
          | l => Some (get_list d expirations0 ++ l)
          end)
    /\ (NoDup (map fst expirations0) -> NoDup (map fst expirations)).
Proof.
  intros Hsp. induction options_data as [| opt rest IH]; intros expirations0.
  - exists expirations0. cbn. auto.
  - cbn [Scanner.collect_ivs surviving_ivs flat_map].
    rewrite atm_iv_handled by exact Hsp. cbn [bind].
    destruct (recorded strptime_ymd stock_price opt) as [[k v] |].
    + destruct (IH (dict_append k v expirations0))
        as (expirations & Hrun & Hget & Hnd).
      exists expirations. split; [exact Hrun |]. split.
      * intros d. rewrite Hget. fold (surviving_ivs strptime_ymd stock_price rest d).
        unfold get_list at 1. rewrite dict_get_append.
        destruct (k =? d)%Z eqn:E; cbn [app].
        -- destruct (surviving_ivs strptime_ymd stock_price rest d);
             [reflexivity |].
           now rewrite <- app_assoc.
        -- reflexivity.
      * intros Hnd0. apply Hnd. unfold dict_append.
        now apply NoDup_keys_dict_set.
    + destruct (IH expirations0) as (expirations & Hrun & Hget & Hnd).
      exists expirations. auto.
Qed.

Lemma dict_get_add_term_point (d : Z) (res : list (Z * Scanner.TermPoint))
    (exp_date : Z) (iv_list : list R) :
  dict_get d (Scanner.add_term_point today res (exp_date, iv_list)) =
  if (exp_date =? d)%Z && (3 <=? List.length iv_list)%nat
     && (0 <? exp_date - today)%Z
  then Some (mean_point today exp_date iv_list)
  else dict_get d res.
Proof.
  unfold Scanner.add_term_point, Scanner.calculate_dte, mean_point.
  rewrite Z.gtb_ltb.
  destruct (3 <=? List.length iv_list)%nat; [| now rewrite andb_false_r].
  destruct (0 <? exp_date - today)%Z eqn:Hpos.
  - replace (exp_date - today =? 0)%Z with false
      by (symmetry; apply Z.eqb_neq; apply Z.ltb_lt in Hpos; lia).
    cbn [negb andb]. rewrite !andb_true_r.
    destruct (exp_date =? d)%Z eqn:E.
    + apply Z.eqb_eq in E. subst. apply dict_get_set_eq.
    + apply Z.eqb_neq in E. apply dict_get_set_ne. congruence.
  - now rewrite !andb_false_r.
Qed.

(** The last loop: an expiration gets a term point exactly when its list
    has 3 entries or more and its DTE is positive. *)
Lemma dict_get_term_points (d : Z) (expirations : list (Z * list R)) :
  NoDup (map fst expirations) ->
  forall res,
  dict_get d (fold_left (Scanner.add_term_point today) expirations res) =
  match dict_get d expirations with
  | Some iv_list =>
      if (3 <=? List.length iv_list)%nat && (0 <? d - today)%Z
      then Some (mean_point today d iv_list)
      else dict_get d res
  | None => dict_get d res
  end.
Proof.
  induction expirations as [| [k l] rest IH]; intros Hnd res;
    [reflexivity |].
  inversion Hnd as [| ? ? Hnotin Hnd']; subst.
  cbn [fold_left dict_get]. rewrite IH by exact Hnd'.
  rewrite dict_get_add_term_point.
  destruct (d =? k)%Z eqn:E.
  - apply Z.eqb_eq in E. subst k.
    rewrite (dict_get_not_in d rest Hnotin), Z.eqb_refl. reflexivity.
  - rewrite Z.eqb_sym, E. cbn [andb]. reflexivity.
Qed.

(** [group_by_expiration] in closed form. *)
Lemma group_by_expiration_lookup (options_data : list Scanner.OptionData) :
  exists stock_price result,
    Scanner.estimate_stock_price options_data = Ok stock_price
    /\ Scanner.group_by_expiration strptime_ymd today options_data = Ok result
    /\ forall exp_date,
         dict_get exp_date result =
         match stock_price with
         | Some price =>
             let ivs := surviving_ivs strptime_ymd price options_data exp_date in
             if negb (Reqb price 0) && (3 <=? List.length ivs)%nat
                && (0 <? exp_date - today)%Z
             then Some (mean_point today exp_date ivs)
             else None
         | None => None
         end.
Proof.
  destruct (estimate_stock_price_total options_data) as [stock_price Hest].
  exists stock_price. unfold Scanner.group_by_expiration. rewrite Hest.
  cbn [bind]. destruct stock_price as [price |]; [| now exists []].
  destruct (Reqb price 0) eqn:Hz; [now exists [] |].
  apply Reqb_false in Hz.
  destruct (collect_ivs_spec price options_data Hz [])
    as (expirations & Hrun & Hget & Hnd).
  rewrite Hrun. cbn [bind]. eexists. split; [reflexivity |].
  split; [reflexivity |]. intros exp_date. cbv zeta.
  rewrite dict_get_term_points by (apply Hnd; constructor).
  rewrite Hget. cbn [negb andb dict_get get_list app].
  destruct (surviving_ivs strptime_ymd price options_data exp_date) as [| v l];
    reflexivity.
Qed.


End TermStructure.

(** ** Earnings Positioning Resolver *)

Section EarningsResolver.

Variable strptime_ymd : string -> option Z.
Variable now : Z.
Variable scrape : string -> result (option string).

Lemma truthy_str_cases (s : option string) :
  truthy_str s = true -> exists c s', s = Some (String c s').
Proof.
  destruct s as [[| c s'] |]; cbn; try discriminate. eauto.
Qed.

Lemma nightly_get_earnings_info_total
    (polygon_client : option (string -> result Nightly.TickerDetails))
    (ticker front_date back_date : string) :
  exists r,
    Nightly.get_earnings_info strptime_ymd now polygon_client
      ticker front_date back_date = Ok r.
Proof.
  unfold Nightly.get_earnings_info.
  destruct polygon_client as [get_ticker_details |]; [| eauto].
  apply (try_except_Exception_ok _ (fun _ => None)).
Qed.

Lemma nightly_no_date
    (client : string -> result Nightly.TickerDetails)
    (ticker front_date back_date : string)
    (ticker_details : Nightly.TickerDetails) :
  client ticker = Ok ticker_details ->
  truthy_str (provider_date ticker_details) = false ->
  Nightly.get_earnings_info strptime_ymd now (Some client)
    ticker front_date back_date = Ok (Some (no_known_catalyst ticker)).
Proof.
  intros Hlookup Hfalsy. unfold Nightly.get_earnings_info.
  rewrite Hlookup. cbn [bind]. fold (provider_date ticker_details).
  destruct (provider_date ticker_details) as [[| c s] |];
    try discriminate; reflexivity.
Qed.

Lemma nightly_malformed
    (client : string -> result Nightly.TickerDetails)
    (ticker front_date back_date : string)
    (ticker_details : Nightly.TickerDetails) (earnings_date : string) :
  client ticker = Ok ticker_details ->
  provider_date ticker_details = Some earnings_date ->
  truthy_str (Some earnings_date) = true ->
  malformed strptime_ymd earnings_date front_date back_date ->
  Nightly.get_earnings_info strptime_ymd now (Some client)
    ticker front_date back_date = Ok None.
Proof.
  intros Hlookup Hdate Htruthy Hbad. unfold Nightly.get_earnings_info.
  rewrite Hlookup. cbn [bind]. fold (provider_date ticker_details).
  rewrite Hdate. destruct (truthy_str_cases _ Htruthy) as (c & s & Hs).
  injection Hs as ->. unfold Nightly.strptime.
  destruct (strptime_ymd (String c s)) as [e |] eqn:He; [| reflexivity].
  destruct (strptime_ymd front_date) as [f |] eqn:Hf; [| reflexivity].
  destruct (strptime_ymd back_date) as [b |] eqn:Hb; [| reflexivity].
  destruct Hbad as [H | [H | H]]; congruence.
Qed.

Lemma yahoo_get_earnings_date_total (cache : list (string * string))
    (ticker : string) :
  exists d, Yahoo.get_earnings_date scrape cache ticker = Ok d.
Proof.
  unfold Yahoo.get_earnings_date.
  destruct (Yahoo.cache_get ticker cache); [eauto |].
  apply (try_except_Exception_ok _ (fun _ => None)).
Qed.

Lemma yahoo_malformed (cache : list (string * string))
    (ticker front_date back_date earnings_date : string) :
  Yahoo.get_earnings_date scrape cache ticker = Ok (Some earnings_date) ->
  truthy_str (Some earnings_date) = true ->
  malformed strptime_ymd earnings_date front_date back_date ->
  Yahoo.get_earnings_info strptime_ymd scrape cache ticker front_date back_date
  = Ok (yahoo_unpositioned (Some earnings_date)).
Proof.
  intros Hdate Htruthy Hbad. unfold Yahoo.get_earnings_info.
  rewrite Hdate. cbn [bind].
  destruct (truthy_str_cases _ Htruthy) as (c & s & Hs). injection Hs as ->.
  unfold Yahoo.strptime.
  destruct (strptime_ymd (String c s)) as [e |] eqn:He; [| reflexivity].
  destruct (strptime_ymd front_date) as [f |] eqn:Hf; [| reflexivity].
  destruct (strptime_ymd back_date) as [b |] eqn:Hb; [| reflexivity].
  destruct Hbad as [H | [H | H]]; congruence.
Qed.

Lemma yahoo_get_earnings_info_total (cache : list (string * string))
    (ticker front_date back_date : string) :
  exists r,
    Yahoo.get_earnings_info strptime_ymd scrape cache ticker front_date back_date
    = Ok r.
Proof.
  unfold Yahoo.get_earnings_info.
  destruct (yahoo_get_earnings_date_total cache ticker) as [d ->].
  cbn [bind]. destruct d as [[| c s] |]; [eauto | | eauto].
  destruct (try_except_Exception_ok
              (earnings_dt <- Yahoo.strptime strptime_ymd (String c s) ;;
               front_dt <- Yahoo.strptime strptime_ymd front_date ;;
               back_dt <- Yahoo.strptime strptime_ymd back_date ;;
               Ok (Some (earnings_dt, front_dt, back_dt)))
              (fun _ => None)) as [parsed ->].
  cbn [bind]. destruct parsed as [[[e f] b] |]; eauto.
Qed.

(** C9, as the code has it: neither resolver ever raises. When the lookup
    yields no earnings date, each returns its record with every boolean
    false and the date absent. When a date string is malformed, the nightly
    resolver returns no EarningsInfo at all ([None], as it does without a
    provider or when the lookup fails), and the Yahoo resolver returns every
    boolean false with the earnings date kept. *)
Theorem earnings_resolver_degrades :
  (forall polygon_client ticker front_date back_date,
     exists r,
       Nightly.get_earnings_info strptime_ymd now polygon_client
         ticker front_date back_date = Ok r)
  /\ (forall client ticker front_date back_date ticker_details,
        client ticker = Ok ticker_details ->
        truthy_str (provider_date ticker_details) = false ->
        Nightly.get_earnings_info strptime_ymd now (Some client)
          ticker front_date back_date = Ok (Some (no_known_catalyst ticker)))
  /\ (forall client ticker front_date back_date ticker_details earnings_date,
        client ticker = Ok ticker_details ->
        provider_date ticker_details = Some earnings_date ->
        truthy_str (Some earnings_date) = true ->
        malformed strptime_ymd earnings_date front_date back_date ->
        Nightly.get_earnings_info strptime_ymd now (Some client)
          ticker front_date back_date = Ok None)
  /\ (forall ticker front_date back_date,
        Nightly.get_earnings_info strptime_ymd now None
          ticker front_date back_date = Ok None)
  /\ (forall client ticker front_date back_date e,
        client ticker = Raise e ->
        Nightly.get_earnings_info strptime_ymd now (Some client)
          ticker front_date back_date = Ok None)
  /\ (forall cache ticker front_date back_date,
        exists r,
          Yahoo.get_earnings_info strptime_ymd scrape cache
            ticker front_date back_date = Ok r)
  /\ (forall cache ticker front_date back_date earnings_date,
        Yahoo.get_earnings_date scrape cache ticker = Ok earnings_date ->
        truthy_str earnings_date = false ->
        Yahoo.get_earnings_info strptime_ymd scrape cache
          ticker front_date back_date = Ok (yahoo_unpositioned None))
  /\ (forall cache ticker front_date back_date earnings_date,
        Yahoo.get_earnings_date scrape cache ticker = Ok (Some earnings_date) ->
        truthy_str (Some earnings_date) = true ->
        malformed strptime_ymd earnings_date front_date back_date ->
        Yahoo.get_earnings_info strptime_ymd scrape cache
          ticker front_date back_date
        = Ok (yahoo_unpositioned (Some earnings_date))).
Proof.
  split; [exact nightly_get_earnings_info_total |].
  split; [exact nightly_no_date |].
  split; [exact nightly_malformed |].
  split; [reflexivity |].
  split.
  { intros client ticker front_date back_date e Hraise.
    unfold Nightly.get_earnings_info. now rewrite Hraise. }
  split; [exact yahoo_get_earnings_info_total |].
  split; [| exact yahoo_malformed].
  intros cache ticker front_date back_date earnings_date Hdate Hfalsy.
  unfold Yahoo.get_earnings_info. rewrite Hdate. cbn [bind].
  destruct earnings_date as [[| c s] |]; try discriminate; reflexivity.
Qed.

End EarningsResolver.

(** ** The term structure and the resolvers on the sample data *)

Lemma sample_estimate :
  Scanner.estimate_stock_price sample_chain = Ok (Some 100).
Proof.
  unfold sample_chain, contract.
  cbn [Scanner.estimate_stock_price Scanner.atm_probe Scanner.greeks
       Scanner.delta Scanner.details Scanner.strike_price get].
  replace (Reqb 0.5 0) with false by (symmetry; apply Reqb_false; lra).
  rewrite (Rabs_right 0.5) by lra.
  replace (Rleb 0.45 0.5) with true by (symmetry; apply Rleb_true; lra).
  replace (Rleb 0.5 0.55) with true by (symmetry; apply Rleb_true; lra).
  reflexivity.
Qed.

Lemma recorded_contract (delta : field R) (strike : R) (expiry : string)
    (iv : R) (exp_date : Z) :
  strptime_iso expiry = Some exp_date ->
  95 <= strike <= 105 ->
  0 < iv <= 500 ->
  recorded strptime_iso 100 (contract delta strike expiry iv)
  = Some (exp_date, iv).
Proof.
  intros Hdate Hstrike Hiv. apply recorded_qualifies; [lra |].
  exists {| Scanner.strike_price := Val strike;
            Scanner.expiration_date := Val expiry |}, expiry, strike.
  repeat split; try reflexivity; try exact Hdate; try lra.
  unfold Rabs. destruct (Rcase_abs (strike - 100)); lra.
Qed.

Lemma recorded_far_contract :
  recorded strptime_iso 100 (contract Missing 150 "2026-01-16" 45) = None.
Proof.
  destruct (recorded strptime_iso 100 (contract Missing 150 "2026-01-16" 45))
    as [[d v] |] eqn:E; [exfalso | reflexivity].
  apply recorded_qualifies in E; [| lra].
  destruct E as (dt & s & k & Hdt & _ & _ & Hk & Hnear & _).
  injection Hdt as <-. injection Hk as <-.
  rewrite Rabs_right in Hnear; lra.
Qed.




Lemma sample_malformed :
  malformed strptime_iso "2025-11-15" "not-a-date" "2025-12-26".
Proof. right. left. reflexivity. Qed.

(** C9, as the specification words it, fails: with a known earnings date and
    a front date that is not a date, the nightly resolver returns no
    EarningsInfo rather than the all-false one, and the Yahoo resolver keeps
    the earnings date. *)
Lemma malformed_is_not_no_known_catalyst :
  malformed strptime_iso "2025-11-15" "not-a-date" "2025-12-26"
  /\ Nightly.get_earnings_info strptime_iso (sample_today * us_per_day)
       (Some sample_client) "PLTR" "not-a-date" "2025-12-26"
     <> Ok (Some (no_known_catalyst "PLTR"))
  /\ Yahoo.get_earnings_info strptime_iso sample_scrape []
       "PLTR" "not-a-date" "2025-12-26"
     <> Ok (yahoo_unpositioned None).
Proof.
  split; [exact sample_malformed |]. split.
  - rewrite (nightly_malformed strptime_iso (sample_today * us_per_day)
               sample_client "PLTR" "not-a-date" "2025-12-26"
               _ "2025-11-15" eq_refl eq_refl eq_refl sample_malformed).
    discriminate.
  - rewrite (yahoo_malformed strptime_iso sample_scrape []
               "PLTR" "not-a-date" "2025-12-26" "2025-11-15"
               eq_refl eq_refl sample_malformed).
    discriminate.
Qed.

Lemma earnings_resolver_degrades_witness :
  malformed strptime_iso "2025-11-15" "not-a-date" "2025-12-26"
  /\ Nightly.get_earnings_info strptime_iso (sample_today * us_per_day)
       (Some sample_client) "PLTR" "not-a-date" "2025-12-26" = Ok None
  /\ Yahoo.get_earnings_info strptime_iso sample_scrape []
       "PLTR" "not-a-date" "2025-12-26"
     = Ok (yahoo_unpositioned (Some "2025-11-15"%string)).
Proof.
  pose proof (earnings_resolver_degrades strptime_iso
                (sample_today * us_per_day) sample_scrape)
    as (_ & _ & Hnightly & _ & _ & _ & _ & Hyahoo).
  split; [exact sample_malformed |]. split.
  - exact (Hnightly sample_client "PLTR"%string "not-a-date"%string
             "2025-12-26"%string _ "2025-11-15"%string
             eq_refl eq_refl eq_refl sample_malformed).
  - exact (Hyahoo [] "PLTR"%string "not-a-date"%string "2025-12-26"%string
             "2025-11-15"%string eq_refl eq_refl sample_malformed).
Defined.

(** * Further properties of the scanner *)

(** ** Means *)

Lemma fold_left_Rplus_acc (l : list R) (a : R) :
  fold_left Rplus l a = a + sum l.
Proof.
  unfold sum. revert a. induction l as [| x l IH]; intros a; cbn.
  - ring.
  - rewrite (IH (a + x)), (IH (0 + x)). ring.
Qed.

Lemma sum_cons (x : R) (l : list R) : sum (x :: l) = x + sum l.
Proof.
  unfold sum at 1. cbn. rewrite fold_left_Rplus_acc. ring.
Qed.

Lemma sum_bounds (lo hi : R) (l : list R) :
  (forall v, In v l -> lo < v <= hi) ->
  INR (List.length l) * lo <= sum l <= INR (List.length l) * hi
  /\ (l <> [] -> INR (List.length l) * lo < sum l).
Proof.
  induction l as [| x l IH]; intros Hall.
  - cbn. unfold sum. cbn. split; [lra | congruence].
  - assert (Hx : lo < x <= hi) by (apply Hall; now left).
    destruct IH as [Hb _]; [intros v Hv; apply Hall; now right |].
    rewrite sum_cons. change (List.length (x :: l)) with (S (List.length l)).
    rewrite S_INR. split; [| intros _]; lra.
Qed.

Lemma mean_bounds (lo hi : R) (l : list R) :
  l <> [] ->
  (forall v, In v l -> lo < v <= hi) ->
  lo < sum l / INR (List.length l) <= hi.
Proof.
  intros Hne Hall. destruct (sum_bounds lo hi l Hall) as [[_ Hhi] Hlo].
  specialize (Hlo Hne).
  assert (Hlen : 0 < INR (List.length l)).
  { destruct l; [congruence |]. apply lt_0_INR. cbn. lia. }
  split.
  - apply Rmult_lt_reg_r with (INR (List.length l)); [exact Hlen |].
    unfold Rdiv. rewrite Rmult_assoc, Rinv_l by lra. lra.
  - apply Rmult_le_reg_r with (INR (List.length l)); [exact Hlen |].
    unfold Rdiv. rewrite Rmult_assoc, Rinv_l by lra. lra.
Qed.

(** ** Term points *)

Lemma in_dict_get {V : Type} (k : Z) (v : V) (l : list (Z * V)) :
  NoDup (map fst l) -> In (k, v) l -> dict_get k l = Some v.
Proof.
  induction l as [| [k0 v0] l IH]; cbn; intros Hnd Hin; [now elim Hin |].
  inversion Hnd as [| ? ? Hnotin Hnd']; subst.
  destruct Hin as [Heq | Hin].
  - injection Heq as -> ->. now rewrite Z.eqb_refl.
  - destruct (k =? k0)%Z eqn:E.
    + apply Z.eqb_eq in E. subst k0. elim Hnotin.
      apply in_map_iff. now exists (k, v).
    + now apply IH.
Qed.

Lemma NoDup_keys_add_term_point (today : Z)
    (res : list (Z * Scanner.TermPoint)) (item : Z * list R) :
  NoDup (map fst res) ->
  NoDup (map fst (Scanner.add_term_point today res item)).
Proof.
  intros Hnd. destruct item as [exp_date iv_list].
  unfold Scanner.add_term_point.
  destruct (3 <=? List.length iv_list)%nat; [| exact Hnd].
  destruct (negb _ && _); [| exact Hnd].
  now apply NoDup_keys_dict_set.
Qed.

Lemma NoDup_keys_term_points (today : Z) (items : list (Z * list R))
    (res : list (Z * Scanner.TermPoint)) :
  NoDup (map fst res) ->
  NoDup (map fst (fold_left (Scanner.add_term_point today) items res)).
Proof.
  revert res. induction items as [| item items IH]; intros res Hnd; cbn.
  - exact Hnd.
  - apply IH. now apply NoDup_keys_add_term_point.
Qed.

Lemma group_by_expiration_keys (strptime_ymd : string -> option Z) (today : Z)
    (options_data : list Scanner.OptionData)
    (result : list (Z * Scanner.TermPoint)) :
  Scanner.group_by_expiration strptime_ymd today options_data = Ok result ->
  NoDup (map fst result).
Proof.
  unfold Scanner.group_by_expiration.
  destruct (estimate_stock_price_total options_data) as [stock_price ->].
  cbn [bind]. destruct stock_price as [price |].
  - destruct (Reqb price 0) eqn:Hz.
    + intros H. injection H as <-. constructor.
    + apply Reqb_false in Hz.
      destruct (collect_ivs_spec strptime_ymd price options_data Hz [])
        as (expirations & -> & _ & _).
      cbn [bind]. intros H. injection H as <-.
      apply NoDup_keys_term_points. constructor.
  - intros H. injection H as <-. constructor.
Qed.

Lemma surviving_ivs_bounds (strptime_ymd : string -> option Z) (price : R)
    (options_data : list Scanner.OptionData) (exp_date : Z) (v : R) :
  price <> 0 ->
  In v (surviving_ivs strptime_ymd price options_data exp_date) ->
  0 < v <= 500.
Proof.
  intros Hz. unfold surviving_ivs. rewrite in_flat_map.
  intros (opt & _ & Hv).
  destruct (recorded strptime_ymd price opt) as [[d v'] |] eqn:Hrec;
    [| now elim Hv].
  destruct (d =? exp_date)%Z; [| now elim Hv].
  destruct Hv as [-> | []].
  apply recorded_qualifies in Hrec; [| exact Hz].
  destruct Hrec as (dt & s & k & _ & _ & _ & _ & _ & _ & Hrange).
  exact Hrange.
Qed.

Lemma group_by_expiration_entries (strptime_ymd : string -> option Z)
    (today : Z) (options_data : list Scanner.OptionData) :
  exists result,
    Scanner.group_by_expiration strptime_ymd today options_data = Ok result
    /\ NoDup (map fst result)
    /\ forall exp_date tp,
         In (exp_date, tp) result ->
         Scanner.dte tp = (exp_date - today)%Z
         /\ (0 < Scanner.dte tp)%Z
         /\ (3 <= Scanner.count tp)%nat
         /\ 0 < Scanner.iv tp <= 500.
Proof.
  destruct (group_by_expiration_lookup strptime_ymd today options_data)
    as (stock_price & result & Hest & Hrun & Hget).
  pose proof (group_by_expiration_keys _ _ _ _ Hrun) as Hnd.
  exists result. split; [exact Hrun |]. split; [exact Hnd |].
  intros exp_date tp Hin. apply (in_dict_get _ _ _ Hnd) in Hin.
  rewrite Hget in Hin. destruct stock_price as [price |]; [| discriminate].
  cbv zeta in Hin.
  destruct (Reqb price 0) eqn:Hz; [discriminate |].
  destruct (3 <=? _)%nat eqn:H3; [| discriminate].
  destruct (0 <? exp_date - today)%Z eqn:Hpos; [| discriminate].
  cbn [negb andb] in Hin. injection Hin as <-.
  apply Reqb_false in Hz. apply Nat.leb_le in H3. apply Z.ltb_lt in Hpos.
  unfold mean_point. cbn [Scanner.dte Scanner.count Scanner.iv].
  split; [reflexivity |]. split; [exact Hpos |]. split; [exact H3 |].
  apply mean_bounds.
  - intros Hnil. rewrite Hnil in H3. cbn in H3. lia.
  - intros v Hv. now apply (surviving_ivs_bounds _ _ _ _ _ Hz Hv).
Qed.

(** ** The price estimate *)

(** No delta of the contract lies in the near-the-money band. *)
Lemma atm_probe_outside_band (opt : Scanner.OptionData) :
  (forall g d,
     Scanner.greeks opt = Val g -> Scanner.delta g = Val d ->
     ~ (0.45 <= Rabs d <= 0.55)) ->
  try_except (Scanner.atm_probe opt) Exception (fun _ => Ok Scanner.Continue)
  = Ok Scanner.Continue.
Proof.
  intros Hout. unfold Scanner.atm_probe.
  destruct (Scanner.greeks opt) as [| | g]; try reflexivity.
  destruct (Scanner.delta g) as [| | d] eqn:Hd; try reflexivity. cbn [get].
  destruct (Reqb d 0); [reflexivity |].
  specialize (Hout g d eq_refl Hd).
  destruct (Rleb 0.45 (Rabs d)) eqn:H1; [| reflexivity].
  destruct (Rleb (Rabs d) 0.55) eqn:H2; [| reflexivity].
  apply Rleb_true in H1, H2. elim Hout. split; assumption.
Qed.

Lemma estimate_skips_outside_band (pre rest : list Scanner.OptionData) :
  (forall opt, In opt pre ->
     forall g d,
       Scanner.greeks opt = Val g -> Scanner.delta g = Val d ->
       ~ (0.45 <= Rabs d <= 0.55)) ->
  Scanner.estimate_stock_price (pre ++ rest) = Scanner.estimate_stock_price rest.
Proof.
  induction pre as [| opt pre IH]; intros Hout; [reflexivity |].
  cbn [app Scanner.estimate_stock_price].
  rewrite atm_probe_outside_band by (apply Hout; now left).
  cbn [bind]. apply IH. intros opt' Hin. apply Hout. now right.
Qed.

(** X2: [group_by_expiration] fails closed on the price estimate. With no
    contract whose delta magnitude lies in [0.45, 0.55] the result is empty,
    whatever the contracts hold; and the first such contract decides: when
    its strike is null or 0 the result is empty even if later contracts are
    near the money. *)
Theorem no_price_estimate_no_term_points (strptime_ymd : string -> option Z)
    (today : Z) :
  (forall options_data,
     (forall opt, In opt options_data ->
        forall g d,
          Scanner.greeks opt = Val g -> Scanner.delta g = Val d ->
          ~ (0.45 <= Rabs d <= 0.55)) ->
     Scanner.group_by_expiration strptime_ymd today options_data = Ok [])
  /\ (forall pre opt post g d dt,
        (forall opt', In opt' pre ->
           forall g' d',
             Scanner.greeks opt' = Val g' -> Scanner.delta g' = Val d' ->
             ~ (0.45 <= Rabs d' <= 0.55)) ->
        Scanner.greeks opt = Val g -> Scanner.delta g = Val d ->
        0.45 <= Rabs d <= 0.55 ->
        Scanner.details opt = Val dt ->
        Scanner.strike_price dt = Null \/ Scanner.strike_price dt = Val 0 ->
        Scanner.group_by_expiration strptime_ymd today (pre ++ opt :: post)
        = Ok []).
Proof.
  split.
  - intros options_data Hout. unfold Scanner.group_by_expiration.
    rewrite <- (app_nil_r options_data) at 1.
    rewrite estimate_skips_outside_band by exact Hout. reflexivity.
  - intros pre opt post g d dt Hout Hg Hd Hband Hdt Hstrike.
    unfold Scanner.group_by_expiration.
    rewrite estimate_skips_outside_band by exact Hout.
    cbn [Scanner.estimate_stock_price]. unfold Scanner.atm_probe.
    rewrite Hg, Hd. cbn [get].
    assert (Hnz : d <> 0).
    { intros ->. rewrite Rabs_R0 in Hband. lra. }
    replace (Reqb d 0) with false by (symmetry; now apply Reqb_false).
    replace (Rleb 0.45 (Rabs d)) with true
      by (symmetry; apply Rleb_true; lra).
    replace (Rleb (Rabs d) 0.55) with true
      by (symmetry; apply Rleb_true; lra).
    cbn [andb]. rewrite Hdt. cbn [getitem bind not_none].
    destruct Hstrike as [-> | ->]; cbn [getitem bind try_except].
    + reflexivity.
    + replace (Reqb 0 0) with true by (symmetry; now apply Reqb_true).
      reflexivity.
Qed.

Lemma contract_outside_band (delta : field R) (strike : R) (expiry : string)
    (iv : R) :
  (forall d, delta = Val d -> ~ (0.45 <= Rabs d <= 0.55)) ->
  forall g d,
    Scanner.greeks (contract delta strike expiry iv) = Val g ->
    Scanner.delta g = Val d ->
    ~ (0.45 <= Rabs d <= 0.55).
Proof.
  intros Hout g d Hg Hd. cbn in Hg. injection Hg as <-. cbn in Hd.
  now apply Hout.
Qed.

Lemma chain_without_atm_outside_band (opt : Scanner.OptionData) :
  In opt chain_without_atm ->
  forall g d,
    Scanner.greeks opt = Val g -> Scanner.delta g = Val d ->
    ~ (0.45 <= Rabs d <= 0.55).
Proof.
  intros [<- | [<- | [<- | []]]]; apply contract_outside_band;
    intros d Hd; try discriminate; injection Hd as <-.
  - rewrite Rabs_right; lra.
  - rewrite Rabs_left; lra.
Qed.

Lemma no_price_estimate_no_term_points_witness :
  Scanner.group_by_expiration strptime_iso sample_today chain_without_atm
  = Ok []
  /\ 0.45 <= Rabs 0.5 <= 0.55
  /\ Scanner.group_by_expiration strptime_iso sample_today
       (chain_without_atm ++ null_strike_contract :: sample_chain)
     = Ok [].
Proof.
  assert (Hband : 0.45 <= Rabs 0.5 <= 0.55) by (rewrite Rabs_right; lra).
  destruct (no_price_estimate_no_term_points strptime_iso sample_today)
    as [Hnone Hfirst].
  split; [apply Hnone; exact chain_without_atm_outside_band |].
  split; [exact Hband |].
  apply (Hfirst chain_without_atm null_strike_contract sample_chain
           {| Scanner.delta := Val 0.5 |} 0.5
           {| Scanner.strike_price := Null;
              Scanner.expiration_date := Val "2025-12-19"%string |}
           chain_without_atm_outside_band eq_refl eq_refl Hband eq_refl).
  now left.
Defined.

(** ** Emitted pairs *)

Lemma calculate_forward_factor_equal_dte
    (front_iv : R) (dte : Z) (back_iv : R) :
  Scanner.calculate_forward_factor front_iv dte back_iv dte =
  Ok (None, None, Some "float division by zero"%string).
Proof.
  unfold Scanner.calculate_forward_factor.
  rewrite !truediv_ok by lra. cbn [bind].
  replace (IZR dte / 365 - IZR dte / 365) with 0 by ring.
  rewrite truediv_zero. reflexivity.
Qed.

(** What a pair of the sorted ladder emits, when it emits. *)
Lemma in_pair_of (front back : Z * Scanner.TermPoint) (p : Scanner.Pair) :
  (Scanner.dte (snd front) <= Scanner.dte (snd back))%Z ->
  In p (pair_of front back) ->
  (Scanner.dte (snd front) < Scanner.dte (snd back))%Z
  /\ 0 < Spec.forward_variance
           (Scanner.iv (snd front)) (Scanner.dte (snd front))
           (Scanner.iv (snd back)) (Scanner.dte (snd back))
  /\ p = {| Scanner.front_date := fst front;
            Scanner.front_iv := Scanner.iv (snd front);
            Scanner.front_dte := Scanner.dte (snd front);
            Scanner.back_date := fst back;
            Scanner.back_iv := Scanner.iv (snd back);
            Scanner.back_dte := Scanner.dte (snd back);
            Scanner.forward_vol :=
              Some (Spec.forward_vol
                      (Scanner.iv (snd front)) (Scanner.dte (snd front))
                      (Scanner.iv (snd back)) (Scanner.dte (snd back)));
            Scanner.forward_factor :=
              Some (Spec.forward_factor
                      (Scanner.iv (snd front)) (Scanner.dte (snd front))
                      (Scanner.iv (snd back)) (Scanner.dte (snd back))) |}.
Proof.
  intros Hle. unfold pair_of.
  destruct (Z.eq_dec (Scanner.dte (snd front)) (Scanner.dte (snd back)))
    as [Heq | Hne].
  - rewrite <- Heq, calculate_forward_factor_equal_dte. intros [].
  - assert (Hlt : (Scanner.dte (snd front) < Scanner.dte (snd back))%Z) by lia.
    rewrite calculate_forward_factor_cases by exact Hlt. cbv zeta.
    destruct (Rltb _ 0) eqn:Hneg; [intros [] |].
    destruct (Reqb _ 0) eqn:Hzero; [intros [] |].
    apply Rltb_false in Hneg. apply Reqb_false in Hzero.
    cbn [truthy_str]. intros [<- | []].
    split; [exact Hlt |]. split; [| reflexivity].
    destruct Hneg as [Hpos | Hz]; [exact Hpos |].
    elim Hzero. rewrite <- Hz. apply sqrt_0.
Qed.

Lemma in_adjacent_pairs (rel : Z * Scanner.TermPoint -> Z * Scanner.TermPoint -> Prop)
    (l : list (Z * Scanner.TermPoint)) (p : Scanner.Pair) :
  Sorted rel l ->
  In p (adjacent_pairs l) ->
  exists front back,
    In front l /\ In back l /\ rel front back /\ In p (pair_of front back).
Proof.
  induction l as [| front rest IH]; intros Hs Hin; [now elim Hin |].
  destruct rest as [| back rest']; [now elim Hin |].
  change (adjacent_pairs (front :: back :: rest'))
    with (pair_of front back ++ adjacent_pairs (back :: rest')) in Hin.
  apply in_app_or in Hin.
  inversion Hs as [| ? ? Hs' Hhd]; subst.
  destruct Hin as [Hin | Hin].
  - exists front, back. inversion Hhd; subst.
    repeat split; cbn; auto.
  - destruct (IH Hs' Hin) as (f & b & Hf & Hb & Hrel & Hp).
    exists f, b. repeat split; try assumption; now right.
Qed.

Lemma length_pair_of (front back : Z * Scanner.TermPoint) :
  (List.length (pair_of front back) <= 1)%nat.
Proof.
  unfold pair_of.
  destruct (Scanner.calculate_forward_factor _ _ _ _) as [[[v f] e] | e];
    [| cbn; lia].
  destruct (truthy_str e); cbn; lia.
Qed.

Lemma length_adjacent_pairs (l : list (Z * Scanner.TermPoint)) :
  (List.length (adjacent_pairs l) <= List.length l - 1)%nat.
Proof.
  induction l as [| front rest IH]; [cbn; lia |].
  destruct rest as [| back rest']; [cbn; lia |].
  change (adjacent_pairs (front :: back :: rest'))
    with (pair_of front back ++ adjacent_pairs (back :: rest')).
  rewrite length_app.
  pose proof (length_pair_of front back). cbn [List.length] in *. lia.
Qed.

Lemma find_best_pairs_entries (expirations : list (Z * Scanner.TermPoint)) :
  exists pairs,
    Scanner.find_best_pairs expirations = Ok pairs
    /\ (List.length pairs <= List.length expirations - 1)%nat
    /\ forall p,
         In p pairs ->
         (Scanner.front_dte p < Scanner.back_dte p)%Z
         /\ (exists front back,
               In (Scanner.front_date p, front) expirations
               /\ In (Scanner.back_date p, back) expirations
               /\ Scanner.front_iv p = Scanner.iv front
               /\ Scanner.front_dte p = Scanner.dte front
               /\ Scanner.back_iv p = Scanner.iv back
               /\ Scanner.back_dte p = Scanner.dte back)
         /\ 0 < Spec.forward_variance (Scanner.front_iv p) (Scanner.front_dte p)
                  (Scanner.back_iv p) (Scanner.back_dte p)
         /\ exists v f,
              Scanner.forward_vol p = Some v
              /\ Scanner.forward_factor p = Some f
              /\ 0 < v
              /\ v = Spec.forward_vol (Scanner.front_iv p) (Scanner.front_dte p)
                       (Scanner.back_iv p) (Scanner.back_dte p)
              /\ f = Spec.forward_factor (Scanner.front_iv p)
                       (Scanner.front_dte p) (Scanner.back_iv p)
                       (Scanner.back_dte p)
              /\ f = (Scanner.front_iv p / v - 1) * 100.
Proof.
  exists (adjacent_pairs (Scanner.sorted_by_dte expirations)).
  split; [apply find_best_pairs_adjacent |]. split.
  - rewrite (Permutation_length (sorted_by_dte_perm expirations)).
    apply length_adjacent_pairs.
  - intros p Hin.
    destruct (in_adjacent_pairs _ _ _ (sorted_by_dte_sorted expirations) Hin)
      as ([fd front] & [bd back] & Hf & Hb & Hle & Hp).
    apply (in_pair_of _ _ _ Hle) in Hp. cbn [fst snd] in Hp.
    destruct Hp as (Hlt & Hpos & ->).
    cbn [Scanner.front_dte Scanner.back_dte Scanner.front_iv Scanner.back_iv
         Scanner.front_date Scanner.back_date Scanner.forward_vol
         Scanner.forward_factor].
    split; [exact Hlt |]. split.
    { exists front, back.
      pose proof (sorted_by_dte_perm expirations) as Hperm.
      apply Permutation_sym in Hperm.
      repeat split; try reflexivity;
        eapply Permutation_in; eauto. }
    split; [exact Hpos |].
    pose proof (sqrt_lt_R0 _ Hpos) as Hs.
    eexists _, _. split; [reflexivity |]. split; [reflexivity |].
    split; [unfold Spec.forward_vol; lra |].
    split; [reflexivity |]. split; [reflexivity |].
    unfold Spec.forward_factor, Spec.forward_vol, Spec.sigma. field. lra.
Qed.

Lemma pair_of_positive (front back : Z * Scanner.TermPoint) :
  (Scanner.dte (snd front) < Scanner.dte (snd back))%Z ->
  0 < Spec.forward_variance
        (Scanner.iv (snd front)) (Scanner.dte (snd front))
        (Scanner.iv (snd back)) (Scanner.dte (snd back)) ->
  pair_of front back = [pair_from front back].
Proof.
  intros Hlt Hpos. unfold pair_of.
  rewrite (calculate_forward_factor_positive _ _ _ _ Hlt Hpos). reflexivity.
Qed.

(** ** Scanning a ticker *)

Section ScanTicker.

Variable strptime_ymd : string -> option Z.
Variable today : Z.
Variable fetch_options_chain : string -> list Scanner.OptionData.

(** What holds of a pair of a scan result. *)
Lemma pipeline_pair (options_data : list Scanner.OptionData)
    (expirations : list (Z * Scanner.TermPoint)) (pairs : list Scanner.Pair)
    (p : Scanner.Pair) :
  Scanner.group_by_expiration strptime_ymd today options_data = Ok expirations ->
  Scanner.find_best_pairs expirations = Ok pairs ->
  In p pairs ->
  (0 < Scanner.front_dte p < Scanner.back_dte p)%Z
  /\ (today < Scanner.front_date p < Scanner.back_date p)%Z
  /\ 0 < Scanner.front_iv p <= 500
  /\ 0 < Scanner.back_iv p <= 500
  /\ exists v f,
       Scanner.forward_vol p = Some v
       /\ Scanner.forward_factor p = Some f
       /\ 0 < v
       /\ -100 < f
       /\ f = (Scanner.front_iv p / v - 1) * 100.
Proof.
  intros Hgroup Hpairs Hin.
  destruct (group_by_expiration_entries strptime_ymd today options_data)
    as (expirations' & Hgroup' & _ & Hpoints).
  rewrite Hgroup in Hgroup'. injection Hgroup' as <-.
  destruct (find_best_pairs_entries expirations) as (pairs' & Hpairs' & _ & Hinv).
  rewrite Hpairs in Hpairs'. injection Hpairs' as <-.
  destruct (Hinv p Hin)
    as (Hlt & (front & back & Hf & Hb & Hfiv & Hfdte & Hbiv & Hbdte)
        & _ & v & f & Hv & Hff & Hvpos & _ & _ & Hfeq).
  destruct (Hpoints _ _ Hf) as (Hfd & Hfpos & _ & Hfrange).
  destruct (Hpoints _ _ Hb) as (Hbd & Hbpos & _ & Hbrange).
  rewrite Hfiv, Hbiv, Hfdte, Hbdte in *.
  split; [lia |]. split; [lia |]. split; [exact Hfrange |].
  split; [exact Hbrange |].
  exists v, f. repeat split; try assumption.
  rewrite Hfeq.
  assert (0 < Scanner.iv front / v) by (apply Rdiv_lt_0_compat; lra).
  lra.
Qed.

Lemma scan_ticker_entries (ticker : string) :
  exists r,
    Scanner.scan_ticker strptime_ymd today fetch_options_chain ticker = Ok r
    /\ forall res,
         r = Some res ->
         Scanner.ticker res = ticker
         /\ Scanner.pairs res <> []
         /\ (2 <= List.length (Scanner.expirations res))%nat
         /\ Scanner.group_by_expiration strptime_ymd today
              (fetch_options_chain ticker) = Ok (Scanner.expirations res)
         /\ Scanner.find_best_pairs (Scanner.expirations res)
            = Ok (Scanner.pairs res)
         /\ forall p,
              In p (Scanner.pairs res) ->
              (0 < Scanner.front_dte p < Scanner.back_dte p)%Z
              /\ (today < Scanner.front_date p < Scanner.back_date p)%Z
              /\ 0 < Scanner.front_iv p <= 500
              /\ 0 < Scanner.back_iv p <= 500
              /\ exists v f,
                   Scanner.forward_vol p = Some v
                   /\ Scanner.forward_factor p = Some f
                   /\ 0 < v
                   /\ -100 < f
                   /\ f = (Scanner.front_iv p / v - 1) * 100.
Proof.
  unfold Scanner.scan_ticker. cbv zeta.
  destruct (fetch_options_chain ticker) as [| opt options] eqn:Hfetch.
  { exists None. split; [reflexivity | discriminate]. }
  destruct (group_by_expiration_entries strptime_ymd today (opt :: options))
    as (expirations & Hgroup & _ & _).
  rewrite Hgroup. cbn [bind].
  destruct (List.length expirations <? 2)%nat eqn:Hlen.
  { exists None. split; [reflexivity | discriminate]. }
  apply Nat.ltb_ge in Hlen.
  destruct (find_best_pairs_entries expirations) as (pairs & Hpairs & _ & _).
  rewrite Hpairs. cbn [bind].
  destruct pairs as [| p0 pairs].
  { exists None. split; [reflexivity | discriminate]. }
  eexists. split; [reflexivity |].
  intros res Hres. injection Hres as <-.
  cbn [Scanner.ticker Scanner.pairs Scanner.expirations].
  split; [reflexivity |]. split; [discriminate |]. split; [exact Hlen |].
  split; [reflexivity |]. split; [exact Hpairs |].
  intros p Hin. exact (pipeline_pair _ _ _ p Hgroup Hpairs Hin).
Qed.

(** X4: a result [scan_ticker] returns is for the ticker asked, holds 2
    expirations or more and at least one pair, and every pair has
    [today < front_date < back_date], [0 < front_dte < back_dte], and both a
    forward volatility and a forward factor (neither is [None]). *)
Theorem scan_ticker_well_formed (ticker : string) (res : Scanner.ScanResult) :
  Scanner.scan_ticker strptime_ymd today fetch_options_chain ticker
  = Ok (Some res) ->
  Scanner.ticker res = ticker
  /\ Scanner.pairs res <> []
  /\ (2 <= List.length (Scanner.expirations res))%nat
  /\ forall p,
       In p (Scanner.pairs res) ->
       (0 < Scanner.front_dte p < Scanner.back_dte p)%Z
       /\ (today < Scanner.front_date p < Scanner.back_date p)%Z
       /\ exists v f,
            Scanner.forward_vol p = Some v
            /\ Scanner.forward_factor p = Some f.
Proof.
  intros Hscan.
  destruct (scan_ticker_entries ticker) as (r & Hrun & Hres).
  rewrite Hscan in Hrun. injection Hrun as <-.
  destruct (Hres res eq_refl) as (H1 & H2 & H3 & _ & _ & H4).
  split; [exact H1 |]. split; [exact H2 |]. split; [exact H3 |].
  intros p Hin.
  destruct (H4 p Hin) as (Hdte & Hdate & _ & _ & v & f & Hv & Hf & _).
  split; [exact Hdte |]. split; [exact Hdate |]. eauto.
Qed.

End ScanTicker.

(** ** The scan of the sample chain *)

Lemma collect_ivs_step (strptime_ymd : string -> option Z) (stock_price : R)
    (opt : Scanner.OptionData) (rest : list Scanner.OptionData)
    (expirations : list (Z * list R)) :
  stock_price <> 0 ->
  Scanner.collect_ivs strptime_ymd stock_price (opt :: rest) expirations =
  Scanner.collect_ivs strptime_ymd stock_price rest
    (match recorded strptime_ymd stock_price opt with
     | Some (exp_date, iv) => dict_append exp_date iv expirations
     | None => expirations
     end).
Proof.
  intros Hsp. cbn [Scanner.collect_ivs].
  rewrite atm_iv_handled by exact Hsp. cbn [bind].
  destruct (recorded strptime_ymd stock_price opt) as [[d v] |]; reflexivity.
Qed.

Lemma add_term_point_kept (today exp_date : Z) (iv_list : list R)
    (res : list (Z * Scanner.TermPoint)) :
  (3 <= List.length iv_list)%nat ->
  (0 < exp_date - today)%Z ->
  Scanner.add_term_point today res (exp_date, iv_list) =
  dict_set exp_date (mean_point today exp_date iv_list) res.
Proof.
  intros Hlen Hpos. unfold Scanner.add_term_point, Scanner.calculate_dte.
  apply Nat.leb_le in Hlen. rewrite Hlen.
  replace (exp_date - today =? 0)%Z with false
    by (symmetry; apply Z.eqb_neq; lia).
  replace (exp_date - today >? 0)%Z with true
    by (symmetry; rewrite Z.gtb_ltb; apply Z.ltb_lt; lia).
  reflexivity.
Qed.

Lemma two_expiry_term_points :
  Scanner.group_by_expiration strptime_iso sample_today two_expiry_chain
  = Ok [december_point; january_point].
Proof.
  unfold Scanner.group_by_expiration.
  assert (Hest : Scanner.estimate_stock_price two_expiry_chain = Ok (Some 100)).
  { unfold two_expiry_chain. exact sample_estimate. }
  rewrite Hest. cbn [bind].
  replace (Reqb 100 0) with false by (symmetry; apply Reqb_false; lra).
  unfold two_expiry_chain, sample_chain. cbn [app].
  rewrite !collect_ivs_step by lra.
  rewrite recorded_far_contract.
  rewrite !(recorded_contract _ _ "2025-12-19" _ 739604%Z)
    by (reflexivity || lra).
  rewrite !(recorded_contract _ _ "2026-01-16" _ 739632%Z)
    by (reflexivity || lra).
  cbn [Scanner.collect_ivs bind fold_left].
  unfold dict_append.
  cbn [dict_get dict_set Z.eqb Pos.eqb app fold_left].
  rewrite !add_term_point_kept by (cbn; lia).
  reflexivity.
Qed.

Lemma two_expiry_variance_positive :
  0 < Spec.forward_variance
        (Scanner.iv (snd december_point)) (Scanner.dte (snd december_point))
        (Scanner.iv (snd january_point)) (Scanner.dte (snd january_point)).
Proof.
  unfold december_point, january_point, mean_point, sample_today.
  cbn [snd Scanner.iv Scanner.dte List.length].
  unfold Spec.forward_variance, Spec.sigma, Spec.T, Rsqr, sum.
  cbn [fold_left INR].
  replace (IZR (739604 - 739558)) with 46 by (cbn; reflexivity).
  replace (IZR (739632 - 739558)) with 74 by (cbn; reflexivity).
  apply Rdiv_lt_0_compat; lra.
Qed.

Lemma two_expiry_pairs :
  Scanner.find_best_pairs [december_point; january_point]
  = Ok [pair_from december_point january_point].
Proof.
  rewrite find_best_pairs_adjacent.
  change (Scanner.sorted_by_dte [december_point; january_point])
    with [december_point; january_point].
  cbn [adjacent_pairs].
  rewrite pair_of_positive;
    [reflexivity | cbn; lia | exact two_expiry_variance_positive].
Qed.

Lemma sample_scan :
  Scanner.scan_ticker strptime_iso sample_today sample_fetch "PLTR"
  = Ok (Some {| Scanner.ticker := "PLTR";
                Scanner.pairs := [pair_from december_point january_point];
                Scanner.expirations := [december_point; january_point] |}).
Proof.
  unfold Scanner.scan_ticker, sample_fetch. cbv zeta.
  rewrite two_expiry_term_points.
  unfold two_expiry_chain at 1, sample_chain at 1. cbn [app bind].
  cbn [List.length Nat.ltb Nat.leb]. rewrite two_expiry_pairs. reflexivity.
Qed.

Lemma scan_ticker_well_formed_witness :
  Scanner.scan_ticker strptime_iso sample_today sample_fetch "PLTR"
  = Ok (Some sample_result)
  /\ (sample_today
      < Scanner.front_date (pair_from december_point january_point)
      < Scanner.back_date (pair_from december_point january_point))%Z
  /\ exists v f,
       Scanner.forward_vol (pair_from december_point january_point) = Some v
       /\ Scanner.forward_factor (pair_from december_point january_point)
          = Some f.
Proof.
  split; [exact sample_scan |].
  destruct (scan_ticker_well_formed strptime_iso sample_today sample_fetch
              "PLTR" _ sample_scan) as (_ & _ & _ & Hpairs).
  destruct (Hpairs (pair_from december_point january_point))
    as (_ & Hdate & Hvalues).
  { now left. }
  split; [exact Hdate | exact Hvalues].
Defined.

(** ** Scanning several tickers *)

Lemma filter_pairs_spec (min_ff max_ff : R) (ps : list Scanner.Pair) :
  (forall p, In p ps -> exists f, Scanner.forward_factor p = Some f) ->
  exists kept,
    Scanner.filter_pairs min_ff max_ff ps = Ok kept
    /\ forall p, In p kept <-> In p ps /\ ff_within min_ff max_ff p.
Proof.
  induction ps as [| p0 ps IH]; intros Hdef.
  - exists []. split; [reflexivity |]. intros p. cbn. tauto.
  - destruct IH as (kept & Hrun & Hkept);
      [intros p Hp; apply Hdef; now right |].
    destruct (Hdef p0 (or_introl eq_refl)) as [f0 Hf0].
    cbn [Scanner.filter_pairs]. unfold Scanner.in_ff_range.
    rewrite Hf0. cbn [not_none bind]. rewrite Hrun. cbn [bind].
    eexists. split; [reflexivity |]. intros p.
    destruct (Rleb min_ff f0) eqn:Hlo; destruct (Rleb f0 max_ff) eqn:Hhi;
      cbn [andb In]; rewrite Hkept; unfold ff_within;
      try apply Rleb_true in Hlo; try apply Rleb_true in Hhi;
      try apply Rleb_false in Hlo; try apply Rleb_false in Hhi.
    + split.
      * intros [<- | H]; [| tauto]. split; [now left |]. exists f0. auto.
      * intros [[<- | H] Hw]; [now left | tauto].
    + split; [tauto |].
      intros [[<- | H] Hw]; [| tauto].
      destruct Hw as (f & Hf & Hr). rewrite Hf0 in Hf. injection Hf as <-. lra.
    + split; [tauto |].
      intros [[<- | H] Hw]; [| tauto].
      destruct Hw as (f & Hf & Hr). rewrite Hf0 in Hf. injection Hf as <-. lra.
    + split; [tauto |].
      intros [[<- | H] Hw]; [| tauto].
      destruct Hw as (f & Hf & Hr). rewrite Hf0 in Hf. injection Hf as <-. lra.
Qed.

Lemma keyed_spec {A : Type} (key : A -> result R) (l : list A) :
  (forall x, In x l -> exists k, key x = Ok k) ->
  exists decorated,
    Scanner.keyed key l = Ok decorated
    /\ map snd decorated = l
    /\ Forall (fun kx => key (snd kx) = Ok (fst kx)) decorated.
Proof.
  induction l as [| x l IH]; intros Hdef.
  - exists []. repeat split. constructor.
  - destruct IH as (decorated & Hrun & Hmap & Hall);
      [intros y Hy; apply Hdef; now right |].
    destruct (Hdef x (or_introl eq_refl)) as [k Hk].
    cbn [Scanner.keyed]. rewrite Hk. cbn [bind]. rewrite Hrun. cbn [bind].
    eexists. split; [reflexivity |]. split; [cbn; now rewrite Hmap |].
    constructor; [exact Hk | exact Hall].
Qed.

Lemma insert_by_key_perm {A : Type} (before : R -> R -> bool)
    (x : R * A) (l : list (R * A)) :
  Permutation (x :: l) (Scanner.insert_by_key before x l).
Proof.
  induction l as [| y l IH]; cbn; [reflexivity |].
  destruct (before (fst x) (fst y)); [reflexivity |].
  rewrite perm_swap. now apply perm_skip.
Qed.

Lemma sort_keyed_perm {A : Type} (reverse : bool) (l : list (R * A)) :
  Permutation l (Scanner.sort_keyed reverse l).
Proof.
  unfold Scanner.sort_keyed. induction l as [| x l IH]; cbn; [reflexivity |].
  rewrite <- insert_by_key_perm. now apply perm_skip.
Qed.

Lemma insert_by_key_sorted {A : Type} (before : R -> R -> bool)
    (x : R * A) (l : list (R * A)) :
  (forall a b, before a b = false -> before b a = true) ->
  Sorted (fun a b => before (fst a) (fst b) = true) l ->
  Sorted (fun a b => before (fst a) (fst b) = true)
    (Scanner.insert_by_key before x l).
Proof.
  intros Htotal. induction l as [| y l IH]; cbn; intros Hs.
  - repeat constructor.
  - destruct (before (fst x) (fst y)) eqn:E.
    + constructor; [exact Hs | constructor; exact E].
    + inversion Hs as [| ? ? Hs' Hhd]; subst.
      constructor; [now apply IH |].
      destruct l as [| z l]; cbn.
      * constructor. now apply Htotal.
      * destruct (before (fst x) (fst z));
          constructor; [now apply Htotal | now inversion Hhd].
Qed.

Lemma sort_keyed_sorted {A : Type} (reverse : bool) (l : list (R * A)) :
  Sorted (fun a b => if reverse then fst b <= fst a else fst a <= fst b)
    (Scanner.sort_keyed reverse l).
Proof.
  assert (Hs : Sorted
            (fun a b : R * A =>
               (if reverse then Rleb (fst b) (fst a)
                else Rleb (fst a) (fst b)) = true)
            (Scanner.sort_keyed reverse l)).
  { unfold Scanner.sort_keyed.
    induction l as [| x l IH]; cbn; [constructor |].
    apply (insert_by_key_sorted
             (fun a b => if reverse then Rleb b a else Rleb a b));
      [| exact IH].
    intros a b. destruct reverse; intros H; apply Rleb_false in H;
      apply Rleb_true; lra. }
  induction Hs as [| a l' Hs' IH Hhd]; constructor; [exact IH |].
  destruct Hhd as [| b l'' Hab]; constructor.
  destruct reverse; now apply Rleb_true in Hab.
Qed.

Lemma Sorted_map_where {A B : Type} (P : A -> Prop)
    (rel : A -> A -> Prop) (rel' : B -> B -> Prop) (f : A -> B) (l : list A) :
  (forall a b, P a -> P b -> rel a b -> rel' (f a) (f b)) ->
  Forall P l -> Sorted rel l -> Sorted rel' (map f l).
Proof.
  intros Himp Hall Hs. induction Hs as [| a l Hs' IH Hhd]; cbn;
    [constructor |].
  inversion Hall as [| ? ? Pa Hall']; subst.
  constructor; [now apply IH |].
  destruct Hhd as [| b l' Hab]; cbn; constructor.
  inversion Hall' as [| ? ? Pb ?]; subst. now apply Himp.
Qed.

Lemma Sorted_weaken {A : Type} (rel rel' : A -> A -> Prop) (l : list A) :
  (forall a b, rel a b -> rel' a b) -> Sorted rel l -> Sorted rel' l.
Proof.
  intros Himp Hs. induction Hs as [| a l Hs' IH Hhd]; constructor;
    [exact IH |].
  destruct Hhd; constructor. now apply Himp.
Qed.

Lemma sort_by_key_spec {A : Type} (key : A -> result R) (reverse : bool)
    (l : list A) :
  (forall x, In x l -> exists k, key x = Ok k) ->
  exists sorted,
    Scanner.sort_by_key key reverse l = Ok sorted
    /\ Permutation l sorted
    /\ Sorted (fun a b =>
                 exists ka kb,
                   key a = Ok ka /\ key b = Ok kb
                   /\ if reverse then kb <= ka else ka <= kb) sorted.
Proof.
  intros Hdef. destruct (keyed_spec key l Hdef) as (decorated & Hrun & Hmap & Hall).
  unfold Scanner.sort_by_key. rewrite Hrun. cbn [bind].
  eexists. split; [reflexivity |]. split.
  - rewrite <- Hmap at 1. apply Permutation_map, sort_keyed_perm.
  - apply (Sorted_map_where (fun kx => key (snd kx) = Ok (fst kx))
             (fun a b => if reverse then fst b <= fst a else fst a <= fst b)).
    + intros a b Ha Hb Hab. exists (fst a), (fst b). auto.
    + rewrite Forall_forall in *. intros kx Hin. apply Hall.
      eapply Permutation_in; [apply Permutation_sym, sort_keyed_perm | exact Hin].
    + apply sort_keyed_sorted.
Qed.

Section ScanMultiple.

Variable strptime_ymd : string -> option Z.
Variable today : Z.
Variable fetch_options_chain : string -> list Scanner.OptionData.

Lemma scan_each_spec (all_tickers : list string) (min_ff max_ff : R)
    (tickers : list string) :
  incl tickers all_tickers ->
  forall results0,
    Forall (filtered_result strptime_ymd today fetch_options_chain
              all_tickers min_ff max_ff) results0 ->
    exists results,
      Scanner.scan_each strptime_ymd today fetch_options_chain
        min_ff max_ff tickers results0 = Ok results
      /\ Forall (filtered_result strptime_ymd today fetch_options_chain
                   all_tickers min_ff max_ff) results.
Proof.
  induction tickers as [| t tickers IH]; intros Hincl results0 Hall.
  - exists results0. split; [reflexivity | exact Hall].
  - assert (Hincl' : incl tickers all_tickers)
      by (intros x Hx; apply Hincl; now right).
    cbn [Scanner.scan_each].
    destruct (scan_ticker_entries strptime_ymd today fetch_options_chain t)
      as (r & Hscan & Hres).
    rewrite Hscan. cbn [bind]. destruct r as [res |]; [| now apply IH].
    destruct (Hres res eq_refl) as (Hticker & _ & _ & _ & _ & Hpairs).
    destruct (filter_pairs_spec min_ff max_ff (Scanner.pairs res))
      as (kept & Hfilter & Hkept).
    { intros p Hp. destruct (Hpairs p Hp) as (_ & _ & _ & _ & v & f & _ & Hf & _).
      now exists f. }
    rewrite Hfilter. cbn [bind]. destruct kept as [| p0 kept]; [now apply IH |].
    apply IH; [exact Hincl' |]. apply Forall_app. split; [exact Hall |].
    constructor; [| constructor].
    unfold filtered_result.
    cbn [Scanner.with_pairs Scanner.ticker Scanner.pairs Scanner.expirations].
    rewrite Hticker. split; [apply Hincl; now left |].
    split; [discriminate |].
    exists res. split; [exact Hscan |]. split; [reflexivity | exact Hkept].
Qed.

Lemma sort_each_spec (all_tickers : list string) (min_ff max_ff : R)
    (key : Scanner.Pair -> result R) (reverse : bool)
    (results : list Scanner.ScanResult) :
  (forall p f, Scanner.forward_factor p = Some f -> exists k, key p = Ok k) ->
  Forall (filtered_result strptime_ymd today fetch_options_chain
            all_tickers min_ff max_ff) results ->
  exists sorted,
    Scanner.sort_each key reverse results = Ok sorted
    /\ Forall (fun r =>
                 filtered_result strptime_ymd today fetch_options_chain
                   all_tickers min_ff max_ff r
                 /\ Sorted (fun a b =>
                              exists ka kb,
                                key a = Ok ka /\ key b = Ok kb
                                /\ if reverse then kb <= ka else ka <= kb)
                      (Scanner.pairs r)) sorted.
Proof.
  intros Hkey Hall. induction Hall as [| r results Hr Hall IH].
  - exists []. split; [reflexivity | constructor].
  - destruct IH as (sorted & Hrun & Hsorted).
    destruct Hr as (Hin & Hne & res & Hscan & Hexp & Hpairs).
    destruct (sort_by_key_spec key reverse (Scanner.pairs r))
      as (ps & Hsort & Hperm & Hs).
    { intros p Hp. apply Hpairs in Hp. destruct Hp as [_ (f & Hf & _)].
      now apply (Hkey p f). }
    cbn [Scanner.sort_each]. rewrite Hsort. cbn [bind]. rewrite Hrun.
    cbn [bind]. eexists. split; [reflexivity |].
    constructor; [| exact Hsorted]. split; [| exact Hs].
    unfold filtered_result.
    cbn [Scanner.with_pairs Scanner.ticker Scanner.pairs Scanner.expirations].
    split; [exact Hin |]. split.
    { intros Hnil. rewrite Hnil in Hperm.
      apply Permutation_sym, Permutation_nil in Hperm. contradiction. }
    exists res. split; [exact Hscan |]. split; [exact Hexp |].
    intros p. rewrite <- Hpairs. split; intros Hp.
    + eapply Permutation_in; [apply Permutation_sym; exact Hperm | exact Hp].
    + eapply Permutation_in; [exact Hperm | exact Hp].
Qed.

Lemma scan_multiple_entries (tickers : list string) (min_ff max_ff : R)
    (sort_by : string) :
  exists results,
    Scanner.scan_multiple strptime_ymd today fetch_options_chain
      tickers min_ff max_ff sort_by = Ok results
    /\ forall r,
         In r results ->
         filtered_result strptime_ymd today fetch_options_chain
           tickers min_ff max_ff r
         /\ (sort_by = "abs"%string -> Sorted abs_descending (Scanner.pairs r))
         /\ (sort_by = "ff"%string -> Sorted ff_ascending (Scanner.pairs r)).
Proof.
  unfold Scanner.scan_multiple.
  destruct (scan_each_spec tickers min_ff max_ff tickers (incl_refl _) []
              (Forall_nil _)) as (results & Hscan & Hall).
  rewrite Hscan. cbn [bind].
  destruct (String.eqb sort_by "abs") eqn:Habs.
  - apply String.eqb_eq in Habs. subst sort_by.
    destruct (sort_each_spec tickers min_ff max_ff Scanner.abs_forward_factor
                true results) as (sorted & Hsort & Hsorted).
    { intros p f Hf. unfold Scanner.abs_forward_factor. rewrite Hf.
      cbn. eauto. }
    { exact Hall. }
    exists sorted. split; [exact Hsort |]. intros r Hr.
    rewrite Forall_forall in Hsorted. destruct (Hsorted r Hr) as [Hq Hs].
    split; [exact Hq |]. split; [| discriminate]. intros _.
    revert Hs. apply Sorted_weaken.
    intros a b (ka & kb & Ha & Hb & Hle). unfold abs_descending.
    unfold Scanner.abs_forward_factor in Ha, Hb.
    destruct (Scanner.forward_factor a) as [fa |]; [| discriminate].
    destruct (Scanner.forward_factor b) as [fb |]; [| discriminate].
    cbn in Ha, Hb. injection Ha as <-. injection Hb as <-.
    exists fa, fb. auto.
  - destruct (String.eqb sort_by "ff") eqn:Hff.
    + apply String.eqb_eq in Hff. subst sort_by.
      destruct (sort_each_spec tickers min_ff max_ff Scanner.forward_factor_key
                  false results) as (sorted & Hsort & Hsorted).
      { intros p f Hf. unfold Scanner.forward_factor_key. rewrite Hf.
        cbn. eauto. }
      { exact Hall. }
      exists sorted. split; [exact Hsort |]. intros r Hr.
      rewrite Forall_forall in Hsorted. destruct (Hsorted r Hr) as [Hq Hs].
      split; [exact Hq |]. split; [discriminate |]. intros _.
      revert Hs. apply Sorted_weaken.
      intros a b (ka & kb & Ha & Hb & Hle). unfold ff_ascending.
      unfold Scanner.forward_factor_key in Ha, Hb.
      destruct (Scanner.forward_factor a) as [fa |]; [| discriminate].
      destruct (Scanner.forward_factor b) as [fb |]; [| discriminate].
      cbn in Ha, Hb. injection Ha as <-. injection Hb as <-.
      exists fa, fb. auto.
    + exists results. split; [reflexivity |]. intros r Hr.
      rewrite Forall_forall in Hall. split; [now apply Hall |].
      apply String.eqb_neq in Habs, Hff. split; intros ->; congruence.
Qed.

(** X5: each result [scan_multiple] returns is the scan of one of the
    tickers, restricted to exactly its pairs with
    [min_ff <= forward_factor <= max_ff], and has at least one pair (a
    ticker with none is left out). With [sort_by = 'abs'] each result's
    pairs are ordered by [|forward_factor|], largest first; with ['ff'] by
    [forward_factor], smallest first. *)
Theorem scan_multiple_results (tickers : list string) (min_ff max_ff : R)
    (sort_by : string) (results : list Scanner.ScanResult) :
  Scanner.scan_multiple strptime_ymd today fetch_options_chain
    tickers min_ff max_ff sort_by = Ok results ->
  forall r,
    In r results ->
    filtered_result strptime_ymd today fetch_options_chain
      tickers min_ff max_ff r
    /\ (sort_by = "abs"%string -> Sorted abs_descending (Scanner.pairs r))
    /\ (sort_by = "ff"%string -> Sorted ff_ascending (Scanner.pairs r)).
Proof.
  intros Hrun.
  destruct (scan_multiple_entries tickers min_ff max_ff sort_by)
    as (results' & Hrun' & Hall).
  rewrite Hrun in Hrun'. injection Hrun' as <-. exact Hall.
Qed.

End ScanMultiple.

(** ** The scan of several tickers on the sample chain *)

Lemma two_expiry_variance :
  Spec.forward_variance
    (Scanner.iv (snd december_point)) (Scanner.dte (snd december_point))
    (Scanner.iv (snd january_point)) (Scanner.dte (snd january_point))
  = 1513 / 28000.
Proof.
  unfold december_point, january_point, mean_point, sample_today.
  cbn [snd Scanner.iv Scanner.dte List.length].
  unfold Spec.forward_variance, Spec.sigma, Spec.T, Rsqr, sum.
  cbn [fold_left INR].
  replace (IZR (739604 - 739558)) with 46 by (cbn; reflexivity).
  replace (IZR (739632 - 739558)) with 74 by (cbn; reflexivity).
  field.
Qed.

Lemma sample_pair_in_range :
  exists f,
    Scanner.forward_factor (pair_from december_point january_point) = Some f
    /\ -100 <= f <= 100.
Proof.
  eexists. split; [reflexivity |].
  unfold Spec.forward_factor. rewrite two_expiry_variance.
  assert (Hlow : 16 / 100 <= sqrt (1513 / 28000)).
  { rewrite <- (sqrt_Rsqr (16 / 100)) by lra.
    apply sqrt_le_1_alt. unfold Rsqr. lra. }
  assert (Hsigma : Spec.sigma (Scanner.iv (snd december_point)) = 32 / 100).
  { unfold december_point, mean_point, Spec.sigma, sum.
    cbn [snd Scanner.iv List.length fold_left INR]. field. }
  rewrite Hsigma.
  set (s := sqrt (1513 / 28000)) in *.
  assert (Hq : 0 < 32 / 100 / s <= 2).
  { split; [apply Rdiv_lt_0_compat; lra |].
    apply (Rmult_le_reg_r s); [lra |].
    unfold Rdiv at 1. rewrite Rmult_assoc, Rinv_l by lra. lra. }
  replace ((32 / 100 - s) / s * 100) with ((32 / 100 / s - 1) * 100)
    by (field; lra).
  lra.
Qed.

Lemma sample_scan_multiple :
  Scanner.scan_multiple strptime_iso sample_today sample_fetch
    ["PLTR"%string] (-100) 100 "abs"
  = Ok [sample_result].
Proof.
  unfold Scanner.scan_multiple. cbn [Scanner.scan_each].
  rewrite sample_scan. cbn [bind Scanner.pairs Scanner.filter_pairs].
  unfold Scanner.in_ff_range.
  destruct sample_pair_in_range as (f & Hf & Hlo & Hhi).
  rewrite Hf. cbn [not_none bind].
  replace (Rleb (-100) f) with true by (symmetry; now apply Rleb_true).
  replace (Rleb f 100) with true by (symmetry; now apply Rleb_true).
  cbn [andb app bind String.eqb Ascii.eqb Bool.eqb].
  cbn [Scanner.sort_each Scanner.with_pairs Scanner.pairs Scanner.ticker
       Scanner.expirations].
  unfold Scanner.sort_by_key. cbn [Scanner.keyed].
  unfold Scanner.abs_forward_factor. rewrite Hf. reflexivity.
Qed.

Lemma scan_multiple_results_witness :
  Scanner.scan_multiple strptime_iso sample_today sample_fetch
    ["PLTR"%string] (-100) 100 "abs" = Ok [sample_result]
  /\ In sample_result [sample_result]
  /\ filtered_result strptime_iso sample_today sample_fetch
       ["PLTR"%string] (-100) 100 sample_result
  /\ Sorted abs_descending (Scanner.pairs sample_result).
Proof.
  assert (Hin : In sample_result [sample_result]) by now left.
  split; [exact sample_scan_multiple |]. split; [exact Hin |].
  destruct (scan_multiple_results strptime_iso sample_today sample_fetch
              ["PLTR"%string] (-100) 100 "abs" _ sample_scan_multiple
              sample_result Hin) as (Hq & Habs & _).
  split; [exact Hq | exact (Habs eq_refl)].
Defined.

(** * Further properties of the nightly service *)

(** ** The acceptance region *)

Lemma quality_iff_no_gate (opp : Nightly.Opportunity)
    (earnings_info : option Nightly.EarningsInfo) :
  Nightly.apply_quality_filters opp earnings_info = Ok (true, []) <->
  forall g, gate_rejects opp g = false.
Proof.
  destruct (apply_quality_filters_gates opp earnings_info)
    as (reasons & Hrun & Hgates).
  rewrite Hrun. split.
  - intros H. injection H as _ ->. cbn [map] in Hgates. symmetry in Hgates.
    intros g. apply (proj1 (filter_nil_iff _ _) Hgates), in_all_gates.
  - intros Hall.
    assert (Hnil : filter (gate_rejects opp) all_gates = []).
    { apply filter_nil_iff. intros g _. apply Hall. }
    rewrite Hnil in Hgates. apply map_eq_nil in Hgates. now subst.
Qed.

Lemma quality_region (opp : Nightly.Opportunity)
    (earnings_info : option Nightly.EarningsInfo) :
  Nightly.apply_quality_filters opp earnings_info = Ok (true, []) <->
  30 <= Rabs (Nightly.forward_factor opp)
  /\ (7 <= Nightly.front_dte opp <= 180)%Z
  /\ 15 <= Nightly.front_iv opp <= 150
  /\ (Nightly.has_earnings_soon opp = true ->
      Nightly.front_iv opp > Nightly.back_iv opp ->
      40 <= Rabs (Nightly.forward_factor opp))
  /\ Nightly.forward_vol opp <> 0
  /\ Rabs (rederived_forward_factor opp - Nightly.forward_factor opp) < 2
  /\ (3 <= Nightly.back_dte opp - Nightly.front_dte opp)%Z.
Proof.
  rewrite quality_iff_no_gate. split.
  - intros Hall.
    pose proof (Hall Magnitude) as H1. pose proof (Hall FrontDTEFloor) as H2.
    pose proof (Hall FrontDTECeiling) as H3. pose proof (Hall IVFloor) as H4.
    pose proof (Hall IVCeiling) as H5. pose proof (Hall EarningsConflict) as H6.
    pose proof (Hall CalculationConsistency) as H7.
    pose proof (Hall SpreadWidth) as H8.
    cbn [gate_rejects] in *.
    apply Rltb_false in H1, H4, H5. apply Z.ltb_ge in H2, H3, H8.
    rewrite verify_forward_factor_cases in H7.
    destruct (Reqb (Nightly.forward_vol opp) 0) eqn:Hz; [discriminate |].
    apply Reqb_false in Hz. apply negb_false_iff, Rltb_true in H7.
    repeat split; try assumption; try lia; try lra.
    intros Hsoon Hinv. rewrite Hsoon in H6. cbn [andb] in H6.
    replace (Rltb (Nightly.back_iv opp) (Nightly.front_iv opp)) with true in H6
      by (symmetry; apply Rltb_true; lra).
    cbn [andb] in H6. now apply Rltb_false in H6.
  - intros (H1 & [H2 H3] & [H4 H5] & H6 & Hz & H7 & H8) g.
    destruct g; cbn [gate_rejects].
    + now apply Rltb_false.
    + apply Z.ltb_ge. lia.
    + apply Z.ltb_ge. lia.
    + now apply Rltb_false.
    + now apply Rltb_false.
    + destruct (Nightly.has_earnings_soon opp); [| reflexivity].
      destruct (Rltb (Nightly.back_iv opp) (Nightly.front_iv opp)) eqn:Hinv;
        [| reflexivity].
      apply Rltb_true in Hinv. cbn [andb]. apply Rltb_false.
      apply H6; [reflexivity | lra].
    + rewrite verify_forward_factor_cases.
      replace (Reqb (Nightly.forward_vol opp) 0) with false
        by (symmetry; now apply Reqb_false).
      apply negb_false_iff, Rltb_true. exact H7.
    + apply Z.ltb_ge. lia.
Qed.

Lemma opp_inconsistent_accepted :
  Nightly.apply_quality_filters opp_inconsistent None = Ok (true, []).
Proof.
  apply quality_region.
  unfold rederived_forward_factor, opp_inconsistent, sample_opportunity.
  cbn [Nightly.forward_factor Nightly.front_dte Nightly.front_iv
       Nightly.back_dte Nightly.back_iv Nightly.forward_vol
       Nightly.has_earnings_soon].
  split; [rewrite Rabs_right; lra |]. split; [lia |]. split; [lra |].
  split; [discriminate |]. split; [lra |]. split; [| lia].
  replace ((40 / 20 - 1) * 100 - 100) with 0 by field.
  rewrite Rabs_R0. lra.
Qed.

(** ** Ratings *)

(** X8: [calculate_rating] is never below 4, whatever its inputs, so its
    lower clamp at 0 never applies; and it is never below 5 unless the term
    structure is inverted. *)
Theorem rating_floor (opp : Nightly.Opportunity)
    (earnings_info : option Nightly.EarningsInfo) (probability risk_reward : R) :
  (4 <= Nightly.calculate_rating opp earnings_info probability risk_reward
   <= 10)%Z
  /\ (Nightly.is_inverted opp = false ->
      (5 <= Nightly.calculate_rating opp earnings_info probability risk_reward)%Z).
Proof.
  rewrite calculate_rating_sum.
  destruct (Nightly.is_inverted opp);
    repeat match goal with
           | |- context [Z.b2z ?b] => destruct b; cbn [Z.b2z andb negb]
           end;
    repeat match goal with
           | |- context [Rgeb ?x ?y] => destruct (Rgeb x y)
           end;
    cbn [Z.b2z]; split; intros; lia || discriminate.
Qed.

Lemma probability_bonus_cases (opp : Nightly.Opportunity) :
  Rgeb (Nightly.calculate_probability opp) 80 =
  Rleb 60 (Rabs (Nightly.forward_factor opp))
  && negb (Nightly.has_earnings_soon opp).
Proof.
  unfold Nightly.calculate_probability. cbv zeta. unfold Rgeb, Rleb.
  destruct (Nightly.has_earnings_soon opp); split_thresholds; reflexivity.
Qed.

Lemma risk_reward_bonus_cases (opp : Nightly.Opportunity) :
  Rgeb (Nightly.calculate_risk_reward opp) 4 =
  Rleb 60 (Rabs (Nightly.forward_factor opp)).
Proof.
  unfold Nightly.calculate_risk_reward. cbv zeta. unfold Rgeb, Rleb.
  split_thresholds; reflexivity.
Qed.

(** X9: the rating of an analysis is [min(10, 5 + bonus + straddle + dte -
    inverted)], where the forward factor contributes, through magnitude,
    probability and risk/reward together, 0 below 40, 1 from 40, 4 from 60 and
    5 from 80 (3 and 4 when [has_earnings_soon], as the discounted
    probability never reaches 80). A rating of 9 or 10 needs
    [|forward_factor| >= 60]. *)
Theorem analysis_rating_closed_form (opp : Nightly.Opportunity)
    (earnings_info : option Nightly.EarningsInfo) :
  Nightly.analysis_rating opp earnings_info =
    Z.min 10
      (5 + magnitude_bonus opp
       + Z.b2z (match earnings_info with
                | Some info =>
                    Nightly.Earnings.has_earnings_soon info
                    && Nightly.Earnings.front_is_pre_earnings info
                    && Nightly.Earnings.back_is_post_earnings info
                | None => false
                end)
       + Z.b2z ((20 <=? Nightly.front_dte opp)%Z
                && (Nightly.front_dte opp <=? 60)%Z)
       - Z.b2z (Nightly.is_inverted opp))%Z
  /\ ((9 <= Nightly.analysis_rating opp earnings_info)%Z ->
      60 <= Rabs (Nightly.forward_factor opp)).
Proof.
  unfold Nightly.analysis_rating. cbv zeta.
  rewrite calculate_rating_sum, probability_bonus_cases,
    risk_reward_bonus_cases.
  unfold magnitude_bonus, Rgeb.
  destruct (Rleb 80 (Rabs (Nightly.forward_factor opp))) eqn:H80;
    destruct (Rleb 60 (Rabs (Nightly.forward_factor opp))) eqn:H60;
    destruct (Rleb 40 (Rabs (Nightly.forward_factor opp))) eqn:H40;
    try apply Rleb_true in H80; try apply Rleb_false in H80;
    try apply Rleb_true in H60; try apply Rleb_false in H60;
    try apply Rleb_true in H40; try apply Rleb_false in H40;
    try (exfalso; lra);
    destruct (Nightly.has_earnings_soon opp), (Nightly.is_inverted opp);
    cbn [Z.b2z andb negb];
    repeat match goal with
           | |- context [Z.b2z ?b] => destruct b; cbn [Z.b2z andb negb]
           end;
    cbn [Z.b2z andb negb]; split; try reflexivity; intros; try lia; lra.
Qed.

(** X10: an opportunity the filter accepts has a risk/reward of at least
    [MIN_RISK_REWARD] (3.0); its probability is at least [MIN_PROBABILITY]
    (70) when [has_earnings_soon] is false, but with [has_earnings_soon] it
    reaches 70 only from [|forward_factor| >= 80] and is otherwise 59.5, 63.75
    or 68. *)
Theorem accepted_meets_minimums (opp : Nightly.Opportunity)
    (earnings_info : option Nightly.EarningsInfo) :
  Nightly.apply_quality_filters opp earnings_info = Ok (true, []) ->
  Nightly.MIN_RISK_REWARD <= Nightly.calculate_risk_reward opp
  /\ (Nightly.has_earnings_soon opp = false ->
      Nightly.MIN_PROBABILITY <= Nightly.calculate_probability opp)
  /\ (Nightly.has_earnings_soon opp = true ->
      (Nightly.MIN_PROBABILITY <= Nightly.calculate_probability opp <->
       80 <= Rabs (Nightly.forward_factor opp))
      /\ 59.5 <= Nightly.calculate_probability opp).
Proof.
  intros Hq. apply quality_region in Hq. destruct Hq as (H30 & _).
  unfold Nightly.MIN_RISK_REWARD, Nightly.MIN_PROBABILITY,
    Nightly.calculate_risk_reward, Nightly.calculate_probability.
  cbv zeta. unfold Rgeb, Rleb.
  split; [split_thresholds; lra |]. split.
  - intros ->. split_thresholds; lra.
  - intros ->. split; [split |]; split_thresholds; intros; lra.
Qed.

Lemma rating_floor_witness :
  Nightly.is_inverted opp_normal = false
  /\ (5 <= Nightly.calculate_rating opp_normal None 75 3.5)%Z.
Proof.
  assert (Hn : Nightly.is_inverted opp_normal = false).
  { unfold Nightly.is_inverted, Rgtb. apply Rltb_false. cbn. lra. }
  split; [exact Hn |].
  exact (proj2 (rating_floor opp_normal None 75 3.5) Hn).
Defined.

Lemma accepted_meets_minimums_witness :
  Nightly.apply_quality_filters opp_inconsistent None = Ok (true, [])
  /\ Nightly.MIN_RISK_REWARD <= Nightly.calculate_risk_reward opp_inconsistent.
Proof.
  split; [exact opp_inconsistent_accepted |].
  exact (proj1 (accepted_meets_minimums opp_inconsistent None
                  opp_inconsistent_accepted)).
Defined.

Lemma analysis_rating_closed_form_witness :
  (9 <= Nightly.analysis_rating opp_strong None)%Z
  /\ 60 <= Rabs (Nightly.forward_factor opp_strong).
Proof.
  destruct (analysis_rating_closed_form opp_strong None) as [Hform Hhigh].
  assert (H9 : (9 <= Nightly.analysis_rating opp_strong None)%Z).
  { rewrite Hform. unfold magnitude_bonus, Nightly.is_inverted, Rgtb.
    cbn [opp_strong sample_opportunity Nightly.forward_factor
         Nightly.has_earnings_soon Nightly.front_dte Nightly.front_iv
         Nightly.back_iv].
    replace (Rleb 80 (Rabs 100)) with true
      by (symmetry; apply Rleb_true; rewrite Rabs_right; lra).
    replace (Rltb 30 20) with false by (symmetry; apply Rltb_false; lra).
    cbn. lia. }
  split; [exact H9 | exact (Hhigh H9)].
Defined.

(** ** Earnings positioning on well-formed dates *)

(** X11: when the provider reports an earnings date and the three dates
    parse, the nightly resolver returns an EarningsInfo carrying that date,
    with front-is-pre iff front < earnings, back-is-post iff earnings < back,
    both-post iff earnings < front and earnings < back (so never together
    with front-is-pre), and has-earnings-soon iff the earnings midnight is
    less than 60 days after now or at most 59 days before it: the window is
    not symmetric. *)
Theorem earnings_positioning (strptime_ymd : string -> option Z) (now : Z)
    (client : string -> result Nightly.TickerDetails)
    (ticker front_date back_date : string)
    (ticker_details : Nightly.TickerDetails) (earnings_date : string)
    (e f b : Z) :
  client ticker = Ok ticker_details ->
  provider_date ticker_details = Some earnings_date ->
  truthy_str (Some earnings_date) = true ->
  strptime_ymd earnings_date = Some e ->
  strptime_ymd front_date = Some f ->
  strptime_ymd back_date = Some b ->
  exists info,
    Nightly.get_earnings_info strptime_ymd now (Some client)
      ticker front_date back_date = Ok (Some info)
    /\ Nightly.Earnings.earnings_date info = Some earnings_date
    /\ (Nightly.Earnings.front_is_pre_earnings info = true <-> (f < e)%Z)
    /\ (Nightly.Earnings.back_is_post_earnings info = true <-> (e < b)%Z)
    /\ (Nightly.Earnings.both_post_earnings info = true <->
        (e < f)%Z /\ (e < b)%Z)
    /\ (Nightly.Earnings.both_post_earnings info = true ->
        Nightly.Earnings.front_is_pre_earnings info = false)
    /\ (Nightly.Earnings.has_earnings_soon info = true <->
        (-59 * us_per_day <= e * us_per_day - now < 60 * us_per_day)%Z).
Proof.
  intros Hlookup Hdate Htruthy He Hf Hb.
  unfold Nightly.get_earnings_info. rewrite Hlookup. cbn [bind].
  fold (provider_date ticker_details). rewrite Hdate.
  destruct (truthy_str_cases _ Htruthy) as (c & s & Hs). injection Hs as ->.
  unfold Nightly.strptime. rewrite He, Hf, Hb. cbn [bind try_except].
  eexists. split; [reflexivity |].
  cbn [Nightly.Earnings.earnings_date Nightly.Earnings.front_is_pre_earnings
       Nightly.Earnings.back_is_post_earnings
       Nightly.Earnings.both_post_earnings
       Nightly.Earnings.has_earnings_soon].
  unfold us_per_day.
  split; [reflexivity |].
  rewrite !Z.gtb_ltb, andb_true_iff, !Z.ltb_lt.
  split; [lia |]. split; [lia |]. split; [lia |]. split.
  - intros [H1 H2]. apply Z.ltb_ge. lia.
  - pose proof (Z.div_mod (e * 86400000000 - now) 86400000000) as Hdiv.
    pose proof (Z.mod_pos_bound (e * 86400000000 - now) 86400000000) as Hmod.
    lia.
Qed.

Lemma earnings_positioning_witness :
  exists info,
    Nightly.get_earnings_info strptime_iso (sample_today * us_per_day)
      (Some sample_client) "PLTR" "2025-11-21" "2025-12-26" = Ok (Some info)
    /\ Nightly.Earnings.both_post_earnings info = true
    /\ Nightly.Earnings.has_earnings_soon info = true.
Proof.
  destruct (earnings_positioning strptime_iso (sample_today * us_per_day)
              sample_client "PLTR" "2025-11-21" "2025-12-26"
              _ "2025-11-15" 739570 739576 739611
              eq_refl eq_refl eq_refl eq_refl eq_refl eq_refl)
    as (info & Hrun & _ & _ & _ & Hboth & _ & Hsoon).
  exists info. split; [exact Hrun |]. split.
  - apply Hboth. lia.
  - apply Hsoon. unfold sample_today, us_per_day. lia.
Defined.

(** ** The Yahoo cache *)

Lemma cache_get_set_eq (ticker d : string) (cache : list (string * string)) :
  Yahoo.cache_get ticker (Yahoo.cache_set ticker d cache) = Some d.
Proof.
  induction cache as [| [k v] cache IH]; cbn.
  - now rewrite String.eqb_refl.
  - destruct (String.eqb ticker k) eqn:E; cbn; rewrite E;
      [reflexivity | exact IH].
Qed.

Lemma cache_get_set_ne (ticker other d : string)
    (cache : list (string * string)) :
  other <> ticker ->
  Yahoo.cache_get other (Yahoo.cache_set ticker d cache)
  = Yahoo.cache_get other cache.
Proof.
  intros Hne. induction cache as [| [k v] cache IH]; cbn.
  - apply String.eqb_neq in Hne. now rewrite Hne.
  - destruct (String.eqb ticker k) eqn:E; cbn.
    + apply String.eqb_eq in E. subst k.
      apply String.eqb_neq in Hne. now rewrite Hne.
    + now rewrite IH.
Qed.

(** X12: the Yahoo lookup caches what it finds and only that. Its value is
    the one of the lookup without cache state; a date it returns is returned
    again by every later lookup of the ticker, whatever the page then holds
    and even if the fetch fails; a lookup that finds nothing leaves the
    cache as it was, so the next one fetches again; and other tickers'
    entries are never touched. *)
Theorem yahoo_cache_round_trip (scrape : string -> result (option string))
    (cache : list (string * string)) (ticker : string) :
  fst (Yahoo.get_earnings_date_cached scrape cache ticker)
  = Yahoo.get_earnings_date scrape cache ticker
  /\ (forall d,
        fst (Yahoo.get_earnings_date_cached scrape cache ticker) = Ok (Some d) ->
        forall scrape',
          Yahoo.get_earnings_date_cached scrape'
            (snd (Yahoo.get_earnings_date_cached scrape cache ticker)) ticker
          = (Ok (Some d),
             snd (Yahoo.get_earnings_date_cached scrape cache ticker)))
  /\ (fst (Yahoo.get_earnings_date_cached scrape cache ticker) = Ok None ->
      snd (Yahoo.get_earnings_date_cached scrape cache ticker) = cache)
  /\ (forall other,
        other <> ticker ->
        Yahoo.cache_get other
          (snd (Yahoo.get_earnings_date_cached scrape cache ticker))
        = Yahoo.cache_get other cache).
Proof.
  unfold Yahoo.get_earnings_date_cached, Yahoo.get_earnings_date.
  destruct (Yahoo.cache_get ticker cache) as [d0 |] eqn:Hhit.
  - cbn [fst snd]. split; [reflexivity |]. split.
    + intros d Hd scrape'. injection Hd as <-. now rewrite Hhit.
    + split; [discriminate | reflexivity].
  - destruct (scrape ticker) as [[d0 |] | e]; cbn [fst snd try_except Exception].
    + split; [reflexivity |]. split.
      * intros d Hd scrape'. injection Hd as <-.
        now rewrite cache_get_set_eq.
      * split; [discriminate |]. intros other Hne.
        now apply cache_get_set_ne.
    + split; [reflexivity |]. split; [discriminate |].
      split; reflexivity.
    + split; [reflexivity |]. split; [discriminate |].
      split; reflexivity.
Qed.

Lemma yahoo_cache_round_trip_witness :
  fst (Yahoo.get_earnings_date_cached sample_scrape [] "PLTR")
  = Ok (Some "2025-11-15"%string)
  /\ Yahoo.get_earnings_date_cached (fun _ => Raise (ProviderError "timeout"))
       (snd (Yahoo.get_earnings_date_cached sample_scrape [] "PLTR")) "PLTR"
     = (Ok (Some "2025-11-15"%string),
        snd (Yahoo.get_earnings_date_cached sample_scrape [] "PLTR")).
Proof.
  split; [reflexivity |].
  exact (proj1 (proj2 (yahoo_cache_round_trip sample_scrape [] "PLTR"))
           "2025-11-15"%string eq_refl
           (fun _ => Raise (ProviderError "timeout"))).
Defined.

(** ** Exceptions through a chain of binds *)

Lemma raises_only_bind {A B : Type} (P : exn -> Prop)
    (c : result A) (k : A -> result B) :
  raises_only P c -> (forall a, raises_only P (k a)) ->
  raises_only P (bind c k).
Proof.
  intros Hc Hk e. destruct c as [a | e']; cbn.
  - apply Hk.
  - intros H. injection H as ->. now apply Hc.
Qed.

Lemma raises_only_Ok {A : Type} (P : exn -> Prop) (a : A) :
  raises_only P (Ok a).
Proof. intros e H. discriminate. Qed.

(** ** Analysing a scan *)

Lemma apply_quality_filters_ignores_earnings (opp : Nightly.Opportunity)
    (earnings_info : option Nightly.EarningsInfo) :
  Nightly.apply_quality_filters opp earnings_info
  = Nightly.apply_quality_filters opp None.
Proof. reflexivity. Qed.

Lemma insert_by_rating_perm (x : Nightly.TradeAnalysis)
    (l : list Nightly.TradeAnalysis) :
  Permutation (x :: l) (Nightly.insert_by_rating x l).
Proof.
  induction l as [| y l IH]; cbn; [reflexivity |].
  destruct (Nightly.rating y <=? Nightly.rating x)%Z; [reflexivity |].
  rewrite perm_swap. now apply perm_skip.
Qed.

Lemma sort_by_rating_perm (l : list Nightly.TradeAnalysis) :
  Permutation l (Nightly.sort_by_rating l).
Proof.
  unfold Nightly.sort_by_rating.
  induction l as [| x l IH]; cbn; [reflexivity |].
  rewrite <- insert_by_rating_perm. now apply perm_skip.
Qed.

Lemma insert_by_rating_sorted (x : Nightly.TradeAnalysis)
    (l : list Nightly.TradeAnalysis) :
  Sorted (fun a b => (Nightly.rating b <= Nightly.rating a)%Z) l ->
  Sorted (fun a b => (Nightly.rating b <= Nightly.rating a)%Z)
    (Nightly.insert_by_rating x l).
Proof.
  induction l as [| y l IH]; cbn; intros Hs.
  - repeat constructor.
  - destruct (Nightly.rating y <=? Nightly.rating x)%Z eqn:E.
    + apply Z.leb_le in E. constructor; [exact Hs | constructor; exact E].
    + apply Z.leb_gt in E. inversion Hs as [| ? ? Hs' Hhd]; subst.
      constructor; [now apply IH |].
      destruct l as [| z l]; cbn.
      * constructor. lia.
      * destruct (Nightly.rating z <=? Nightly.rating x)%Z;
          constructor; [lia | now inversion Hhd].
Qed.

Lemma sort_by_rating_sorted (l : list Nightly.TradeAnalysis) :
  Sorted (fun a b => (Nightly.rating b <= Nightly.rating a)%Z)
    (Nightly.sort_by_rating l).
Proof.
  unfold Nightly.sort_by_rating.
  induction l as [| x l IH]; cbn; [constructor |].
  now apply insert_by_rating_sorted.
Qed.

(** Insertion leaves the analyses of each rating in their order. *)
Lemma insert_by_rating_stable (k : Z) (x : Nightly.TradeAnalysis)
    (l : list Nightly.TradeAnalysis) :
  Sorted (fun a b => (Nightly.rating b <= Nightly.rating a)%Z) l ->
  filter (fun a => (Nightly.rating a =? k)%Z) (Nightly.insert_by_rating x l)
  = filter (fun a => (Nightly.rating a =? k)%Z) (x :: l).
Proof.
  induction l as [| y l IH]; intros Hs; [reflexivity |].
  cbn [Nightly.insert_by_rating].
  destruct (Nightly.rating y <=? Nightly.rating x)%Z eqn:E; [reflexivity |].
  apply Z.leb_gt in E. inversion Hs as [| ? ? Hs' Hhd]; subst.
  cbn [filter]. rewrite (IH Hs'). cbn [filter].
  destruct (Nightly.rating x =? k)%Z eqn:Ex;
    destruct (Nightly.rating y =? k)%Z eqn:Ey; try reflexivity.
  apply Z.eqb_eq in Ex, Ey. lia.
Qed.

Lemma sort_by_rating_stable (k : Z) (l : list Nightly.TradeAnalysis) :
  filter (fun a => (Nightly.rating a =? k)%Z) (Nightly.sort_by_rating l)
  = filter (fun a => (Nightly.rating a =? k)%Z) l.
Proof.
  induction l as [| x l IH]; [reflexivity |].
  change (Nightly.sort_by_rating (x :: l))
    with (Nightly.insert_by_rating x (Nightly.sort_by_rating l)).
  rewrite insert_by_rating_stable by apply sort_by_rating_sorted.
  cbn [filter]. now rewrite IH.
Qed.

Section Analysis.

Variable strptime_ymd : string -> option Z.
Variable now : Z.
Variable polygon_client : option (string -> result Nightly.TickerDetails).
Variable parse_float : string -> option R.
Variable parse_int : string -> option Z.

Lemma analyze_opportunity_spec (opp : Nightly.Opportunity) :
  exists a,
    Nightly.analyze_opportunity strptime_ymd now polygon_client opp = Ok a
    /\ Nightly.opportunity a = opp
    /\ Nightly.is_quality_setup a = accepted opp
    /\ (Nightly.is_quality_setup a = true <-> Nightly.rejection_reasons a = [])
    /\ Nightly.rating a =
       Nightly.analysis_rating opp (Nightly.earnings_info a).
Proof.
  unfold Nightly.analyze_opportunity, accepted.
  destruct (nightly_get_earnings_info_total strptime_ymd now polygon_client
              (Nightly.ticker opp) (Nightly.front_date opp)
              (Nightly.back_date opp)) as [earnings_info ->].
  cbn [bind]. rewrite apply_quality_filters_ignores_earnings.
  destruct (apply_quality_filters_gates opp None) as (reasons & -> & _).
  cbn [bind]. eexists. split; [reflexivity |].
  cbn [Nightly.opportunity Nightly.is_quality_setup Nightly.rejection_reasons
       Nightly.rating Nightly.earnings_info].
  split; [reflexivity |]. split; [reflexivity |].
  split; [apply length_eqb_0 | reflexivity].
Qed.

Lemma analyze_each_spec (opportunities : list Nightly.Opportunity) :
  forall quality0 rejected0,
  exists quality rejected,
    Nightly.analyze_each strptime_ymd now polygon_client opportunities
      quality0 rejected0 = Ok (quality0 ++ quality, rejected0 ++ rejected)
    /\ Forall2 (fun opp a =>
                  Nightly.analyze_opportunity strptime_ymd now polygon_client
                    opp = Ok a)
         (filter accepted opportunities) quality
    /\ Forall2 (fun opp a =>
                  Nightly.analyze_opportunity strptime_ymd now polygon_client
                    opp = Ok a)
         (filter (fun opp => negb (accepted opp)) opportunities) rejected.
Proof.
  induction opportunities as [| opp rest IH]; intros quality0 rejected0.
  - exists [], []. rewrite !app_nil_r. repeat split; constructor.
  - destruct (analyze_opportunity_spec opp)
      as (a & Hrun & Hopp & Hq & Hreasons & _).
    cbn [Nightly.analyze_each filter]. rewrite Hrun. cbn [bind].
    rewrite Hq. destruct (accepted opp) eqn:Hacc; cbn [negb].
    + destruct (IH (quality0 ++ [a]) rejected0)
        as (quality & rejected & Hrest & Hqs & Hrs).
      exists (a :: quality), rejected. rewrite Hrest, <- app_assoc.
      split; [reflexivity |]. split; [constructor; assumption | exact Hrs].
    + destruct (Nightly.rejection_reasons a) as [| reason reasons] eqn:Hr.
      { rewrite Hq in Hreasons. destruct Hreasons as [_ H].
        specialize (H eq_refl). discriminate. }
      cbn [Nightly.first_item bind].
      destruct (IH quality0 (rejected0 ++ [a]))
        as (quality & rejected & Hrest & Hqs & Hrs).
      exists quality, (a :: rejected). rewrite Hrest, <- app_assoc.
      split; [reflexivity |]. split; [exact Hqs | constructor; assumption].
Qed.

Lemma run_analysis_spec (scan_data : Nightly.ScanData)
    (opportunities : list Nightly.Opportunity) :
  Nightly.parse_opportunities parse_float parse_int scan_data
  = Ok opportunities ->
  exists analysed rejected,
    Nightly.run_analysis strptime_ymd now polygon_client parse_float parse_int
      (Some scan_data) = Ok (Nightly.sort_by_rating analysed, rejected)
    /\ Forall2 (fun opp a =>
                  Nightly.analyze_opportunity strptime_ymd now polygon_client
                    opp = Ok a)
         (filter accepted opportunities) analysed
    /\ Forall2 (fun opp a =>
                  Nightly.analyze_opportunity strptime_ymd now polygon_client
                    opp = Ok a)
         (filter (fun opp => negb (accepted opp)) opportunities) rejected.
Proof.
  intros Hparse. unfold Nightly.run_analysis. rewrite Hparse. cbn [bind].
  destruct (analyze_each_spec opportunities [] [])
    as (quality & rejected & Hrun & Hqs & Hrs).
  rewrite Hrun. cbn [bind app]. exists quality, rejected. auto.
Qed.

Lemma analysed_facts (opps : list Nightly.Opportunity)
    (analyses : list Nightly.TradeAnalysis) (keep : bool) :
  Forall2 (fun opp a =>
             Nightly.analyze_opportunity strptime_ymd now polygon_client opp
             = Ok a)
    (filter (fun opp => Bool.eqb (accepted opp) keep) opps) analyses ->
  map Nightly.opportunity analyses
  = filter (fun opp => Bool.eqb (accepted opp) keep) opps
  /\ forall a,
       In a analyses ->
       Nightly.is_quality_setup a = keep
       /\ (Nightly.rejection_reasons a = [] <-> keep = true).
Proof.
  remember (filter (fun opp => Bool.eqb (accepted opp) keep) opps) as kept
    eqn:Hkept.
  assert (Hall : Forall (fun opp => accepted opp = keep) kept).
  { subst kept. apply Forall_forall. intros opp Hin.
    apply filter_In in Hin. destruct Hin as [_ H]. now apply Bool.eqb_prop. }
  clear Hkept. intros Hf2. induction Hf2 as [| opp a kept analyses Hrun Hf2 IH].
  - split; [reflexivity | intros a []].
  - inversion Hall as [| ? ? Hacc Hall']; subst.
    destruct (IH Hall') as [Hmap Hfacts].
    destruct (analyze_opportunity_spec opp) as (a' & Hrun' & Hopp & Hq & Hr & _).
    rewrite Hrun in Hrun'. injection Hrun' as <-.
    split; [cbn; now rewrite Hopp, Hmap |].
    intros b [<- | Hb]; [| now apply Hfacts].
    split; [exact Hq |]. rewrite <- Hr, Hq. reflexivity.
Qed.

Lemma filter_accepted_eqb (opps : list Nightly.Opportunity) :
  filter accepted opps = filter (fun opp => Bool.eqb (accepted opp) true) opps
  /\ filter (fun opp => negb (accepted opp)) opps
     = filter (fun opp => Bool.eqb (accepted opp) false) opps.
Proof.
  split; apply filter_ext; intros opp; now destruct (accepted opp).
Qed.

Lemma filter_split_length {A : Type} (f : A -> bool) (l : list A) :
  (List.length (filter f l) + List.length (filter (fun x => negb (f x)) l)
   = List.length l)%nat.
Proof.
  induction l as [| x l IH]; [reflexivity |].
  cbn. destruct (f x); cbn; lia.
Qed.

(** X15: when the scan parses, [run_analysis] returns normally (reading the
    first reason of a rejected setup never fails). Every parsed opportunity
    ends in exactly one of the two lists: the quality setups are the
    analyses of the accepted opportunities, each with no rejection reason;
    the rejected setups are the analyses of the others, in scan order, each
    with at least one reason. *)
Theorem run_analysis_partitions (scan_data : Nightly.ScanData)
    (opportunities : list Nightly.Opportunity) :
  Nightly.parse_opportunities parse_float parse_int scan_data
  = Ok opportunities ->
  exists quality rejected,
    Nightly.run_analysis strptime_ymd now polygon_client parse_float parse_int
      (Some scan_data) = Ok (quality, rejected)
    /\ Permutation (map Nightly.opportunity quality)
         (filter accepted opportunities)
    /\ map Nightly.opportunity rejected
       = filter (fun opp => negb (accepted opp)) opportunities
    /\ (forall a,
          In a quality ->
          Nightly.is_quality_setup a = true
          /\ Nightly.rejection_reasons a = [])
    /\ (forall a,
          In a rejected ->
          Nightly.is_quality_setup a = false
          /\ Nightly.rejection_reasons a <> [])
    /\ (List.length quality + List.length rejected
        = List.length opportunities)%nat.
Proof.
  intros Hparse.
  destruct (run_analysis_spec scan_data opportunities Hparse)
    as (analysed & rejected & Hrun & Hqs & Hrs).
  destruct (filter_accepted_eqb opportunities) as [Hfq Hfr].
  rewrite Hfq in Hqs. rewrite Hfr in Hrs.
  destruct (analysed_facts _ _ true Hqs) as [Hqmap Hqfacts].
  destruct (analysed_facts _ _ false Hrs) as [Hrmap Hrfacts].
  rewrite <- Hfq in Hqmap. rewrite <- Hfr in Hrmap.
  pose proof (sort_by_rating_perm analysed) as Hperm.
  exists (Nightly.sort_by_rating analysed), rejected.
  split; [exact Hrun |]. split.
  { rewrite <- Hqmap. apply Permutation_map, Permutation_sym, Hperm. }
  split; [exact Hrmap |]. split.
  { intros a Hin.
    assert (Hin' : In a analysed)
      by (eapply Permutation_in; [apply Permutation_sym, Hperm | exact Hin]).
    destruct (Hqfacts a Hin') as [Hq Hr]. split; [exact Hq | now apply Hr]. }
  split.
  { intros a Hin. destruct (Hrfacts a Hin) as [Hq Hr].
    split; [exact Hq |]. intros Hnil. apply Hr in Hnil. discriminate. }
  rewrite <- (Permutation_length Hperm).
  rewrite <- (length_map Nightly.opportunity analysed),
          <- (length_map Nightly.opportunity rejected), Hqmap, Hrmap.
  apply filter_split_length.
Qed.

(** X16: the quality setups [run_analysis] returns are ordered by rating,
    highest first, and setups of equal rating keep the order of the scan:
    for every rating, the setups of that rating appear as they do among the
    analyses of the accepted opportunities taken in scan order. *)
Theorem ranking_is_stable (scan_data : Nightly.ScanData)
    (opportunities : list Nightly.Opportunity) :
  Nightly.parse_opportunities parse_float parse_int scan_data
  = Ok opportunities ->
  exists quality rejected analysed,
    Nightly.run_analysis strptime_ymd now polygon_client parse_float parse_int
      (Some scan_data) = Ok (quality, rejected)
    /\ map Nightly.opportunity analysed = filter accepted opportunities
    /\ Permutation analysed quality
    /\ Sorted (fun a b => (Nightly.rating b <= Nightly.rating a)%Z) quality
    /\ forall k,
         filter (fun a => (Nightly.rating a =? k)%Z) quality
         = filter (fun a => (Nightly.rating a =? k)%Z) analysed.
Proof.
  intros Hparse.
  destruct (run_analysis_spec scan_data opportunities Hparse)
    as (analysed & rejected & Hrun & Hqs & _).
  destruct (filter_accepted_eqb opportunities) as [Hfq _].
  rewrite Hfq in Hqs.
  destruct (analysed_facts _ _ true Hqs) as [Hqmap _]. rewrite <- Hfq in Hqmap.
  exists (Nightly.sort_by_rating analysed), rejected, analysed.
  split; [exact Hrun |]. split; [exact Hqmap |].
  split; [apply sort_by_rating_perm |].
  split; [apply sort_by_rating_sorted |].
  intros k. apply sort_by_rating_stable.
Qed.

End Analysis.

Lemma sample_parse_two :
  Nightly.parse_opportunities no_float no_int
    (sample_scan_data
       [sample_entry (Nightly.JFloat 10) None;
        sample_entry (Nightly.JFloat 100) None])
  = Ok [sample_opportunity 10 30 40 60 40 20 false; opp_inconsistent].
Proof. reflexivity. Qed.

Lemma run_analysis_partitions_witness :
  exists quality rejected,
    Nightly.run_analysis strptime_iso (sample_today * us_per_day) None
      no_float no_int
      (Some (sample_scan_data
               [sample_entry (Nightly.JFloat 10) None;
                sample_entry (Nightly.JFloat 100) None]))
    = Ok (quality, rejected)
    /\ (List.length quality + List.length rejected = 2)%nat.
Proof.
  destruct (run_analysis_partitions strptime_iso (sample_today * us_per_day)
              None no_float no_int _ _ sample_parse_two)
    as (quality & rejected & Hrun & _ & _ & _ & _ & Hlen).
  exists quality, rejected. split; [exact Hrun | exact Hlen].
Defined.

Lemma ranking_is_stable_witness :
  exists quality rejected,
    Nightly.run_analysis strptime_iso (sample_today * us_per_day) None
      no_float no_int
      (Some (sample_scan_data
               [sample_entry (Nightly.JFloat 10) None;
                sample_entry (Nightly.JFloat 100) None]))
    = Ok (quality, rejected)
    /\ Sorted (fun a b => (Nightly.rating b <= Nightly.rating a)%Z) quality.
Proof.
  destruct (ranking_is_stable strptime_iso (sample_today * us_per_day)
              None no_float no_int _ _ sample_parse_two)
    as (quality & rejected & analysed & Hrun & _ & _ & Hsorted & _).
  exists quality, rejected. split; [exact Hrun | exact Hsorted].
Defined.

(** * Properties of the trading calendar *)

Lemma date_of_at_midnight (d : Z) :
  Scheduler.date_of (Scheduler.at_midnight d) = d.
Proof.
  unfold Scheduler.date_of, Scheduler.at_midnight, us_per_day.
  apply Z.div_mul. discriminate.
Qed.

Lemma date_of_next_day (dt : Z) :
  Scheduler.date_of (dt + us_per_day) = (Scheduler.date_of dt + 1)%Z.
Proof.
  unfold Scheduler.date_of, us_per_day.
  replace (dt + 86400000000)%Z with (dt + 1 * 86400000000)%Z by lia.
  apply Z.div_add. discriminate.
Qed.

Lemma first_trading_day_spec (nyse_open : Z -> bool) (now check_date : Z)
    (n : nat) :
  match Scheduler.first_trading_day nyse_open now check_date n with
  | Some r =>
      exists k,
        (0 <= k < Z.of_nat n)%Z
        /\ r = Scheduler.at_midnight (check_date + k)
        /\ nyse_open (check_date + k)%Z = true
        /\ forall j, (0 <= j < k)%Z -> nyse_open (check_date + j)%Z = false
  | None =>
      forall j, (0 <= j < Z.of_nat n)%Z -> nyse_open (check_date + j)%Z = false
  end.
Proof.
  revert check_date. induction n as [| n IH]; intros check_date.
  - cbn. intros j Hj. lia.
  - cbn [Scheduler.first_trading_day]. unfold Scheduler.is_trading_day.
    cbv zeta. rewrite date_of_at_midnight.
    destruct (nyse_open check_date) eqn:Hopen.
    + exists 0%Z. rewrite Z.add_0_r.
      split; [lia |]. split; [reflexivity |]. split; [exact Hopen |].
      intros j Hj. lia.
    + specialize (IH (check_date + 1)%Z).
      destruct (Scheduler.first_trading_day nyse_open now (check_date + 1) n)
        as [r |].
      * destruct IH as (k & Hk & -> & Hopen' & Hclosed).
        exists (k + 1)%Z.
        replace (check_date + (k + 1))%Z with (check_date + 1 + k)%Z by lia.
        split; [lia |]. split; [reflexivity |]. split; [exact Hopen' |].
        intros j Hj. destruct (Z.eq_dec j 0) as [-> | Hnz].
        -- now rewrite Z.add_0_r.
        -- replace (check_date + j)%Z with (check_date + 1 + (j - 1))%Z by lia.
           apply Hclosed. lia.
      * intros j Hj. destruct (Z.eq_dec j 0) as [-> | Hnz].
        -- now rewrite Z.add_0_r.
        -- replace (check_date + j)%Z with (check_date + 1 + (j - 1))%Z by lia.
           apply IH. lia.
Qed.

(** X17: [get_next_trading_day] always returns a time after the given one.
    If one of the 10 days after the given day is a trading day, it returns
    the midnight of the earliest of them; otherwise it falls back on the
    given time plus one day, which is then not a trading day. *)
Theorem next_trading_day (nyse_open : Z -> bool) (now date : Z) :
  (date < Scheduler.get_next_trading_day nyse_open now (Some date))%Z
  /\ ((exists k, (0 <= k < 10)%Z
                 /\ nyse_open (Scheduler.date_of date + 1 + k)%Z = true) ->
      exists k,
        (0 <= k < 10)%Z
        /\ Scheduler.get_next_trading_day nyse_open now (Some date)
           = Scheduler.at_midnight (Scheduler.date_of date + 1 + k)
        /\ nyse_open (Scheduler.date_of date + 1 + k)%Z = true
        /\ forall j, (0 <= j < k)%Z ->
                     nyse_open (Scheduler.date_of date + 1 + j)%Z = false)
  /\ ((forall k, (0 <= k < 10)%Z ->
                 nyse_open (Scheduler.date_of date + 1 + k)%Z = false) ->
      Scheduler.get_next_trading_day nyse_open now (Some date)
      = (date + us_per_day)%Z
      /\ Scheduler.is_trading_day nyse_open now
           (Some (Scheduler.get_next_trading_day nyse_open now (Some date)))
         = false).
Proof.
  unfold Scheduler.get_next_trading_day. cbv zeta.
  rewrite date_of_next_day.
  pose proof (first_trading_day_spec nyse_open now (Scheduler.date_of date + 1)
                10)
    as Hspec.
  assert (Hday : (Scheduler.date_of date * us_per_day <= date
                  < (Scheduler.date_of date + 1) * us_per_day)%Z).
  { unfold Scheduler.date_of, us_per_day.
    pose proof (Z.div_mod date 86400000000) as Hdiv.
    pose proof (Z.mod_pos_bound date 86400000000) as Hmod. lia. }
  destruct (Scheduler.first_trading_day nyse_open now
              (Scheduler.date_of date + 1) 10) as [r |].
  - destruct Hspec as (k & Hk & -> & Hopen & Hclosed).
    change (Z.of_nat 10) with 10%Z in Hk.
    split; [unfold Scheduler.at_midnight, us_per_day in *; lia |]. split.
    + intros _. exists k. auto.
    + intros Hnone. rewrite (Hnone k Hk) in Hopen. discriminate.
  - change (Z.of_nat 10) with 10%Z in Hspec.
    split; [unfold us_per_day; lia |]. split.
    + intros (k & Hk & Hopen). rewrite (Hspec k Hk) in Hopen. discriminate.
    + intros _. split; [reflexivity |].
      unfold Scheduler.is_trading_day. cbv zeta. rewrite date_of_next_day.
      replace (Scheduler.date_of date + 1)%Z
        with (Scheduler.date_of date + 1 + 0)%Z by lia.
      apply Hspec. lia.
Qed.

Lemma next_trading_day_witness :
  (exists k, (0 <= k < 10)%Z
             /\ weekdays_only
                  (Scheduler.date_of (739562 * us_per_day) + 1 + k)%Z = true)
  /\ Scheduler.get_next_trading_day weekdays_only 0
       (Some (739562 * us_per_day)%Z)
     = Scheduler.at_midnight 739565
  /\ Scheduler.get_next_trading_day always_closed 0
       (Some (739562 * us_per_day)%Z)
     = (739562 * us_per_day + us_per_day)%Z.
Proof.
  assert (Hsome : exists k, (0 <= k < 10)%Z
                  /\ weekdays_only
                       (Scheduler.date_of (739562 * us_per_day) + 1 + k)%Z
                     = true).
  { exists 2%Z. split; [lia | reflexivity]. }
  split; [exact Hsome |].
  destruct (next_trading_day weekdays_only 0 (739562 * us_per_day))
    as (_ & Hfirst & _).
  destruct (next_trading_day always_closed 0 (739562 * us_per_day))
    as (_ & _ & Hnone).
  split; [reflexivity |].
  apply Hnone. intros k _. reflexivity.
Defined.

(** X18: [should_run_tonight] is true exactly on a Monday-to-Friday evening
    whose next calendar day is a trading day, and then
    [get_next_trading_day] names the midnight of that next day. With a
    calendar that holds no session on Saturday or Sunday it is therefore
    true on Monday to Thursday only: never on a Friday, and never on a
    Sunday although the Monday may be a trading day. *)
Theorem should_run_tonight_weeknights (nyse_open : Z -> bool) (now : Z) :
  (Scheduler.should_run_tonight nyse_open now = true <->
   (Scheduler.weekday now < 5)%Z
   /\ nyse_open (Scheduler.date_of now + 1)%Z = true)
  /\ (Scheduler.should_run_tonight nyse_open now = true ->
      Scheduler.get_next_trading_day nyse_open now None
      = Scheduler.at_midnight (Scheduler.date_of now + 1))
  /\ ((forall d, (5 <= (d + 6) mod 7)%Z -> nyse_open d = false) ->
      Scheduler.should_run_tonight nyse_open now = true ->
      (0 <= Scheduler.weekday now <= 3)%Z).
Proof.
  assert (Hrun : Scheduler.should_run_tonight nyse_open now = true <->
                 (Scheduler.weekday now < 5)%Z
                 /\ nyse_open (Scheduler.date_of now + 1)%Z = true).
  { unfold Scheduler.should_run_tonight, Scheduler.is_trading_day. cbv zeta.
    rewrite date_of_next_day.
    destruct (Scheduler.weekday now >=? 5)%Z eqn:Hday.
    - split; [discriminate |]. intros [Hlt _].
      apply Z.geb_le in Hday. lia.
    - assert (Hlt : (Scheduler.weekday now < 5)%Z).
      { rewrite Z.geb_leb in Hday. now apply Z.leb_gt in Hday. }
      destruct (nyse_open (Scheduler.date_of now + 1)%Z); cbn [negb].
      + split; auto.
      + split; [discriminate |]. intros [_ H]. discriminate. }
  split; [exact Hrun |]. split.
  - intros Htonight. apply Hrun in Htonight. destruct Htonight as [_ Hopen].
    unfold Scheduler.get_next_trading_day. cbv zeta.
    rewrite date_of_next_day.
    change 10%nat with (S 9). cbn [Scheduler.first_trading_day].
    unfold Scheduler.is_trading_day. cbv zeta.
    rewrite date_of_at_midnight, Hopen. reflexivity.
  - intros Hweekend Htonight. apply Hrun in Htonight.
    destruct Htonight as [Hlt Hopen].
    assert (Hpos : (0 <= Scheduler.weekday now < 7)%Z).
    { unfold Scheduler.weekday. apply Z.mod_pos_bound. lia. }
    split; [lia |].
    destruct (Z.eq_dec (Scheduler.weekday now) 4) as [Hfri | Hnot]; [| lia].
    exfalso. rewrite Hweekend in Hopen; [discriminate |].
    replace (Scheduler.date_of now + 1 + 6)%Z
      with ((Scheduler.date_of now + 6) + 1)%Z by lia.
    rewrite Z.add_mod by discriminate.
    unfold Scheduler.weekday in Hfri. rewrite Hfri. cbn. lia.
Qed.

Lemma should_run_tonight_weeknights_witness :
  (forall d, (5 <= (d + 6) mod 7)%Z -> weekdays_only d = false)
  /\ Scheduler.should_run_tonight weekdays_only (sample_today * us_per_day)
     = true
  /\ Scheduler.get_next_trading_day weekdays_only (sample_today * us_per_day)
       None
     = Scheduler.at_midnight (sample_today + 1)
  /\ (0 <= Scheduler.weekday (sample_today * us_per_day) <= 3)%Z.
Proof.
  assert (Hweekend : forall d, (5 <= (d + 6) mod 7)%Z ->
                               weekdays_only d = false).
  { intros d Hd. unfold weekdays_only. apply Z.ltb_ge. exact Hd. }
  assert (Htonight : Scheduler.should_run_tonight weekdays_only
                       (sample_today * us_per_day) = true)
    by reflexivity.
  destruct (should_run_tonight_weeknights weekdays_only
              (sample_today * us_per_day)) as (_ & Hnext & Hdays).
  split; [exact Hweekend |]. split; [exact Htonight |]. split.
  - rewrite (Hnext Htonight). reflexivity.
  - exact (Hdays Hweekend Htonight).
Defined.

(** * The forward factor on unchecked inputs *)

(** * Positioning from the Yahoo calendar *)

(** X20: when the Yahoo lookup yields an earnings date and the three dates
    parse, [get_earnings_info] returns that date with front-is-pre iff
    front < earnings, back-is-post iff earnings < back and both-post iff
    earnings < front and earnings < back. All comparisons are strict: an
    earnings date that falls on the front expiration is classed neither as
    before nor as after it, and one that falls on the back expiration is
    not post-earnings for the back contract. *)
Theorem yahoo_positioning (strptime_ymd : string -> option Z)
    (scrape : string -> result (option string))
    (cache : list (string * string))
    (ticker front_date back_date earnings_date : string) (e f b : Z) :
  Yahoo.get_earnings_date scrape cache ticker = Ok (Some earnings_date) ->
  truthy_str (Some earnings_date) = true ->
  strptime_ymd earnings_date = Some e ->
  strptime_ymd front_date = Some f ->
  strptime_ymd back_date = Some b ->
  exists info,
    Yahoo.get_earnings_info strptime_ymd scrape cache
      ticker front_date back_date = Ok info
    /\ Yahoo.earnings_date info = Some earnings_date
    /\ (Yahoo.front_is_pre_earnings info = true <-> (f < e)%Z)
    /\ (Yahoo.back_is_post_earnings info = true <-> (e < b)%Z)
    /\ (Yahoo.both_post_earnings info = true <-> (e < f)%Z /\ (e < b)%Z)
    /\ (e = f ->
        Yahoo.front_is_pre_earnings info = false
        /\ Yahoo.both_post_earnings info = false)
    /\ (e = b ->
        Yahoo.back_is_post_earnings info = false
        /\ Yahoo.both_post_earnings info = false).
Proof.
  intros Hdate Htruthy He Hf Hb.
  unfold Yahoo.get_earnings_info. rewrite Hdate. cbn [bind].
  destruct earnings_date as [| c s]; [discriminate |].
  unfold Yahoo.strptime. rewrite He, Hf, Hb. cbn [bind try_except].
  assert (Hday : (0 < us_per_day)%Z) by reflexivity.
  eexists. split; [reflexivity |].
  cbn [Yahoo.earnings_date Yahoo.front_is_pre_earnings
       Yahoo.back_is_post_earnings Yahoo.both_post_earnings].
  split; [reflexivity |].
  rewrite !Z.gtb_ltb, andb_true_iff, !Z.ltb_lt.
  split; [split; intros H; nia |].
  split; [split; intros H; nia |].
  split; [split; intros [H1 H2]; split; nia |].
  split.
  - intros ->. rewrite Z.ltb_irrefl. auto.
  - intros ->. rewrite Z.ltb_irrefl, andb_false_r. auto.
Qed.

Lemma yahoo_positioning_witness :
  exists info,
    Yahoo.get_earnings_info strptime_iso sample_scrape []
      "PLTR" "2025-11-15" "2025-12-19" = Ok info
    /\ Yahoo.front_is_pre_earnings info = false
    /\ Yahoo.both_post_earnings info = false
    /\ Yahoo.back_is_post_earnings info = true.
Proof.
  destruct (yahoo_positioning strptime_iso sample_scrape [] "PLTR"
              "2025-11-15" "2025-12-19" "2025-11-15" 739570 739570 739604
              eq_refl eq_refl eq_refl eq_refl eq_refl)
    as (info & Hinfo & _ & _ & Hback & _ & Hsame & _).
  exists info. split; [exact Hinfo |].
  destruct (Hsame eq_refl) as [Hpre Hboth].
  split; [exact Hpre |]. split; [exact Hboth |].
  apply Hback. lia.
Defined.

(** * Properties in binary64 *)

Section Binary64Facts.

Import Binary64.

Variable libm_pow : float -> float -> float * bool.

Lemma truediv64_ok (x y : float) :
  is_zero y = false -> Binary64.truediv x y = Ok (div x y).
Proof. intros H. unfold Binary64.truediv. now rewrite H. Qed.

Lemma truediv64_zero (x y : float) :
  is_zero y = true ->
  Binary64.truediv x y = Raise (ZeroDivisionError "float division by zero").
Proof. intros H. unfold Binary64.truediv. now rewrite H. Qed.


Lemma ltb_zero_is_zero (x : float) : is_zero x = true -> ltb x zero = false.
Proof. destruct x as [s | s | | s m e]; try destruct s; cbn; congruence. Qed.

Lemma sub_nan (x : float) : sub x nan = nan.
Proof. now destruct x. Qed.

Lemma float_of_int_message (n : Z) (e : exn) :
  float_of_int n = Raise e -> has_message e.
Proof.
  unfold float_of_int. cbv zeta.
  destruct (is_infinity (of_Z n)); [| discriminate].
  intros H. injection H as <-. reflexivity.
Qed.

Lemma truediv64_message (x y : float) (e : exn) :
  Binary64.truediv x y = Raise e -> has_message e.
Proof.
  unfold Binary64.truediv. destruct (is_zero y); [| discriminate].
  intros H. injection H as <-. reflexivity.
Qed.

Lemma system_pow_message (x y : float) (e : exn) :
  system_pow libm_pow x y = Raise e -> has_message e.
Proof.
  unfold system_pow. destruct (libm_pow x y) as [ix erange].
  destruct (if erange then negb (is_zero ix) else is_infinity ix);
    [| discriminate].
  intros H. injection H as <-. reflexivity.
Qed.

Lemma float_pow_2_message (x : float) (e : exn) :
  float_pow_2 libm_pow x = Raise e -> has_message e.
Proof.
  unfold float_pow_2. destruct x as [s | s | | s m e']; try discriminate.
  cbv zeta. destruct (eqb _ _); [discriminate |]. apply system_pow_message.
Qed.

Lemma float_pow_half_message (x : float) (e : exn) :
  float_pow_half libm_pow x = Raise e -> has_message e.
Proof.
  unfold float_pow_half. destruct x as [s | s | | [|] m e']; try discriminate.
  destruct (eqb _ _); [discriminate |]. apply system_pow_message.
Qed.

Lemma bind_message {A B : Type} (c : result A) (k : A -> result B) (e : exn) :
  (forall e', c = Raise e' -> has_message e') ->
  (forall a e', c = Ok a -> k a = Raise e' -> has_message e') ->
  bind c k = Raise e -> has_message e.
Proof.
  intros Hc Hk. destruct c as [a | e']; cbn [bind]; intros H.
  - now apply (Hk a e).
  - injection H as <-. now apply Hc.
Qed.

Lemma T_message (dte : Z) (e : exn) :
  Spec64.T dte = Raise e -> has_message e.
Proof.
  unfold Spec64.T. apply bind_message.
  - apply float_of_int_message.
  - intros d e' _. apply truediv64_message.
Qed.

Lemma forward_variance_message
    (front_iv : float) (front_dte : Z) (back_iv : float) (back_dte : Z)
    (e : exn) :
  Spec64.forward_variance libm_pow front_iv front_dte back_iv back_dte
  = Raise e ->
  has_message e.
Proof.
  unfold Spec64.forward_variance.
  apply bind_message; [apply T_message | intros T1 ? _].
  apply bind_message; [apply T_message | intros T2 ? _].
  apply bind_message; [apply truediv64_message | intros sigma1 ? _].
  apply bind_message; [apply truediv64_message | intros sigma2 ? _].
  apply bind_message; [apply float_pow_2_message | intros square2 ? _].
  apply bind_message; [apply float_pow_2_message | intros square1 ? _].
  apply truediv64_message.
Qed.


(** The scanner's computation in binary64, by the steps of the formula. *)
Lemma calculate_forward_factor64_cases
    (front_iv : float) (front_dte : Z) (back_iv : float) (back_dte : Z) :
  Scanner64.calculate_forward_factor libm_pow
    front_iv front_dte back_iv back_dte =
  match Spec64.forward_variance libm_pow front_iv front_dte back_iv back_dte
  with
  | Raise e => Ok (None, None, Some (str e))
  | Ok forward_var =>
      if ltb forward_var zero
      then Ok (None, None, Some "Negative forward variance"%string)
      else
        match float_pow_half libm_pow forward_var with
        | Raise e => Ok (None, None, Some (str e))
        | Ok root =>
            match Binary64.truediv (sub (div front_iv (of_Z 100)) root) root
            with
            | Raise e => Ok (None, None, Some (str e))
            | Ok q =>
                Ok (Some (mul root (of_Z 100)), Some (mul q (of_Z 100)), None)
            end
        end
  end.
Proof.
  unfold Scanner64.calculate_forward_factor, Spec64.forward_variance,
    Spec64.T, Spec64.sigma.
  destruct (float_of_int front_dte) as [d1 | e]; [| reflexivity].
  cbn [bind].
  destruct (Binary64.truediv d1 (of_Z 365)) as [T1 | e]; [| reflexivity].
  cbn [bind].
  destruct (float_of_int back_dte) as [d2 | e]; [| reflexivity].
  cbn [bind].
  destruct (Binary64.truediv d2 (of_Z 365)) as [T2 | e]; [| reflexivity].
  cbn [bind].
  rewrite !(truediv64_ok _ (of_Z 100)) by reflexivity. cbn [bind].
  destruct (float_pow_2 libm_pow (div back_iv (of_Z 100)))
    as [square2 | e]; [| reflexivity].
  cbn [bind].
  destruct (float_pow_2 libm_pow (div front_iv (of_Z 100)))
    as [square1 | e]; [| reflexivity].
  cbn [bind].
  destruct (Binary64.truediv (sub (mul square2 T2) (mul square1 T1))
              (sub T2 T1)) as [forward_var | e]; [| reflexivity].
  cbn [bind]. destruct (ltb forward_var zero); [reflexivity |].
  destruct (float_pow_half libm_pow forward_var) as [root | e];
    [| reflexivity].
  cbn [bind].
  destruct (Binary64.truediv (sub (div front_iv (of_Z 100)) root) root)
    as [q | e]; reflexivity.
Qed.


(** Whatever the input, the scanner's computation returns: both values and
    no error, or neither value and an error that is not empty. *)
Lemma calculate_forward_factor64_outcome
    (front_iv : float) (front_dte : Z) (back_iv : float) (back_dte : Z) :
  (exists v f,
     Scanner64.calculate_forward_factor libm_pow
       front_iv front_dte back_iv back_dte = Ok (Some v, Some f, None))
  \/ (exists error,
        Scanner64.calculate_forward_factor libm_pow
          front_iv front_dte back_iv back_dte = Ok (None, None, Some error)
        /\ truthy_str (Some error) = true).
Proof.
  rewrite calculate_forward_factor64_cases.
  destruct (Spec64.forward_variance libm_pow front_iv front_dte
              back_iv back_dte) as [forward_var | e] eqn:Hvar.
  - destruct (ltb forward_var zero); [right; eexists; split; reflexivity |].
    destruct (float_pow_half libm_pow forward_var) as [root | e] eqn:Hroot.
    + destruct (Binary64.truediv (sub (div front_iv (of_Z 100)) root) root)
        as [q | e] eqn:Hq.
      * left. eauto.
      * right. eexists. split; [reflexivity |].
        exact (truediv64_message _ _ _ Hq).
    + right. eexists. split; [reflexivity |].
      exact (float_pow_half_message _ _ Hroot).
  - right. eexists. split; [reflexivity |].
    exact (forward_variance_message _ _ _ _ _ Hvar).
Qed.

Lemma calculate_forward_factor64_total
    (front_iv : float) (front_dte : Z) (back_iv : float) (back_dte : Z) :
  exists r,
    Scanner64.calculate_forward_factor libm_pow
      front_iv front_dte back_iv back_dte = Ok r.
Proof.
  destruct (calculate_forward_factor64_outcome front_iv front_dte
              back_iv back_dte) as [(v & f & ->) | (error & -> & _)]; eauto.
Qed.

(** A forward variance that is negative or zero gives an error. *)
Lemma calculate_forward_factor64_undefined
    (front_iv : float) (front_dte : Z) (back_iv : float) (back_dte : Z)
    (forward_var : float) :
  Spec64.forward_variance libm_pow front_iv front_dte back_iv back_dte
  = Ok forward_var ->
  ltb forward_var zero = true \/ is_zero forward_var = true ->
  exists error,
    Scanner64.calculate_forward_factor libm_pow
      front_iv front_dte back_iv back_dte = Ok (None, None, Some error)
    /\ truthy_str (Some error) = true.
Proof.
  intros Hvar Hsign. rewrite calculate_forward_factor64_cases, Hvar.
  destruct Hsign as [Hneg | Hzero].
  - rewrite Hneg. eexists. split; reflexivity.
  - rewrite (ltb_zero_is_zero _ Hzero).
    destruct forward_var as [s | s | | s m e]; try discriminate.
    cbn [float_pow_half].
    rewrite truediv64_zero by reflexivity.
    eexists. split; reflexivity.
Qed.

(** *** The loop of [find_best_pairs] *)

Lemma pair_step64_cons (x : Z * Scanner64.TermPoint)
    (l : list (Z * Scanner64.TermPoint)) (pairs : list Scanner64.Pair)
    (i : nat) :
  Scanner64.pair_step libm_pow (x :: l) pairs (S i)
  = Scanner64.pair_step libm_pow l pairs i.
Proof. reflexivity. Qed.

Lemma for_each_pair_step64_shift (x : Z * Scanner64.TermPoint)
    (l : list (Z * Scanner64.TermPoint)) (n k : nat)
    (acc : list Scanner64.Pair) :
  Scanner.for_each (Scanner64.pair_step libm_pow (x :: l)) (seq (S k) n) acc
  = Scanner.for_each (Scanner64.pair_step libm_pow l) (seq k n) acc.
Proof.
  revert k acc. induction n as [| n IH]; intros k acc; [reflexivity |].
  cbn [seq Scanner.for_each]. rewrite pair_step64_cons.
  destruct (Scanner64.pair_step libm_pow l acc k) as [acc' | e]; cbn [bind];
    [apply IH | reflexivity].
Qed.

Lemma pair_step64_head (front back : Z * Scanner64.TermPoint)
    (l : list (Z * Scanner64.TermPoint)) (pairs : list Scanner64.Pair) :
  Scanner64.pair_step libm_pow (front :: back :: l) pairs 0
  = Ok (pairs ++ pair_of64 libm_pow front back).
Proof.
  unfold Scanner64.pair_step, pair_of64. cbn [nth_error Nat.add].
  destruct front as [front_date front_data], back as [back_date back_data].
  cbn [fst snd].
  destruct (calculate_forward_factor64_total
              (Scanner64.iv front_data) (Scanner64.dte front_data)
              (Scanner64.iv back_data) (Scanner64.dte back_data))
    as [[[fwd_vol ff] error] ->].
  cbn [bind]. destruct (truthy_str error); [now rewrite app_nil_r | reflexivity].
Qed.

Lemma for_each_adjacent_pairs64 (l : list (Z * Scanner64.TermPoint))
    (acc : list Scanner64.Pair) :
  Scanner.for_each (Scanner64.pair_step libm_pow l)
    (seq 0 (List.length l - 1)) acc
  = Ok (acc ++ adjacent_pairs64 libm_pow l).
Proof.
  revert acc. induction l as [| front rest IH]; intros acc.
  - cbn. now rewrite app_nil_r.
  - destruct rest as [| back rest'].
    + cbn. now rewrite app_nil_r.
    + replace (List.length (front :: back :: rest') - 1)%nat
        with (S (List.length (back :: rest') - 1)) by (cbn; lia).
      cbn [seq Scanner.for_each]. rewrite pair_step64_head. cbn [bind].
      rewrite for_each_pair_step64_shift, IH.
      cbn [adjacent_pairs64]. now rewrite app_assoc.
Qed.

Lemma find_best_pairs64_adjacent
    (expirations : list (Z * Scanner64.TermPoint)) :
  Scanner64.find_best_pairs libm_pow expirations
  = Ok (adjacent_pairs64 libm_pow (Scanner64.sorted_by_dte expirations)).
Proof.
  unfold Scanner64.find_best_pairs. cbv zeta.
  now rewrite for_each_adjacent_pairs64.
Qed.

Lemma adjacent_pairs64_split (l1 : list (Z * Scanner64.TermPoint))
    (front back : Z * Scanner64.TermPoint)
    (l2 : list (Z * Scanner64.TermPoint)) :
  adjacent_pairs64 libm_pow (l1 ++ front :: back :: l2)
  = adjacent_pairs64 libm_pow (l1 ++ [front])
    ++ pair_of64 libm_pow front back
    ++ adjacent_pairs64 libm_pow (back :: l2).
Proof.
  induction l1 as [| x l1 IH].
  - reflexivity.
  - cbn [app]. destruct l1 as [| y l1'].
    + cbn [app] in *. cbn [adjacent_pairs64] in *. rewrite <- !app_assoc.
      reflexivity.
    + cbn [app] in *.
      change (adjacent_pairs64 libm_pow
                (x :: y :: l1' ++ front :: back :: l2))
        with (pair_of64 libm_pow x y
              ++ adjacent_pairs64 libm_pow (y :: l1' ++ front :: back :: l2)).
      change (adjacent_pairs64 libm_pow (x :: y :: l1' ++ [front]))
        with (pair_of64 libm_pow x y
              ++ adjacent_pairs64 libm_pow (y :: l1' ++ [front])).
      rewrite IH, <- !app_assoc. reflexivity.
Qed.


(** C2: [calculate_forward_factor] never raises. When the forward variance
    it computes is negative or exactly zero, it returns no forward_vol, no
    forward_factor and an error that is not empty. [find_best_pairs] never
    raises and emits exactly the entries of the adjacent pairs of the sorted
    ladder; for a pair with such a variance it emits nothing, and its output
    is the entries of the ladder up to the front followed by those of the
    ladder from the back on. *)
Theorem undefined_variance_skipped :
  (forall front_iv front_dte back_iv back_dte,
     exists r,
       Scanner64.calculate_forward_factor libm_pow
         front_iv front_dte back_iv back_dte = Ok r)
  /\ (forall front_iv front_dte back_iv back_dte forward_var,
        Spec64.forward_variance libm_pow front_iv front_dte back_iv back_dte
        = Ok forward_var ->
        ltb forward_var zero = true \/ is_zero forward_var = true ->
        exists error,
          Scanner64.calculate_forward_factor libm_pow
            front_iv front_dte back_iv back_dte = Ok (None, None, Some error)
          /\ truthy_str (Some error) = true)
  /\ (forall expirations,
        Scanner64.find_best_pairs libm_pow expirations
        = Ok (adjacent_pairs64 libm_pow
                (Scanner64.sorted_by_dte expirations)))
  /\ (forall expirations l1 front back l2 forward_var,
        Scanner64.sorted_by_dte expirations = l1 ++ front :: back :: l2 ->
        Spec64.forward_variance libm_pow
          (Scanner64.iv (snd front)) (Scanner64.dte (snd front))
          (Scanner64.iv (snd back)) (Scanner64.dte (snd back))
        = Ok forward_var ->
        ltb forward_var zero = true \/ is_zero forward_var = true ->
        pair_of64 libm_pow front back = []
        /\ Scanner64.find_best_pairs libm_pow expirations
           = Ok (adjacent_pairs64 libm_pow (l1 ++ [front])
                 ++ adjacent_pairs64 libm_pow (back :: l2))).
Proof.
  split; [exact calculate_forward_factor64_total |].
  split; [exact calculate_forward_factor64_undefined |].
  split; [exact find_best_pairs64_adjacent |].
  intros expirations l1 front back l2 forward_var Hsorted Hvar Hsign.
  assert (Hnil : pair_of64 libm_pow front back = []).
  { unfold pair_of64.
    destruct (calculate_forward_factor64_undefined _ _ _ _ _ Hvar Hsign)
      as (error & -> & Htruthy).
    now rewrite Htruthy. }
  split; [exact Hnil |].
  rewrite find_best_pairs64_adjacent, Hsorted, adjacent_pairs64_split, Hnil.
  reflexivity.
Qed.


End Binary64Facts.

(** * The quality filter in binary64 *)

Lemma verify_forward_factor64_cases (opp : Nightly64.Opportunity) :
  Nightly64.verify_forward_factor opp =
  Ok (if Binary64.is_zero (Nightly64.forward_vol opp)
      then (Binary64.zero, false)
      else (rederived_forward_factor64 opp, within_tolerance opp)).
Proof.
  unfold Nightly64.verify_forward_factor, within_tolerance,
    rederived_forward_factor64.
  destruct (Binary64.is_zero (Nightly64.forward_vol opp)) eqn:Hz;
    [reflexivity |].
  rewrite truediv64_ok by exact Hz. reflexivity.
Qed.

Lemma reports_mismatch_app (l1 l2 : list Nightly64.Reason) :
  reports_mismatch (l1 ++ l2) = reports_mismatch l1 || reports_mismatch l2.
Proof. apply existsb_app. Qed.

Lemma reports_mismatch_append_if (cond : bool) (reason : Nightly64.Reason)
    (l : list Nightly64.Reason) :
  reports_mismatch (Nightly64.append_if cond reason l)
  = reports_mismatch l || (cond && reports_mismatch [reason]).
Proof.
  unfold Nightly64.append_if. destruct cond.
  - now rewrite reports_mismatch_app.
  - now rewrite orb_false_r.
Qed.

Lemma append_if_nil (cond : bool) (reason : Nightly64.Reason)
    (l : list Nightly64.Reason) :
  Nightly64.append_if cond reason l = [] <-> cond = false /\ l = [].
Proof.
  unfold Nightly64.append_if. destruct cond.
  - split; [| intros [H _]; discriminate].
    intros H. apply app_eq_nil in H. destruct H as [_ H]. discriminate.
  - tauto.
Qed.

(** The filter in closed form: it never raises, and its reasons are those of
    the gates in order. *)
Lemma apply_quality_filters64_cases (opp : Nightly64.Opportunity)
    (earnings_info : option Nightly.EarningsInfo) :
  exists reasons,
    Nightly64.apply_quality_filters opp earnings_info
    = Ok ((List.length reasons =? 0)%nat, reasons)
    /\ reports_mismatch reasons = negb (verifier_matches opp)
    /\ (reasons = [] <->
        Binary64.ltb (Binary64.abs (Nightly64.forward_factor opp))
          (Binary64.of_Z 30) = false
        /\ (7 <= Nightly64.front_dte opp <= 180)%Z
        /\ Binary64.ltb (Nightly64.front_iv opp) (Binary64.of_Z 15) = false
        /\ Binary64.ltb (Binary64.of_Z 150) (Nightly64.front_iv opp) = false
        /\ (Nightly64.has_earnings_soon opp = true ->
            Binary64.ltb (Nightly64.back_iv opp) (Nightly64.front_iv opp)
            = true ->
            Binary64.ltb (Binary64.abs (Nightly64.forward_factor opp))
              (Binary64.of_Z 40) = false)
        /\ verifier_matches opp = true
        /\ (3 <= Nightly64.back_dte opp - Nightly64.front_dte opp)%Z).
Proof.
  unfold Nightly64.apply_quality_filters. cbv zeta.
  rewrite verify_forward_factor64_cases. cbn [bind].
  unfold Nightly64.MIN_FORWARD_FACTOR, Nightly64.MIN_IV, Nightly64.MAX_IV,
    Nightly64.MIN_DTE, Nightly64.MAX_DTE, Nightly64.get_dte_diff,
    Nightly64.is_inverted, verifier_matches.
  set (ff_low := Binary64.ltb (Binary64.abs (Nightly64.forward_factor opp))
                   (Binary64.of_Z 30)).
  set (iv_low := Binary64.ltb (Nightly64.front_iv opp) (Binary64.of_Z 15)).
  set (iv_high := Binary64.ltb (Binary64.of_Z 150) (Nightly64.front_iv opp)).
  set (inverted := Binary64.ltb (Nightly64.back_iv opp)
                     (Nightly64.front_iv opp)).
  set (ff_weak := Binary64.ltb (Binary64.abs (Nightly64.forward_factor opp))
                    (Binary64.of_Z 40)).
  set (vol_zero := Binary64.is_zero (Nightly64.forward_vol opp)).
  set (tol := within_tolerance opp).
  set (calc := rederived_forward_factor64 opp).
  destruct vol_zero; cbv iota; (eexists; split; [reflexivity |]); split.
  all: rewrite ?reports_mismatch_append_if.
  all: try (destruct (Nightly64.has_earnings_soon opp && inverted);
            rewrite ?reports_mismatch_append_if;
            cbn [reports_mismatch existsb negb andb orb];
            destruct ff_low, iv_low, iv_high, ff_weak, tol,
              (Nightly64.front_dte opp <? 7)%Z,
              (Nightly64.front_dte opp >? 180)%Z,
              (Nightly64.back_dte opp - Nightly64.front_dte opp <? 3)%Z;
            reflexivity).
  all: rewrite !append_if_nil.
  all: destruct (Nightly64.has_earnings_soon opp) eqn:Hsoon;
    destruct inverted eqn:Hinv; cbn [andb negb];
    rewrite ?append_if_nil;
    rewrite ?Z.ltb_ge, ?Z.gtb_ltb, ?Z.ltb_ge, ?negb_false_iff.
  all: try (split;
            [ intros H; decompose [and] H; clear H;
              repeat split; try assumption; try lia; try congruence;
              try discriminate
            | intros H; decompose [and] H; clear H;
              repeat split; try assumption; try lia; try congruence;
              try discriminate; auto ]).
Qed.

(** *** Order of doubles *)

Lemma SFcompare_antisym (x y : Binary64.float) :
  SFcompare y x = option_map CompOpp (SFcompare x y).
Proof.
  destruct x as [sx | sx | | sx mx ex], y as [sy | sy | | sy my ey];
    try destruct sx; try destruct sy; try reflexivity.
  - cbn. rewrite (Z.compare_antisym ey ex).
    destruct (ey ?= ex)%Z; cbn; try reflexivity.
    now rewrite (Pos.compare_cont_antisym mx my Eq).
  - cbn. rewrite (Z.compare_antisym ey ex).
    destruct (ey ?= ex)%Z; cbn; try reflexivity.
    now rewrite (Pos.compare_cont_antisym mx my Eq).
Qed.

Lemma ltb_false_leb (x y : Binary64.float) :
  Binary64.is_nan x = false -> Binary64.is_nan y = false ->
  Binary64.ltb x y = false -> Binary64.leb y x = true.
Proof.
  unfold Binary64.ltb, Binary64.leb, SFltb, SFleb.
  rewrite (SFcompare_antisym x y).
  destruct x as [sx | sx | | sx mx ex], y as [sy | sy | | sy my ey];
    try discriminate; intros _ _;
    destruct (SFcompare _ _) as [[| |] |] eqn:Hc; cbn;
    try congruence; try reflexivity; cbn in Hc; try discriminate;
    repeat match type of Hc with
           | context [if ?b then _ else _] => destruct b
           end; discriminate.
Qed.

Lemma leb_ltb_false (x y : Binary64.float) :
  Binary64.leb y x = true -> Binary64.ltb x y = false.
Proof.
  unfold Binary64.ltb, Binary64.leb, SFltb, SFleb.
  rewrite (SFcompare_antisym x y).
  destruct (SFcompare x y) as [[| |] |]; cbn; congruence.
Qed.

(** *** NaN through the verifier *)

Lemma div_nan_r (x : Binary64.float) :
  Binary64.div x Binary64.nan = Binary64.nan.
Proof. now destruct x. Qed.

Lemma is_nan_abs (x : Binary64.float) :
  Binary64.is_nan (Binary64.abs x) = Binary64.is_nan x.
Proof. now destruct x. Qed.

(** A re-derivation within tolerance involves no NaN. *)
Lemma within_tolerance_not_nan (opp : Nightly64.Opportunity) :
  within_tolerance opp = true ->
  Binary64.is_nan (Nightly64.forward_factor opp) = false
  /\ Binary64.is_nan (Nightly64.front_iv opp) = false
  /\ Binary64.is_nan (Nightly64.forward_vol opp) = false.
Proof.
  unfold within_tolerance, rederived_forward_factor64.
  intros Htol. repeat split.
  - destruct (Nightly64.forward_factor opp); try reflexivity.
    fold Binary64.nan in Htol. rewrite sub_nan in Htol. discriminate.
  - destruct (Nightly64.front_iv opp); try reflexivity. discriminate.
  - destruct (Nightly64.forward_vol opp); try reflexivity.
    fold Binary64.nan in Htol. rewrite div_nan_r in Htol. discriminate.
Qed.

(** C4, as the code has it: the verifier re-derives the forward factor in
    binary64 as [((front_iv / forward_vol) - 1) * 100] from the stored front
    IV and the stored forward volatility, reading no DTE and no back IV; the
    filter never raises, and it reports a calculation mismatch exactly when
    the stored forward volatility is 0 or the test [|re-derived - stored| <
    2.0] on the computed doubles fails, as it does on a NaN; a mismatch
    makes the opportunity not quality. *)
Theorem consistency_gate_uses_stored_forward_vol
    (opp : Nightly64.Opportunity)
    (earnings_info : option Nightly.EarningsInfo) :
  Nightly64.verify_forward_factor opp =
    Ok (if Binary64.is_zero (Nightly64.forward_vol opp)
        then (Binary64.zero, false)
        else (rederived_forward_factor64 opp, within_tolerance opp))
  /\ exists is_quality reasons,
       Nightly64.apply_quality_filters opp earnings_info
       = Ok (is_quality, reasons)
       /\ (reports_mismatch reasons = true <->
           Binary64.is_zero (Nightly64.forward_vol opp) = true
           \/ within_tolerance opp = false)
       /\ (Binary64.is_nan (Nightly64.forward_factor opp) = true
           \/ Binary64.is_nan (Nightly64.front_iv opp) = true
           \/ Binary64.is_nan (Nightly64.forward_vol opp) = true ->
           reports_mismatch reasons = true)
       /\ (reports_mismatch reasons = true -> is_quality = false).
Proof.
  split; [apply verify_forward_factor64_cases |].
  destruct (apply_quality_filters64_cases opp earnings_info)
    as (reasons & Hrun & Hmis & _).
  exists (List.length reasons =? 0)%nat, reasons.
  assert (Hiff : reports_mismatch reasons = true <->
                 Binary64.is_zero (Nightly64.forward_vol opp) = true
                 \/ within_tolerance opp = false).
  { rewrite Hmis. unfold verifier_matches.
    destruct (Binary64.is_zero (Nightly64.forward_vol opp)),
      (within_tolerance opp); cbn; intuition congruence. }
  split; [exact Hrun |]. split; [exact Hiff |]. split.
  - intros Hnan. apply Hiff. right.
    destruct (within_tolerance opp) eqn:Htol; [| reflexivity].
    destruct (within_tolerance_not_nan opp Htol) as (Hff & Hiv & Hvol).
    destruct Hnan as [H | [H | H]]; congruence.
  - intros H. destruct reasons; [discriminate | reflexivity].
Qed.

(** X7: the filter accepts an opportunity (true, with no reason) exactly
    when, on the stored doubles, [30 <= |forward_factor|],
    [7 <= front_dte <= 180], [15 <= front_iv <= 150],
    [40 <= |forward_factor|] if earnings are soon and the structure is
    inverted, the stored forward volatility is not 0, the re-derived value
    tests less than 2.0 away from the stored one, and
    [back_dte - front_dte >= 3]. An accepted opportunity holds no NaN in its
    forward factor, front IV or forward volatility. *)
Theorem quality_acceptance_region (opp : Nightly64.Opportunity)
    (earnings_info : option Nightly.EarningsInfo) :
  (Nightly64.apply_quality_filters opp earnings_info = Ok (true, []) <->
   Binary64.leb (Binary64.of_Z 30)
     (Binary64.abs (Nightly64.forward_factor opp)) = true
   /\ (7 <= Nightly64.front_dte opp <= 180)%Z
   /\ Binary64.leb (Binary64.of_Z 15) (Nightly64.front_iv opp) = true
   /\ Binary64.leb (Nightly64.front_iv opp) (Binary64.of_Z 150) = true
   /\ (Nightly64.has_earnings_soon opp = true ->
       Binary64.ltb (Nightly64.back_iv opp) (Nightly64.front_iv opp) = true ->
       Binary64.leb (Binary64.of_Z 40)
         (Binary64.abs (Nightly64.forward_factor opp)) = true)
   /\ Binary64.is_zero (Nightly64.forward_vol opp) = false
   /\ within_tolerance opp = true
   /\ (3 <= Nightly64.back_dte opp - Nightly64.front_dte opp)%Z)
  /\ (Nightly64.apply_quality_filters opp earnings_info = Ok (true, []) ->
      Binary64.is_nan (Nightly64.forward_factor opp) = false
      /\ Binary64.is_nan (Nightly64.front_iv opp) = false
      /\ Binary64.is_nan (Nightly64.forward_vol opp) = false).
Proof.
  destruct (apply_quality_filters64_cases opp earnings_info)
    as (reasons & Hrun & _ & Hnil).
  assert (Hacc : Nightly64.apply_quality_filters opp earnings_info
                 = Ok (true, []) <-> reasons = []).
  { rewrite Hrun. split.
    - intros H. now injection H.
    - intros ->. reflexivity. }
  assert (Hmatch : verifier_matches opp = true <->
                   Binary64.is_zero (Nightly64.forward_vol opp) = false
                   /\ within_tolerance opp = true).
  { unfold verifier_matches. rewrite andb_true_iff, negb_true_iff. tauto. }
  assert (Hnan : reasons = [] ->
                 Binary64.is_nan (Nightly64.forward_factor opp) = false
                 /\ Binary64.is_nan (Nightly64.front_iv opp) = false
                 /\ Binary64.is_nan (Nightly64.forward_vol opp) = false).
  { intros H. apply Hnil in H.
    destruct H as (_ & _ & _ & _ & _ & H & _).
    apply Hmatch in H. now apply within_tolerance_not_nan. }
  split; [| rewrite Hacc; exact Hnan].
  rewrite Hacc. split.
  - intros Hr. destruct (Hnan Hr) as (Hff & Hiv & _).
    apply Hnil in Hr.
    destruct Hr as (H30 & Hdte & H15 & H150 & H40 & Hm & Hdiff).
    apply Hmatch in Hm. destruct Hm as [Hz Htol].
    assert (Habs : Binary64.is_nan
                     (Binary64.abs (Nightly64.forward_factor opp)) = false)
      by now rewrite is_nan_abs.
    split; [now apply ltb_false_leb |]. split; [exact Hdte |].
    split; [now apply ltb_false_leb |]. split; [now apply ltb_false_leb |].
    split; [| now repeat split].
    intros Hsoon Hinv. apply ltb_false_leb; auto.
  - intros (H30 & Hdte & H15 & H150 & H40 & Hz & Htol & Hdiff).
    apply Hnil.
    split; [now apply leb_ltb_false |]. split; [exact Hdte |].
    split; [now apply leb_ltb_false |]. split; [now apply leb_ltb_false |].
    split; [| split; [now apply Hmatch | exact Hdiff]].
    intros Hsoon Hinv. apply leb_ltb_false; auto.
Qed.

(** ** Parsing a scan in binary64 *)

Lemma escapes_not_handled (e : exn) :
  escapes_parse e -> Nightly64.KeyError_or_ValueError e = false.
Proof. intros [-> | [msg ->]]; reflexivity. Qed.

Lemma raises_only_subscript64 {A : Type} (key : string) (v : option A) :
  raises_only handled_or_escapes (Nightly.subscript key v).
Proof.
  intros e. destruct v; cbn; [discriminate |].
  intros H. injection H as <-. now right.
Qed.

Lemma raises_only_float_of_int (z : Z) :
  raises_only handled_or_escapes (Binary64.float_of_int z).
Proof.
  intros e. unfold Binary64.float_of_int. cbv zeta.
  destruct (Binary64.is_infinity (Binary64.of_Z z)); [| discriminate].
  intros H. injection H as <-. left. right. eauto.
Qed.

Lemma raises_only_int_of_float (x : Binary64.float) :
  raises_only handled_or_escapes (Binary64.int_of_float x).
Proof.
  intros e. destruct x; cbn; try discriminate; intros H; injection H as <-.
  - left. right. eauto.
  - now right.
Qed.

Section Parsing64.

Variable parse_float : string -> option Binary64.float.
Variable parse_int : string -> option Z.

Lemma raises_only_py_float64 (v : Nightly64.json) :
  raises_only handled_or_escapes (Nightly64.py_float parse_float v).
Proof.
  destruct v as [| b | z | x | s | |]; cbn [Nightly64.py_float];
    try (intros e H; injection H as <-; left; now left);
    try (intros e H; discriminate).
  - apply raises_only_float_of_int.
  - intros e. destruct (parse_float s); [discriminate |].
    intros H. injection H as <-. now right.
Qed.

Lemma raises_only_py_int64 (v : Nightly64.json) :
  raises_only handled_or_escapes (Nightly64.py_int parse_int v).
Proof.
  destruct v as [| b | z | x | s | |]; cbn [Nightly64.py_int];
    try (intros e H; injection H as <-; left; now left);
    try (intros e H; discriminate).
  - apply raises_only_int_of_float.
  - intros e. destruct (parse_int s); [discriminate |].
    intros H. injection H as <-. now right.
Qed.

Lemma raises_only_build64 (scan_data : Nightly64.ScanData)
    (entry : Nightly64.Raw.Entry) :
  raises_only handled_or_escapes
    (Nightly64.build_opportunity parse_float parse_int scan_data entry).
Proof.
  unfold Nightly64.build_opportunity.
  repeat (apply raises_only_bind;
          [first [apply raises_only_subscript64 | apply raises_only_py_float64
                 | apply raises_only_py_int64 | idtac] | intros ?]);
    try apply raises_only_Ok.
  - intros e. destruct (Nightly64.scan scan_data); cbn; try discriminate.
    intros H. injection H as <-. now right.
  - intros e.
    match goal with
    | |- not_none ?v = _ -> _ => destruct v; cbn; [discriminate |]
    end.
    intros H. injection H as <-. left. now left.
Qed.

(** One step of the loop: the entry is built, or skipped, or an exception
    escapes. *)
Lemma parse_step64 (scan_data : Nightly64.ScanData)
    (entry : Nightly64.Raw.Entry) :
  match try_except
          (opportunity <-
             Nightly64.build_opportunity parse_float parse_int
               scan_data entry ;;
           Ok (Some opportunity))
          Nightly64.KeyError_or_ValueError (fun _ => Ok None) with
  | Ok (Some opp) =>
      Nightly64.build_opportunity parse_float parse_int scan_data entry
      = Ok opp
  | Ok None =>
      exists e,
        Nightly64.build_opportunity parse_float parse_int scan_data entry
        = Raise e
        /\ Nightly64.KeyError_or_ValueError e = true
  | Raise e =>
      escapes_parse e
      /\ Nightly64.build_opportunity parse_float parse_int scan_data entry
         = Raise e
  end.
Proof.
  pose proof (raises_only_build64 scan_data entry) as Hraise.
  destruct (Nightly64.build_opportunity parse_float parse_int scan_data entry)
    as [opp | e]; cbn; [reflexivity |].
  destruct (Hraise e eq_refl) as [Hesc | Hh].
  - rewrite (escapes_not_handled _ Hesc). auto.
  - rewrite Hh. eauto.
Qed.

Lemma parse_each64_spec (scan_data : Nightly64.ScanData)
    (entries : list Nightly64.Raw.Entry)
    (acc : list Nightly64.Opportunity) :
  match Nightly64.parse_each parse_float parse_int scan_data entries acc with
  | Ok out =>
      exists kept,
        out = acc ++ kept
        /\ (List.length kept <= List.length entries)%nat
        /\ (forall opp,
              In opp kept ->
              exists entry,
                In entry entries
                /\ Nightly64.build_opportunity parse_float parse_int
                     scan_data entry = Ok opp)
        /\ (forall entry e,
              In entry entries ->
              Nightly64.build_opportunity parse_float parse_int
                scan_data entry = Raise e ->
              Nightly64.KeyError_or_ValueError e = true)
  | Raise e =>
      escapes_parse e
      /\ exists entry,
           In entry entries
           /\ Nightly64.build_opportunity parse_float parse_int
                scan_data entry = Raise e
  end.
Proof.
  revert acc. induction entries as [| entry rest IH]; intros acc.
  - cbn. exists []. rewrite app_nil_r. repeat split; auto; intros ? [].
  - cbn [Nightly64.parse_each].
    pose proof (parse_step64 scan_data entry) as Hstep.
    destruct (try_except _ _ _) as [[opp |] | e]; cbn [bind].
    + specialize (IH (acc ++ [opp])).
      destruct (Nightly64.parse_each _ _ _ rest _) as [out | e].
      * destruct IH as (kept & -> & Hlen & Hfrom & Hnot).
        exists (opp :: kept). rewrite <- app_assoc. split; [reflexivity |].
        split; [cbn; lia |]. split.
        -- intros o [<- | Ho]; [exists entry; split; [now left | exact Hstep] |].
           destruct (Hfrom o Ho) as (en & Hin & Hb). exists en.
           split; [now right | exact Hb].
        -- intros en e [<- | Hin] Hb;
             [rewrite Hstep in Hb; discriminate | now apply (Hnot en)].
      * destruct IH as (Hesc & en & Hin & Hb). split; [exact Hesc |].
        exists en. split; [now right | exact Hb].
    + specialize (IH acc).
      destruct (Nightly64.parse_each _ _ _ rest _) as [out | e].
      * destruct IH as (kept & -> & Hlen & Hfrom & Hnot).
        exists kept. split; [reflexivity |]. split; [cbn; lia |]. split.
        -- intros o Ho. destruct (Hfrom o Ho) as (en & Hin & Hb). exists en.
           split; [now right | exact Hb].
        -- intros en e [<- | Hin] Hb; [| now apply (Hnot en)].
           destruct Hstep as (e' & He' & Hh). rewrite He' in Hb.
           now injection Hb as <-.
      * destruct IH as (Hesc & en & Hin & Hb). split; [exact Hesc |].
        exists en. split; [now right | exact Hb].
    + destruct Hstep as [Hesc Hb]. split; [exact Hesc |].
      exists entry. split; [now left | exact Hb].
Qed.

Lemma earnings_flag64_true (v : option Nightly64.json) :
  Nightly64.earnings_flag v = true <-> v = Some (Nightly64.JStr "true").
Proof.
  unfold Nightly64.earnings_flag. destruct v as [[| b | z | x | s | |] |];
    try (split; [discriminate | intros H; discriminate]).
  rewrite String.eqb_eq. split; [now intros -> | intros H; now injection H].
Qed.

Lemma build_opportunity64_inv (scan_data : Nightly64.ScanData)
    (entry : Nightly64.Raw.Entry) (opp : Nightly64.Opportunity) :
  Nightly64.build_opportunity parse_float parse_int scan_data entry = Ok opp ->
  Nightly64.Raw.ticker entry = Some (Nightly64.ticker opp)
  /\ Nightly64.Raw.id entry = Some (Nightly64.opportunity_id opp)
  /\ (exists info,
        Nightly64.scan scan_data = Val info
        /\ Nightly.id info = Some (Nightly64.scan_id opp))
  /\ (Nightly64.has_earnings_soon opp = true <->
      Nightly64.Raw.has_earnings_soon entry = Some (Nightly64.JStr "true")).
Proof.
  unfold Nightly64.build_opportunity. intros H. bind_inv H.
  injection H as <-.
  cbn [Nightly64.ticker Nightly64.opportunity_id Nightly64.scan_id
       Nightly64.has_earnings_soon].
  repeat match goal with
         | E : Nightly.subscript _ ?v = Ok _ |- _ =>
             let Hv := fresh "Hv" in
             destruct v eqn:Hv; cbn in E; [injection E as -> | discriminate E]
         end.
  split; [reflexivity |]. split; [reflexivity |]. split.
  - destruct (Nightly64.scan scan_data) as [| | info]; cbn in *;
      try discriminate;
      match goal with
      | E : Ok _ = Ok ?v |- _ => injection E as <-
      end;
      cbn in *; try discriminate.
    match goal with
    | E : Ok _ = Ok _ |- _ => injection E as <-
    end.
    eexists. split; [reflexivity | eassumption].
  - apply earnings_flag64_true.
Qed.

(** An entry whose construction raises an exception the handler does not
    catch aborts the parse. *)
Lemma unhandled_entry_aborts (scan_data : Nightly64.ScanData)
    (entries : list Nightly64.Raw.Entry) (entry : Nightly64.Raw.Entry)
    (e : exn) :
  Nightly64.opportunities scan_data = Val entries ->
  In entry entries ->
  Nightly64.build_opportunity parse_float parse_int scan_data entry
  = Raise e ->
  Nightly64.KeyError_or_ValueError e = false ->
  exists e',
    Nightly64.parse_opportunities parse_float parse_int scan_data = Raise e'
    /\ escapes_parse e'.
Proof.
  intros Hentries Hin Hbuild Hunhandled. unfold Nightly64.parse_opportunities.
  rewrite Hentries.
  pose proof (parse_each64_spec scan_data entries []) as Hspec.
  destruct (Nightly64.parse_each parse_float parse_int scan_data entries [])
    as [out | e'].
  - destruct Hspec as (kept & _ & _ & _ & Hnot).
    rewrite (Hnot entry e Hin Hbuild) in Hunhandled. discriminate.
  - destruct Hspec as [Hesc _]. eauto.
Qed.

(** X13: [parse_opportunities] lets no exception escape but [TypeError] and
    [OverflowError] (an integer beyond the range of a double given to
    [float], an infinite double given to [int]). When it returns, it holds
    at most one opportunity per entry, each built from an entry that has its
    ticker and id, with the scan's id (so without [scan] nothing is parsed);
    and [has_earnings_soon] is true only for the string ['true']: a JSON
    [true] reads as false. *)
Theorem parse_opportunities_robust (scan_data : Nightly64.ScanData) :
  (forall e,
     Nightly64.parse_opportunities parse_float parse_int scan_data = Raise e ->
     escapes_parse e)
  /\ (forall out,
        Nightly64.parse_opportunities parse_float parse_int scan_data
        = Ok out ->
        (forall entries,
           Nightly64.opportunities scan_data = Val entries ->
           (List.length out <= List.length entries)%nat)
        /\ (Nightly64.scan scan_data = Missing -> out = [])
        /\ forall opp,
             In opp out ->
             exists entries entry info,
               Nightly64.opportunities scan_data = Val entries
               /\ In entry entries
               /\ Nightly64.Raw.ticker entry = Some (Nightly64.ticker opp)
               /\ Nightly64.Raw.id entry
                  = Some (Nightly64.opportunity_id opp)
               /\ Nightly64.scan scan_data = Val info
               /\ Nightly.id info = Some (Nightly64.scan_id opp)
               /\ (Nightly64.has_earnings_soon opp = true <->
                   Nightly64.Raw.has_earnings_soon entry
                   = Some (Nightly64.JStr "true"))).
Proof.
  unfold Nightly64.parse_opportunities.
  destruct (Nightly64.opportunities scan_data) as [| | entries] eqn:Hentries.
  - split; [discriminate |]. intros out H. injection H as <-.
    split; [discriminate |]. split; [reflexivity |]. intros opp [].
  - split; [intros e H; injection H as <-; now left |]. discriminate.
  - pose proof (parse_each64_spec scan_data entries []) as Hspec.
    destruct (Nightly64.parse_each parse_float parse_int scan_data entries [])
      as [out | e].
    + split; [discriminate |]. intros out' H. injection H as <-.
      destruct Hspec as (kept & -> & Hlen & Hfrom & _). cbn [app].
      assert (Hentry : forall opp,
                In opp kept ->
                exists entries' entry info,
                  Val entries = Val entries'
                  /\ In entry entries'
                  /\ Nightly64.Raw.ticker entry = Some (Nightly64.ticker opp)
                  /\ Nightly64.Raw.id entry
                     = Some (Nightly64.opportunity_id opp)
                  /\ Nightly64.scan scan_data = Val info
                  /\ Nightly.id info = Some (Nightly64.scan_id opp)
                  /\ (Nightly64.has_earnings_soon opp = true <->
                      Nightly64.Raw.has_earnings_soon entry
                      = Some (Nightly64.JStr "true"))).
      { intros opp Hin. destruct (Hfrom opp Hin) as (entry & Hentry & Hbuild).
        destruct (build_opportunity64_inv _ _ _ Hbuild)
          as (Ht & Hid & (info & Hscan & Hsid) & Hflag).
        exists entries, entry, info. auto 10. }
      split; [intros entries' H; injection H as <-; exact Hlen |].
      split; [| exact Hentry].
      intros Hmissing. destruct kept as [| opp kept]; [reflexivity |].
      destruct (Hentry opp (or_introl eq_refl))
        as (_ & _ & info & _ & _ & _ & _ & Hscan & _).
      congruence.
    + destruct Hspec as [Hesc _].
      split; [intros e' H; now injection H as <- |]. discriminate.
Qed.

(** X14: one bad number aborts the whole parse. If any entry holds a ticker
    and a forward factor that is [null], or an integer beyond the range of
    a double, [parse_opportunities] does not return: it raises a
    [TypeError] or an [OverflowError], which its handler for [KeyError] and
    [ValueError] does not catch, and no opportunity of the scan is
    returned. *)
Theorem bad_number_aborts_parse (scan_data : Nightly64.ScanData)
    (entries : list Nightly64.Raw.Entry) (entry : Nightly64.Raw.Entry)
    (t : string) :
  Nightly64.opportunities scan_data = Val entries ->
  In entry entries ->
  Nightly64.Raw.ticker entry = Some t ->
  Nightly64.Raw.forward_factor entry = Some Nightly64.JNull
  \/ (exists z,
        Nightly64.Raw.forward_factor entry = Some (Nightly64.JInt z)
        /\ Binary64.is_infinity (Binary64.of_Z z) = true) ->
  exists e,
    Nightly64.parse_opportunities parse_float parse_int scan_data = Raise e
    /\ escapes_parse e.
Proof.
  intros Hentries Hin Ht [Hff | (z & Hff & Hbig)].
  - apply (unhandled_entry_aborts scan_data entries entry TypeError);
      try assumption; [| reflexivity].
    unfold Nightly64.build_opportunity. rewrite Ht, Hff. reflexivity.
  - apply (unhandled_entry_aborts scan_data entries entry
             (OverflowError "int too large to convert to float"));
      try assumption; [| reflexivity].
    unfold Nightly64.build_opportunity. rewrite Ht, Hff.
    cbn [Nightly.subscript bind Nightly64.py_float].
    unfold Binary64.float_of_int. cbv zeta. now rewrite Hbig.
Qed.

End Parsing64.

(** ** The binary64 functions on sample data *)


(** The variance of 10.0 at 49 days against 7.000000000000001 at 100 days
    is above 0 in exact arithmetic and below 0 as computed; that of 11 at 25
    days against 5 at 121 days is 0 in exact arithmetic and above 0 as
    computed. The code follows the computed value. *)
Lemma computed_variance_decides :
  Scanner64.calculate_forward_factor sample_libm_pow
    (Binary64.of_Z 10) 49
    (Binary64.decimal 7000000000000001 1000000000000000) 100
  = Ok (None, None, Some "Negative forward variance"%string)
  /\ Scanner64.calculate_forward_factor sample_libm_pow
       (Binary64.of_Z 11) 25 (Binary64.of_Z 5) 121
     = Ok (Some (S754_finite false 6860576645612930 (-76)),
           Some (S754_finite false 6351578194380848 (-19)), None).
Proof. split; vm_compute; reflexivity. Qed.

Lemma undefined_variance_skipped_witness :
  Scanner64.sorted_by_dte sample_ladder64 =
    [] ++ (100%Z, term_point64 40 1 30) :: (130%Z, term_point64 20 1 60)
          :: [(160%Z, term_point64 20 1 90)]
  /\ Spec64.forward_variance sample_libm_pow
       (Binary64.decimal 40 1) 30 (Binary64.decimal 20 1) 60
     = Ok (S754_finite true 5764607523034236 (-56))
  /\ pair_of64 sample_libm_pow
       (100%Z, term_point64 40 1 30) (130%Z, term_point64 20 1 60) = []
  /\ Scanner64.find_best_pairs sample_libm_pow sample_ladder64 =
     Ok (adjacent_pairs64 sample_libm_pow
           ([] ++ [(100%Z, term_point64 40 1 30)])
         ++ adjacent_pairs64 sample_libm_pow
              [(130%Z, term_point64 20 1 60); (160%Z, term_point64 20 1 90)])
  /\ exists error,
       Scanner64.calculate_forward_factor sample_libm_pow
         Binary64.zero 30 Binary64.zero 60 = Ok (None, None, Some error).
Proof.
  assert (Hsorted : Scanner64.sorted_by_dte sample_ladder64 =
            [] ++ (100%Z, term_point64 40 1 30)
                  :: (130%Z, term_point64 20 1 60)
                  :: [(160%Z, term_point64 20 1 90)])
    by reflexivity.
  assert (Hvar : Spec64.forward_variance sample_libm_pow
                   (Binary64.decimal 40 1) 30 (Binary64.decimal 20 1) 60
                 = Ok (S754_finite true 5764607523034236 (-56)))
    by (vm_compute; reflexivity).
  assert (Hzero : Spec64.forward_variance sample_libm_pow
                    Binary64.zero 30 Binary64.zero 60 = Ok Binary64.zero)
    by (vm_compute; reflexivity).
  destruct (undefined_variance_skipped sample_libm_pow)
    as (_ & Hundef & _ & Hskip).
  split; [exact Hsorted |]. split; [exact Hvar |].
  destruct (Hskip sample_ladder64 [] (100%Z, term_point64 40 1 30)
              (130%Z, term_point64 20 1 60) [(160%Z, term_point64 20 1 90)]
              _ Hsorted Hvar (or_introl eq_refl)) as [Hnil Hrun].
  split; [exact Hnil |]. split; [exact Hrun |].
  destruct (Hundef _ _ _ _ _ Hzero (or_intror eq_refl)) as (error & Hrun0 & _).
  exists error. exact Hrun0.
Defined.

Lemma consistency_gate_uses_stored_forward_vol_witness :
  exists is_quality reasons,
    Nightly64.apply_quality_filters opp_boundary None
    = Ok (is_quality, reasons)
    /\ rederived_forward_factor64 opp_boundary
       = S754_finite false 5629499534213119 (-47)
    /\ within_tolerance opp_boundary = true
    /\ reports_mismatch reasons = false.
Proof.
  destruct (proj2 (consistency_gate_uses_stored_forward_vol opp_boundary None))
    as (is_quality & reasons & Hrun & Hmis & _ & _).
  exists is_quality, reasons. split; [exact Hrun |].
  split; [vm_compute; reflexivity |].
  assert (Htol : within_tolerance opp_boundary = true)
    by (vm_compute; reflexivity).
  split; [exact Htol |].
  destruct (reports_mismatch reasons); [| reflexivity].
  destruct (proj1 Hmis eq_refl) as [Hz | Hf].
  - discriminate Hz.
  - rewrite Htol in Hf. discriminate Hf.
Defined.

(** In binary64 as in exact arithmetic, the forward factor of section 4.2
    for [opp_flat] is 0, 100 points away from the stored one, and the filter
    accepts the opportunity: the stored forward volatility is not checked
    against the DTEs and the back IV. *)
Lemma stored_volatility_not_checked :
  Spec64.forward_factor sample_libm_pow
    (Nightly64.front_iv opp_flat) (Nightly64.front_dte opp_flat)
    (Nightly64.back_iv opp_flat) (Nightly64.back_dte opp_flat)
  = Ok Binary64.zero
  /\ Nightly64.apply_quality_filters opp_flat None = Ok (true, []).
Proof. split; vm_compute; reflexivity. Qed.

Lemma quality_acceptance_region_witness :
  Nightly64.apply_quality_filters opp_boundary None = Ok (true, [])
  /\ Nightly64.apply_quality_filters opp_nan None <> Ok (true, []).
Proof.
  split.
  - apply (proj1 (quality_acceptance_region opp_boundary None)).
    repeat split; try (vm_compute; reflexivity); try (cbn; lia);
      try discriminate.
  - intros Hacc.
    destruct (proj2 (quality_acceptance_region opp_nan None) Hacc)
      as [Hnan _].
    discriminate Hnan.
Defined.

Lemma sample_parse64 :
  Nightly64.parse_opportunities no_float64 no_int
    (sample_scan_data64
       [sample_entry64 (Nightly64.JInt 100) (Nightly64.JInt 30)])
  = Ok [sample_opportunity64 (Binary64.of_Z 100) 30 (Binary64.of_Z 40) 60
          (Binary64.of_Z 40) (Binary64.of_Z 20) false].
Proof. vm_compute. reflexivity. Qed.

Lemma parse_opportunities_robust_witness :
  exists opp entry,
    Nightly64.parse_opportunities no_float64 no_int
      (sample_scan_data64
         [sample_entry64 (Nightly64.JInt 100) (Nightly64.JInt 30)])
    = Ok [opp]
    /\ Nightly64.Raw.has_earnings_soon entry = Some (Nightly64.JBool true)
    /\ Nightly64.Raw.ticker entry = Some (Nightly64.ticker opp)
    /\ Nightly64.has_earnings_soon opp = false.
Proof.
  exists (sample_opportunity64 (Binary64.of_Z 100) 30 (Binary64.of_Z 40) 60
            (Binary64.of_Z 40) (Binary64.of_Z 20) false),
    (sample_entry64 (Nightly64.JInt 100) (Nightly64.JInt 30)).
  split; [exact sample_parse64 |].
  destruct (proj2 (parse_opportunities_robust no_float64 no_int
                     (sample_scan_data64
                        [sample_entry64 (Nightly64.JInt 100)
                           (Nightly64.JInt 30)]))
              _ sample_parse64) as (_ & _ & Hfrom).
  destruct (Hfrom _ (or_introl eq_refl))
    as (entries & entry & info & Hentries & Hentry & Ht & _ & _ & _ & Hflag).
  cbn in Hentries. injection Hentries as <-.
  destruct Hentry as [<- | []].
  split; [reflexivity |]. split; [exact Ht | reflexivity].
Defined.

Lemma bad_number_aborts_parse_witness :
  (exists e,
     Nightly64.parse_opportunities no_float64 no_int
       (sample_scan_data64
          [sample_entry64 (Nightly64.JInt 100) (Nightly64.JInt 30);
           sample_entry64 Nightly64.JNull (Nightly64.JInt 30)])
     = Raise e)
  /\ (exists e,
        Nightly64.parse_opportunities no_float64 no_int
          (sample_scan_data64
             [sample_entry64 (Nightly64.JInt (10 ^ 400))
                (Nightly64.JInt 30)])
        = Raise e).
Proof.
  split.
  - destruct (bad_number_aborts_parse no_float64 no_int
                (sample_scan_data64
                   [sample_entry64 (Nightly64.JInt 100) (Nightly64.JInt 30);
                    sample_entry64 Nightly64.JNull (Nightly64.JInt 30)])
                _ (sample_entry64 Nightly64.JNull (Nightly64.JInt 30)) "PLTR"
                eq_refl (or_intror (or_introl eq_refl)) eq_refl
                (or_introl eq_refl)) as (e & Hrun & _).
    exists e. exact Hrun.
  - destruct (bad_number_aborts_parse no_float64 no_int
                (sample_scan_data64
                   [sample_entry64 (Nightly64.JInt (10 ^ 400))
                      (Nightly64.JInt 30)])
                _ (sample_entry64 (Nightly64.JInt (10 ^ 400))
                     (Nightly64.JInt 30)) "PLTR"
                eq_refl (or_introl eq_refl) eq_refl
                (or_intror (ex_intro _ (10 ^ 400)%Z
                              (conj eq_refl eq_refl)))) as (e & Hrun & _).
    exists e. exact Hrun.
Defined.
